(** * Lovebug map backend: connection registry, fan-out broadcaster and
      scheduled ingest pipeline

    A shallow embedding of
    - [app/utils/websocket_manager.py] (class [WebSocketManager]),
    - [app/main.py] ([crawl_and_update], [websocket_endpoint]),
    - [app/crawlers/twitter_crawler.py] ([crawl_lovebug_tweets],
      [_process_tweet], [_determine_severity]),
    - [app/models/lovebug_data.py] ([LovebugReport], [Location], the enums),
    - [app/utils/text_analyzer.py] ([_analyze_intensity]),
    - [app/utils/location_extractor.py] ([extract_location],
      [_get_coordinates]) and
    - [app/api/routes.py] ([get_report]),
    followed by the properties of the specification that concern them.

    Coroutines are functions in a state-and-exception monad.  The state holds
    the one [WebSocketManager] object of the process and the history of the
    input/output performed so far; what the outside world answers (does a
    handshake complete, does a send go through, does the store take an upsert)
    is read from an [Environment] that may look at the whole history. *)

From stdpp Require Import list strings gmap.

Set Default Proof Using "Type".
Set Warnings "-register-all".

(** ** Python values *)

(** The values that travel in messages and documents.  A float is kept as its
    [repr] and a datetime as its ISO-8601 text: no arithmetic is done on
    either by the code embedded here. *)
Inductive PyValue : Type :=
| PyNone
| PyBool (b : bool)
| PyInt (n : Z)
| PyFloat (repr : string)
| PyStr (s : string)
| PyDatetime (iso : string)
| PyList (items : list PyValue)
| PyDict (items : list (string * PyValue)).

(** [d.get(key)] on a value; [None] when [d] is no dict or has no such key. *)
Fixpoint assoc_get {V : Type} (key : string) (items : list (string * V)) : option V :=
  match items with
  | [] => None
  | (k, v) :: rest => if decide (k = key) then Some v else assoc_get key rest
  end.

Definition py_get (key : string) (v : PyValue) : option PyValue :=
  match v with
  | PyDict items => assoc_get key items
  | _ => None
  end.

(** [d.get(key, default)] *)
Definition py_get_default (key : string) (default : PyValue) (items : list (string * PyValue)) : PyValue :=
  match assoc_get key items with
  | Some v => v
  | None => default
  end.

(** ** Insertion-ordered dictionaries keyed by object identity *)

Module PyDict.
Section ordered_dict.
Context {K V : Type} `{EqDecision K}.

(** [d[k]] *)
Fixpoint get (k : K) (d : list (K * V)) : option V :=
  match d with
  | [] => None
  | (k', v) :: rest => if decide (k = k') then Some v else get k rest
  end.

(** [d[k] = v]: an existing key keeps its place, a new one goes last. *)
Fixpoint set (k : K) (v : V) (d : list (K * V)) : list (K * V) :=
  match d with
  | [] => [(k, v)]
  | (k', v') :: rest =>
      if decide (k = k') then (k, v) :: rest else (k', v') :: set k v rest
  end.

(** [d.pop(k, default)], the dictionary that is left. *)
Fixpoint pop (k : K) (d : list (K * V)) : list (K * V) :=
  match d with
  | [] => []
  | (k', v') :: rest =>
      if decide (k = k') then rest else (k', v') :: pop k rest
  end.

Definition keys (d : list (K * V)) : list K := d.*1.
Definition values (d : list (K * V)) : list V := d.*2.
End ordered_dict.
End PyDict.

(** [l.remove(x)]: the first occurrence goes.  (Python raises [ValueError]
    when there is none; every call below is guarded by [x in l].) *)
Fixpoint list_remove {A : Type} `{EqDecision A} (x : A) (l : list A) : list A :=
  match l with
  | [] => []
  | y :: rest => if decide (x = y) then rest else y :: list_remove x rest
  end.

(** ** The registry: [WebSocketManager] *)

(** A [WebSocket] object, up to identity (it is hashed and compared by
    identity when used as a list member and as a dictionary key). *)
Definition WebSocket : Type := nat.

(** The per-connection dictionary [{'user_id': .., 'connected_at': ..,
    'last_activity': ..}]. *)
Record ConnInfo : Type := mkConnInfo {
  user_id : option string;
  connected_at : PyValue;
  last_activity : PyValue
}.

Record WebSocketManager : Type := mkManager {
  active_connections : list WebSocket;
  connection_info : list (WebSocket * ConnInfo)
}.

(** [__init__] *)
Definition init : WebSocketManager :=
  {| active_connections := []; connection_info := [] |}.

(** The two assignments of [connect] after the handshake. *)
Definition add_connection (websocket : WebSocket) (uid : option string)
    (self : WebSocketManager) : WebSocketManager :=
  {| active_connections := active_connections self ++ [websocket];
     connection_info :=
       PyDict.set websocket
         {| user_id := uid; connected_at := PyNone; last_activity := PyNone |}
         (connection_info self) |}.

Definition disconnect (websocket : WebSocket) (self : WebSocketManager) : WebSocketManager :=
  if decide (websocket ∈ active_connections self) then
    {| active_connections := list_remove websocket (active_connections self);
       connection_info := PyDict.pop websocket (connection_info self) |}
  else self.

(** [disconnect] of every channel of [failed] in turn: the state after the
    second loop of [broadcast]. *)
Definition disconnect_all (self : WebSocketManager) (failed : list WebSocket) : WebSocketManager :=
  foldl (fun m c => disconnect c m) self failed.

Definition get_connection_count (self : WebSocketManager) : nat :=
  length (active_connections self).

(** Truthiness of [info.get('user_id')]: neither [None] nor the empty string. *)
Definition truthy_user_id (uid : option string) : option string :=
  match uid with
  | Some s => if decide (s = EmptyString) then None else Some s
  | None => None
  end.

Definition get_connected_users (self : WebSocketManager) : list string :=
  omap (fun info => truthy_user_id (user_id info)) (PyDict.values (connection_info self)).

(** ** Input/output, exceptions and coroutines *)

Inductive Exn : Type :=
| Exception (what : string)
| WebSocketDisconnect.

Inductive Result (A : Type) : Type :=
| Return (a : A)
| Raise (e : Exn).
Arguments Return {A} a.
Arguments Raise {A} e.

(** What the process does to the outside world, with the answer it got. *)
Inductive Event : Type :=
| EvAccept (websocket : WebSocket) (ok : bool)
| EvJsonDumps (message : PyValue)
| EvSendText (websocket : WebSocket) (text : string) (ok : bool)
| EvReceiveText (websocket : WebSocket) (data : Result string)
| EvUpdateOne (tweet_id : PyValue) (document : PyValue) (ok : bool)
| EvBroadcast (message : PyValue).

(** The answers of the outside world.  Each may depend on everything that
    happened before. *)
Class Environment : Type := {
  (** does [websocket.accept()] complete *)
  accept_ok : list Event -> WebSocket -> bool;
  (** does [websocket.send_text(text)] complete *)
  send_ok : list Event -> WebSocket -> string -> bool;
  (** [json.dumps(message, ensure_ascii=False)]: the text, or the exception
      for a value that has no JSON form *)
  dumps : PyValue -> Result string;
  (** is the global [database] set (it is [None] until start-up has run) *)
  database_ready : bool;
  (** does [collection.update_one(.., upsert=True)] complete *)
  update_ok : list Event -> PyValue -> PyValue -> bool
}.

Record State : Type := mkState {
  manager : WebSocketManager;
  history : list Event
}.

Definition Async (A : Type) : Type := State -> Result A * State.

Definition ret {A : Type} (a : A) : Async A := fun st => (Return a, st).

Definition bind {A B : Type} (m : Async A) (k : A -> Async B) : Async B :=
  fun st =>
    match m st with
    | (Return a, st') => k a st'
    | (Raise e, st') => (Raise e, st')
    end.

Definition raise {A : Type} (e : Exn) : Async A := fun st => (Raise e, st).

(** [try: body / except Exception as e: handler] *)
Definition try_except {A : Type} (body : Async A) (handler : Exn -> Async A) : Async A :=
  fun st =>
    match body st with
    | (Return a, st') => (Return a, st')
    | (Raise e, st') => handler e st'
    end.

(** [try: body / except WebSocketDisconnect: handler] *)
Definition try_except_disconnect {A : Type} (body : Async A) (handler : Async A) : Async A :=
  fun st =>
    match body st with
    | (Raise WebSocketDisconnect, st') => handler st'
    | r => r
    end.

Declare Scope async_scope.
Delimit Scope async_scope with async.
Bind Scope async_scope with Async.
Notation "x <- m ;; k" := (bind m (fun x => k))
  (at level 100, m at next level, right associativity) : async_scope.
Notation "m ;;; k" := (bind m (fun _ => k))
  (at level 100, right associativity) : async_scope.
Open Scope async_scope.

Definition get_manager : Async WebSocketManager := fun st => (Return (manager st), st).

Definition update_manager (f : WebSocketManager -> WebSocketManager) : Async unit :=
  fun st => (Return tt, {| manager := f (manager st); history := history st |}).

Definition emit (e : Event) : State -> State :=
  fun st => {| manager := manager st; history := history st ++ [e] |}.

Fixpoint for_each {A : Type} (l : list A) (body : A -> Async unit) : Async unit :=
  match l with
  | [] => ret tt
  | x :: rest => body x ;;; for_each rest body
  end.

Section io.
Context `{Environment}.

(** [await websocket.accept()] *)
Definition ws_accept (websocket : WebSocket) : Async unit :=
  fun st =>
    let ok := accept_ok (history st) websocket in
    (if ok then Return tt else Raise (Exception "accept"),
     emit (EvAccept websocket ok) st).

(** [await websocket.send_text(text)] *)
Definition ws_send_text (websocket : WebSocket) (text : string) : Async unit :=
  fun st =>
    let ok := send_ok (history st) websocket text in
    (if ok then Return tt else Raise (Exception "send_text"),
     emit (EvSendText websocket text ok) st).

(** [json.dumps(message, ensure_ascii=False)] *)
Definition json_dumps (message : PyValue) : Async string :=
  fun st => (dumps message, emit (EvJsonDumps message) st).

(** [await collection.update_one({"tweet_id": tweet_id}, {"$set": document},
    upsert=True)] *)
Definition update_one (tweet_id document : PyValue) : Async unit :=
  fun st =>
    let ok := update_ok (history st) tweet_id document in
    (if ok then Return tt else Raise (Exception "update_one"),
     emit (EvUpdateOne tweet_id document ok) st).
End io.

(** ** The coroutines of [WebSocketManager] *)

Section manager.
Context `{Environment}.

Definition connect (websocket : WebSocket) (uid : option string) : Async unit :=
  ws_accept websocket ;;;
  update_manager (add_connection websocket uid).

Definition send_personal_message (message : PyValue) (websocket : WebSocket) : Async unit :=
  try_except
    (text <- json_dumps message ;; ws_send_text websocket text)
    (fun _ => update_manager (disconnect websocket)).

(** The first loop of [broadcast] when nothing else touches the list while
    it runs: one send per member, the failures appended in order. *)
Fixpoint broadcast_sends (message_str : string) (connections : list WebSocket)
    (disconnected_connections : list WebSocket) : Async (list WebSocket) :=
  match connections with
  | [] => ret disconnected_connections
  | connection :: rest =>
      failed <- try_except (ws_send_text connection message_str ;;; ret false)
                           (fun _ => ret true) ;;
      broadcast_sends message_str rest
        (if failed : bool then disconnected_connections ++ [connection]
         else disconnected_connections)
  end.

Definition broadcast (message : PyValue) : Async unit :=
  self <- get_manager ;;
  match active_connections self with
  | [] => ret tt
  | _ :: _ =>
      message_str <- json_dumps message ;;
      disconnected_connections <-
        broadcast_sends message_str (active_connections self) [] ;;
      for_each disconnected_connections
        (fun connection => update_manager (disconnect connection))
  end.

(** The loop of [send_to_user] over [connection_info.items()]. *)
Fixpoint send_to_user_items (uid : string) (message : PyValue)
    (items : list (WebSocket * ConnInfo)) : Async bool :=
  match items with
  | [] => ret false
  | (connection, info) :: rest =>
      if decide (user_id info = Some uid) then
        send_personal_message message connection ;;; ret true
      else send_to_user_items uid message rest
  end.

Definition send_to_user (uid : string) (message : PyValue) : Async bool :=
  self <- get_manager ;;
  send_to_user_items uid message (connection_info self).
End manager.

(** ** [broadcast] with other tasks running at its suspension points *)

(** What another task may do to the registry while [broadcast] is suspended
    in a send: a new client is added by [connect], or the receive loop of a
    client that went away calls [disconnect]. *)
Inductive Interference : Type :=
| OtherConnect (websocket : WebSocket) (uid : option string)
| OtherDisconnect (websocket : WebSocket).

Definition interfere (self : WebSocketManager) (i : Interference) : WebSocketManager :=
  match i with
  | OtherConnect websocket uid => add_connection websocket uid self
  | OtherDisconnect websocket => disconnect websocket self
  end.

(** [io] is awaited and the tasks of [others] run before it resumes. *)
Definition await_while {A : Type} (others : list Interference) (io : Async A) : Async A :=
  fun st =>
    let '(r, st') := io st in
    (r, {| manager := foldl interfere (manager st') others; history := history st' |}).

Section live.
Context `{Environment}.

(** The [for] loop of [broadcast] as Python runs it: the list iterator keeps
    a position into [self.active_connections] itself and reads the list
    anew at every step.  [schedule] gives, for each send in turn, what the
    other tasks do during it; once it is used up nobody interferes and the
    loop finishes over the rest of the list. *)
Fixpoint broadcast_sends_live (message_str : string) (schedule : list (list Interference))
    (index : nat) (disconnected_connections : list WebSocket) : Async (list WebSocket) :=
  match schedule with
  | [] =>
      self <- get_manager ;;
      broadcast_sends message_str (drop index (active_connections self))
        disconnected_connections
  | others :: schedule' =>
      self <- get_manager ;;
      match active_connections self !! index with
      | None => ret disconnected_connections
      | Some connection =>
          failed <- try_except
                      (await_while others (ws_send_text connection message_str) ;;; ret false)
                      (fun _ => ret true) ;;
          broadcast_sends_live message_str schedule' (S index)
            (if failed : bool then disconnected_connections ++ [connection]
             else disconnected_connections)
      end
  end.

Definition broadcast_live (schedule : list (list Interference)) (message : PyValue) : Async unit :=
  self <- get_manager ;;
  match active_connections self with
  | [] => ret tt
  | _ :: _ =>
      message_str <- json_dumps message ;;
      disconnected_connections <- broadcast_sends_live message_str schedule 0 [] ;;
      for_each disconnected_connections
        (fun connection => update_manager (disconnect connection))
  end.
End live.

(** ** The live channel: [websocket_endpoint] *)

Definition pong_message : PyValue :=
  PyDict [("type", PyStr "pong"); ("message", PyStr "연결 유지됨")].

(** [await websocket.receive_text()], with what the client does next. *)
Definition ws_receive_text (websocket : WebSocket) (answer : Result string) : Async string :=
  fun st => (answer, emit (EvReceiveText websocket answer) st).

Section endpoint.
Context `{Environment}.

(** The [while True] loop for a client that sends the frames of [incoming]
    and then makes [receive_text] raise [closing]. *)
Fixpoint receive_loop (websocket : WebSocket) (incoming : list string) (closing : Exn) : Async unit :=
  match incoming with
  | [] => _ <- ws_receive_text websocket (Raise closing) ;; ret tt
  | frame :: rest =>
      data <- ws_receive_text websocket (Return frame) ;;
      send_personal_message pong_message websocket ;;;
      receive_loop websocket rest closing
  end.

Definition websocket_endpoint (websocket : WebSocket) (incoming : list string)
    (closing : Exn) : Async unit :=
  connect websocket None ;;;
  try_except_disconnect
    (receive_loop websocket incoming closing)
    (update_manager (disconnect websocket)).
End endpoint.


(** ** Reports: [app/models/lovebug_data.py] *)

(** A Python float, as its [repr]. *)
Definition float : Type := string.
(** A [datetime], as its ISO-8601 text. *)
Definition datetime : Type := string.

Inductive SeverityLevel : Type := LOW | MEDIUM | HIGH | CRITICAL.

Definition SeverityLevel_value (s : SeverityLevel) : string :=
  match s with
  | LOW => "low"
  | MEDIUM => "medium"
  | HIGH => "high"
  | CRITICAL => "critical"
  end.

Inductive Platform : Type := TWITTER | INSTAGRAM | NAVER_BLOG | KAKAO_TALK.

Definition Platform_value (p : Platform) : string :=
  match p with
  | TWITTER => "twitter"
  | INSTAGRAM => "instagram"
  | NAVER_BLOG => "naver_blog"
  | KAKAO_TALK => "kakao_talk"
  end.

Module Location.
Record t : Type := mk {
  latitude : float;
  longitude : float;
  address : option string;
  district : option string;
  city : option string
}.
End Location.

Module LovebugReport.
Record t : Type := mk {
  id : option string;
  tweet_id : option string;
  platform : Platform;
  content : string;
  location : option Location.t;
  severity : SeverityLevel;
  confidence : float;
  sentiment : float;
  keywords : list string;
  image_urls : list string;
  author : option string;
  created_at : datetime;
  updated_at : datetime
}.
End LovebugReport.

Definition py_optional_str (o : option string) : PyValue :=
  match o with
  | Some s => PyStr s
  | None => PyNone
  end.

(** [location.dict()] *)
Definition Location_dict (l : Location.t) : PyValue :=
  PyDict [("latitude", PyFloat (Location.latitude l));
          ("longitude", PyFloat (Location.longitude l));
          ("address", py_optional_str (Location.address l));
          ("district", py_optional_str (Location.district l));
          ("city", py_optional_str (Location.city l))].

(** [report.dict()]: the fields in declaration order, nested models turned
    into dicts, datetimes left as datetimes.  The two enums derive from [str];
    their members are given as the strings they are. *)
Definition LovebugReport_dict (r : LovebugReport.t) : PyValue :=
  PyDict [("id", py_optional_str (LovebugReport.id r));
          ("tweet_id", py_optional_str (LovebugReport.tweet_id r));
          ("platform", PyStr (Platform_value (LovebugReport.platform r)));
          ("content", PyStr (LovebugReport.content r));
          ("location", match LovebugReport.location r with
                       | Some l => Location_dict l
                       | None => PyNone
                       end);
          ("severity", PyStr (SeverityLevel_value (LovebugReport.severity r)));
          ("confidence", PyFloat (LovebugReport.confidence r));
          ("sentiment", PyFloat (LovebugReport.sentiment r));
          ("keywords", PyList (PyStr <$> LovebugReport.keywords r));
          ("image_urls", PyList (PyStr <$> LovebugReport.image_urls r));
          ("author", py_optional_str (LovebugReport.author r));
          ("created_at", PyDatetime (LovebugReport.created_at r));
          ("updated_at", PyDatetime (LovebugReport.updated_at r))].

(** ** The crawler: [app/crawlers/twitter_crawler.py] *)

Module TweetData.
Record t : Type := mk {
  id : string;
  text : string;
  author : string;
  created_at : datetime;
  images : list string;
  location : option string
}.
End TweetData.

(** What the crawler calls and does not decide itself.  The text heuristics
    ([analyze_text], [extract_location], [_determine_severity],
    [_extract_keywords]) and the field validation of the [LovebugReport]
    constructor are taken with any behaviour, raising included. *)
Class Collaborators : Type := {
  (** [os.getenv("TWITTER_BEARER_TOKEN")] *)
  bearer_token : option string;
  (** the tweets [_crawl_with_api] comes back with (it returns [[]] rather
      than raise) *)
  api_tweets : list TweetData.t;
  (** [datetime.now() - timedelta(minutes=n)] *)
  minutes_ago : nat -> datetime;
  (** [datetime.now()]: the source reads the clock anew for every tweet it
      processes; one reading stands for all of them here, and nothing below
      compares the update times of two reports *)
  now : datetime;
  analyze_text : string -> Result (list (string * PyValue));
  extract_location : string -> Result (option Location.t);
  _determine_severity : string -> list (string * PyValue) -> Result SeverityLevel;
  _extract_keywords : string -> Result (list string);
  (** the validator of a [float] field *)
  validate_float : PyValue -> Result float
}.

(** Sequencing of calls that may raise. *)
Definition and_then {A B : Type} (r : Result A) (k : A -> Result B) : Result B :=
  match r with
  | Return a => k a
  | Raise e => Raise e
  end.

Section crawler.
Context `{Collaborators}.

Definition _crawl_with_api : list TweetData.t := api_tweets.

Definition _crawl_with_scraping : list TweetData.t :=
  [ {| TweetData.id := "sample_1";
       TweetData.text := "강남역에서 러브버그 진짜 많네요... 차에 다 붙어있어요 ㅠㅠ";
       TweetData.author := "sample_user1";
       TweetData.created_at := minutes_ago 30;
       TweetData.images := [];
       TweetData.location := None |};
    {| TweetData.id := "sample_2";
       TweetData.text := "홍대 근처에 붉은등우단털파리 떼가 있어요. 조심하세요!";
       TweetData.author := "sample_user2";
       TweetData.created_at := minutes_ago 15;
       TweetData.images := [];
       TweetData.location := None |} ].

(** The body of the [try] of [_process_tweet]. *)
Definition build_report (tweet_data : TweetData.t) : Result LovebugReport.t :=
  and_then (analyze_text (TweetData.text tweet_data)) (fun analysis =>
  and_then (extract_location (TweetData.text tweet_data)) (fun location =>
  and_then (_determine_severity (TweetData.text tweet_data) analysis) (fun severity =>
  and_then (_extract_keywords (TweetData.text tweet_data)) (fun keywords =>
  and_then (validate_float (py_get_default "confidence" (PyFloat "0.7") analysis)) (fun confidence =>
  and_then (validate_float (py_get_default "sentiment" (PyFloat "0.0") analysis)) (fun sentiment =>
  Return {| LovebugReport.id := None;
            LovebugReport.tweet_id := Some (TweetData.id tweet_data);
            LovebugReport.platform := TWITTER;
            LovebugReport.content := TweetData.text tweet_data;
            LovebugReport.location := location;
            LovebugReport.severity := severity;
            LovebugReport.confidence := confidence;
            LovebugReport.sentiment := sentiment;
            LovebugReport.keywords := keywords;
            LovebugReport.image_urls := TweetData.images tweet_data;
            LovebugReport.author := Some (TweetData.author tweet_data);
            LovebugReport.created_at := TweetData.created_at tweet_data;
            LovebugReport.updated_at := now |})))))).

(** [try: .. return report / except Exception: return None] *)
Definition _process_tweet (tweet_data : TweetData.t) : option LovebugReport.t :=
  match build_report tweet_data with
  | Return report => Some report
  | Raise _ => None
  end.

(** The [for] loop of [crawl_lovebug_tweets]. *)
Fixpoint process_tweets (tweets : list TweetData.t) (reports : list LovebugReport.t)
    : list LovebugReport.t :=
  match tweets with
  | [] => reports
  | tweet_data :: rest =>
      match _process_tweet tweet_data with
      | Some report => process_tweets rest (reports ++ [report])
      | None => process_tweets rest reports
      end
  end.

(** Nothing in the [try] of [crawl_lovebug_tweets] raises here (both fetchers
    and [_process_tweet] catch what their callees raise), so its [except] is
    not reached. *)
(** The raw items of a run: the [tweets] of [crawl_lovebug_tweets]. *)
Definition fetched_tweets : list TweetData.t :=
  match bearer_token with
  | Some token => if decide (token = EmptyString) then _crawl_with_scraping else _crawl_with_api
  | None => _crawl_with_scraping
  end.

Definition crawl_lovebug_tweets : list LovebugReport.t :=
  process_tweets fetched_tweets [].
End crawler.

(** ** The scheduled run: [crawl_and_update] in [app/main.py] *)

Definition lovebug_update (reports : list LovebugReport.t) : PyValue :=
  PyDict [("type", PyStr "lovebug_update");
          ("data", PyList (LovebugReport_dict <$> reports))].

Section pipeline.
Context `{Environment} `{Collaborators}.

(** [collection = database.lovebug_reports]: an [AttributeError] while
    [database] is still [None]. *)
Definition get_collection : Async unit :=
  if database_ready then ret tt else raise (Exception "AttributeError").

(** [await websocket_manager.broadcast(message)], the call being recorded. *)
Definition call_broadcast (message : PyValue) : Async unit :=
  (fun st => (Return tt, emit (EvBroadcast message) st)) ;;;
  broadcast message.

Definition crawl_and_update : Async unit :=
  try_except
    (let reports := crawl_lovebug_tweets in
     match reports with
     | [] => ret tt
     | _ :: _ =>
         get_collection ;;;
         for_each reports (fun report =>
           update_one (py_optional_str (LovebugReport.tweet_id report))
                      (LovebugReport_dict report)) ;;;
         call_broadcast (lovebug_update reports)
     end)
    (fun _ => ret tt).
End pipeline.


(** ** Reading a history *)

(** What was added to the history between [st] and a later [st']. *)
Definition since (st st' : State) : list Event :=
  drop (length (history st)) (history st').

(** The messages handed to [json.dumps]. *)
Definition serialized (evs : list Event) : list PyValue :=
  omap (fun e => match e with EvJsonDumps message => Some message | _ => None end) evs.

(** The send attempts, with the channel and the text of each. *)
Definition send_attempts (evs : list Event) : list (WebSocket * string) :=
  omap (fun e => match e with EvSendText c text _ => Some (c, text) | _ => None end) evs.

(** The channels whose send raised. *)
Definition failed_sends (evs : list Event) : list WebSocket :=
  omap (fun e => match e with EvSendText c _ false => Some c | _ => None end) evs.

(** The upserts attempted: key and document. *)
Definition upserts (evs : list Event) : list (PyValue * PyValue) :=
  omap (fun e => match e with EvUpdateOne k d _ => Some (k, d) | _ => None end) evs.

(** The messages the run called the broadcaster with. *)
Definition broadcast_calls (evs : list Event) : list PyValue :=
  omap (fun e => match e with EvBroadcast message => Some message | _ => None end) evs.

Definition is_send_of (text : string) (e : Event) : Prop :=
  match e with
  | EvSendText _ text' _ => text' = text
  | _ => False
  end.

Definition is_upsert (e : Event) : Prop :=
  match e with
  | EvUpdateOne _ _ _ => True
  | _ => False
  end.

(** What [broadcast] itself adds to a history: serializations and sends. *)
Definition is_wire (e : Event) : Prop :=
  match e with
  | EvJsonDumps _ | EvSendText _ _ _ => True
  | _ => False
  end.

(** Key and document of the upsert of a report. *)
Definition upsert_of (report : LovebugReport.t) : PyValue * PyValue :=
  (py_optional_str (LovebugReport.tweet_id report), LovebugReport_dict report).

(** What the sends of one pass over [connections] yield, from history [h] on. *)
Fixpoint send_events `{Environment} (h : list Event) (text : string)
    (connections : list WebSocket) : list Event :=
  match connections with
  | [] => []
  | c :: rest =>
      let e := EvSendText c text (send_ok h c text) in
      e :: send_events (h ++ [e]) text rest
  end.

(** What a run adds to the history, by the ways it can go. *)
Inductive RunShape `{Environment} (reports : list LovebugReport.t) : list Event -> Prop :=
| run_nothing_to_do :
    reports = [] -> RunShape reports []
| run_no_database :
    reports <> [] -> database_ready = false -> RunShape reports []
| run_upsert_raised ups k d :
    reports <> [] -> database_ready = true ->
    Forall is_upsert ups ->
    (forall k d, EvUpdateOne k d false ∈ ups -> exists h, update_ok h k d = false) ->
    EvUpdateOne k d false ∈ ups ->
    RunShape reports ups
| run_published ups wire :
    reports <> [] -> database_ready = true ->
    Forall is_upsert ups ->
    upserts ups = upsert_of <$> reports ->
    (forall k d, EvUpdateOne k d false ∉ ups) ->
    Forall is_wire wire ->
    RunShape reports (ups ++ EvBroadcast (lovebug_update reports) :: wire).

(** ** Well-formed registries *)

(** The list and the dictionary have the same members. *)
Definition same_members (self : WebSocketManager) : Prop :=
  forall c, c ∈ active_connections self <-> c ∈ PyDict.keys (connection_info self).

(** The same, with no channel twice in the list.  (That the keys of a
    dictionary are distinct is what a dictionary is.) *)
Definition registry_wf (self : WebSocketManager) : Prop :=
  NoDup (active_connections self) /\
  NoDup (PyDict.keys (connection_info self)) /\
  same_members self.

(** From [st] to [st'] the registry stayed well formed and every channel
    whose send raised in between is gone from list and dictionary. *)
Definition pruned_after (st st' : State) : Prop :=
  registry_wf (manager st') /\
  forall websocket text,
    EvSendText websocket text false ∈ since st st' ->
    (websocket ∉ active_connections (manager st')) /\
    PyDict.get websocket (connection_info (manager st')) = None.

(** A [WebSocket] completes its handshake at most once: [accept()] on a
    connection that has left its connecting state raises. *)
Definition accepts_once `{Environment} : Prop :=
  forall h websocket, EvAccept websocket true ∈ h -> accept_ok h websocket = false.

(** Every channel of the list went through its handshake. *)
Definition members_accepted (st : State) : Prop :=
  forall c, c ∈ active_connections (manager st) -> EvAccept c true ∈ history st.

(** The operations of the registry, as one type. *)
Inductive RegistryOp : Type :=
| OpConnect (websocket : WebSocket) (uid : option string)
| OpDisconnect (websocket : WebSocket)
| OpSendPersonalMessage (message : PyValue) (websocket : WebSocket)
| OpBroadcast (message : PyValue)
| OpSendToUser (uid : string) (message : PyValue).

Definition exec `{Environment} (op : RegistryOp) : Async unit :=
  match op with
  | OpConnect websocket uid => connect websocket uid
  | OpDisconnect websocket => update_manager (disconnect websocket)
  | OpSendPersonalMessage message websocket => send_personal_message message websocket
  | OpBroadcast message => broadcast message
  | OpSendToUser uid message => _ <- send_to_user uid message ;; ret tt
  end.

(** Operations made one after the other, each by a caller of its own: the
    exception of one does not stop the next. *)
Fixpoint run_ops `{Environment} (ops : list RegistryOp) : Async unit :=
  match ops with
  | [] => ret tt
  | op :: rest => try_except (exec op) (fun _ => ret tt) ;;; run_ops rest
  end.

(** ** Sequences of register and unregister calls *)

Inductive RegistryCall : Type :=
| Register (websocket : WebSocket) (uid : option string)
| Unregister (websocket : WebSocket).

(** The calls made one after the other, each [connect] by a caller of its
    own (an exception of one does not stop the next); every call is paired
    with whether it completed. *)
Fixpoint run_calls `{Environment} (calls : list RegistryCall) : Async (list (RegistryCall * bool)) :=
  match calls with
  | [] => ret []
  | call :: rest =>
      ok <- match call with
            | Register websocket uid =>
                try_except (connect websocket uid ;;; ret true) (fun _ => ret false)
            | Unregister websocket =>
                update_manager (disconnect websocket) ;;; ret true
            end ;;
      outcomes <- run_calls rest ;;
      ret ((call, ok) :: outcomes)
  end.

(** Spec side: the channels registered and not since unregistered, as the
    specification counts them, a set of channels. *)
Definition registered_step (S : gset WebSocket) (o : RegistryCall * bool) : gset WebSocket :=
  match o with
  | (Register websocket _, true) => {[websocket]} ∪ S
  | (Register _ _, false) => S
  | (Unregister websocket, _) => S ∖ {[websocket]}
  end.

Definition registered_channels (outcomes : list (RegistryCall * bool)) : gset WebSocket :=
  foldl registered_step ∅ outcomes.

(** The list of the registry holds exactly the channels of [S], each once. *)
Definition tracks (self : WebSocketManager) (S : gset WebSocket) : Prop :=
  NoDup (active_connections self) /\ forall c, c ∈ active_connections self <-> c ∈ S.

(** ** Spec side: the shapes of messages and metadata *)

(** Between [st] and [st'] the sends went to the members of the registry as
    they were at [st], one each and in order: an iteration over a snapshot. *)
Definition sends_to_snapshot (st st' : State) : Prop :=
  (send_attempts (since st st')).*1 = active_connections (manager st).

(** The envelope [{"type": string, "data": payload}] of the specification. *)
Definition envelope (v : PyValue) : Prop :=
  exists type payload, py_get "type" v = Some (PyStr type) /\ py_get "data" v = Some payload.

(** Metadata stamped with the time [t] of the registration. *)
Definition stamped (t : datetime) (info : ConnInfo) : Prop :=
  connected_at info = PyDatetime t /\ last_activity info = PyDatetime t.

(** ** Environments for examples *)

(** Every handshake completes, a send fails exactly on the channels of
    [dead], every message has the JSON text [json], the store is up and an
    upsert fails exactly when [store_down]. *)
Definition scenario (dead : list WebSocket) (store_down : bool) : Environment :=
  {| accept_ok := fun _ _ => true;
     send_ok := fun _ c _ => bool_decide (c ∉ dead);
     dumps := fun _ => Return "json";
     database_ready := true;
     update_ok := fun _ _ _ => negb store_down |}.

(** Three tweets, the second of which the text analysis chokes on. *)
Definition tweet (id text : string) : TweetData.t :=
  {| TweetData.id := id; TweetData.text := text; TweetData.author := "user";
     TweetData.created_at := "2025-07-01T09:00:00"; TweetData.images := [];
     TweetData.location := None |}.

Definition three_tweets : Collaborators :=
  {| bearer_token := Some "token";
     api_tweets := [tweet "1" "one"; tweet "2" "two"; tweet "3" "three"];
     minutes_ago := fun _ => "2025-07-01T08:30:00";
     now := "2025-07-01T09:00:30";
     analyze_text := fun text =>
       if decide (text = "two") then Raise (Exception "analysis")
       else Return [("confidence", PyFloat "0.9")];
     extract_location := fun _ => Return None;
     _determine_severity := fun _ _ => Return LOW;
     _extract_keywords := fun _ => Return [];
     validate_float := fun v =>
       match v with
       | PyFloat r => Return r
       | _ => Raise (Exception "ValidationError")
       end |}.

Definition report_of (id text : string) : LovebugReport.t :=
  {| LovebugReport.id := None;
     LovebugReport.tweet_id := Some id;
     LovebugReport.platform := TWITTER;
     LovebugReport.content := text;
     LovebugReport.location := None;
     LovebugReport.severity := LOW;
     LovebugReport.confidence := "0.9";
     LovebugReport.sentiment := "0.0";
     LovebugReport.keywords := [];
     LovebugReport.image_urls := [];
     LovebugReport.author := Some "user";
     LovebugReport.created_at := "2025-07-01T09:00:00";
     LovebugReport.updated_at := "2025-07-01T09:00:30" |}.

Definition fresh : State := {| manager := init; history := [] |}.

(** Did the handshake of the channel complete in [h]. *)
Definition was_accepted (websocket : WebSocket) (h : list Event) : bool :=
  existsb (fun e => match e with
                    | EvAccept c true => bool_decide (c = websocket)
                    | _ => false
                    end) h.

(** As [scenario] with a working store, the handshake of a channel
    completing the first time and never again. *)
Definition one_handshake (dead : list WebSocket) : Environment :=
  {| accept_ok := fun h c => negb (was_accepted c h);
     send_ok := fun _ c _ => bool_decide (c ∉ dead);
     dumps := fun _ => Return "json";
     database_ready := true;
     update_ok := fun _ _ _ => true |}.

(** A registry with the three channels 1, 2 and 3, registered in this order. *)
Definition three_channels : State :=
  {| manager := add_connection 3 None (add_connection 2 (Some "bob") (add_connection 1 None init));
     history := [] |}.


(** * Properties *)

(** ** Concrete runs *)

Example broadcast_three_channels :
  broadcast (H := scenario [2] false) (lovebug_update []) three_channels =
    (Return tt,
     {| manager :=
          {| active_connections := [1; 3];
             connection_info :=
               [(1, {| user_id := None; connected_at := PyNone; last_activity := PyNone |});
                (3, {| user_id := None; connected_at := PyNone; last_activity := PyNone |})] |};
        history :=
          [EvJsonDumps (lovebug_update []); EvSendText 1 "json" true;
           EvSendText 2 "json" false; EvSendText 3 "json" true] |}).
Proof. reflexivity. Qed.

Example endpoint_one_frame :
  websocket_endpoint (H := scenario [] false) 1 ["ping"] WebSocketDisconnect fresh =
    (Return tt,
     {| manager := init;
        history :=
          [EvAccept 1 true; EvReceiveText 1 (Return "ping"); EvJsonDumps pong_message;
           EvSendText 1 "json" true; EvReceiveText 1 (Raise WebSocketDisconnect)] |}).
Proof. reflexivity. Qed.

Example three_tweets_batch :
  crawl_lovebug_tweets (H := three_tweets) = [report_of "1" "one"; report_of "3" "three"].
Proof. reflexivity. Qed.

Example three_tweets_run :
  history (crawl_and_update (H := scenario [] false) (H0 := three_tweets) three_channels).2 =
    [EvUpdateOne (PyStr "1") (LovebugReport_dict (report_of "1" "one")) true;
     EvUpdateOne (PyStr "3") (LovebugReport_dict (report_of "3" "three")) true;
     EvBroadcast (lovebug_update [report_of "1" "one"; report_of "3" "three"]);
     EvJsonDumps (lovebug_update [report_of "1" "one"; report_of "3" "three"]);
     EvSendText 1 "json" true; EvSendText 2 "json" true; EvSendText 3 "json" true].
Proof. reflexivity. Qed.

(** ** Lists and dictionaries *)

Section containers.
Context {A : Type} `{EqDecision A}.

Lemma filter_keeps_all (P : A -> Prop) `{!forall y, Decision (P y)} (l : list A) :
  (forall y, y ∈ l -> P y) -> filter P l = l.
Proof.
  induction l as [|y l IH]; intros Hall; [done|].
  rewrite filter_cons_True by (apply Hall; left).
  f_equal. apply IH. intros z Hz. apply Hall. by right.
Qed.

Lemma filter_agree (P Q : A -> Prop) `{!forall y, Decision (P y)} `{!forall y, Decision (Q y)}
    (l : list A) :
  (forall y, y ∈ l -> P y <-> Q y) -> filter P l = filter Q l.
Proof.
  induction l as [|y l IH]; intros Hagree; [done|].
  assert (filter P l = filter Q l) as IH' by (apply IH; intros z Hz; apply Hagree; by right).
  destruct (decide (P y)) as [Hy|Hy].
  - rewrite !filter_cons_True; [by f_equal| |done]. apply Hagree; [left|done].
  - rewrite !filter_cons_False; [done| |done]. intros HQ. apply Hy, Hagree; [left|done].
Qed.

Lemma list_remove_filter (x : A) (l : list A) :
  NoDup l -> list_remove x l = filter (fun y => y <> x) l.
Proof.
  induction 1 as [|y l Hy Hl IH]; simpl; [done|].
  destruct (decide (x = y)) as [->|Hne].
  - rewrite filter_cons_False by (intros Hn; by apply Hn).
    symmetry. apply filter_keeps_all. intros z Hz ->. done.
  - rewrite filter_cons_True by congruence. by rewrite IH.
Qed.

Lemma list_remove_absent (x : A) (l : list A) : x ∉ l -> list_remove x l = l.
Proof.
  induction l as [|y l IH]; simpl; [done|].
  intros Hx. destruct (decide (x = y)) as [->|Hne].
  - exfalso. apply Hx. left.
  - f_equal. apply IH. intros Hin. apply Hx. by right.
Qed.

Lemma list_remove_length (x : A) (l : list A) :
  x ∈ l -> S (length (list_remove x l)) = length l.
Proof.
  induction l as [|y l IH]; simpl.
  - intros Hx. by apply elem_of_nil in Hx.
  - intros Hx. destruct (decide (x = y)) as [->|Hne]; [done|].
    simpl. f_equal. apply IH. apply elem_of_cons in Hx as [?|?]; [done|done].
Qed.
End containers.

Section dictionaries.
Context {K V : Type} `{EqDecision K}.
Implicit Types (d : list (K * V)).

Lemma dict_keys_set k v d :
  PyDict.keys (PyDict.set k v d) =
    if decide (k ∈ PyDict.keys d) then PyDict.keys d else PyDict.keys d ++ [k].
Proof.
  unfold PyDict.keys. induction d as [|[k' v'] d IH].
  - case_decide as Hin; [by apply elem_of_nil in Hin|done].
  - cbn [PyDict.set]. destruct (decide (k = k')) as [->|Hne].
    + rewrite decide_True by (rewrite fmap_cons; left). done.
    + rewrite !fmap_cons. cbn [fst]. rewrite IH.
      destruct (decide (k ∈ d.*1)) as [Hin|Hout].
      * by rewrite decide_True by (by right).
      * rewrite decide_False; [done|].
        intros Hc. apply elem_of_cons in Hc as [?|?]; done.
Qed.

Lemma dict_get_set k k' v d :
  PyDict.get k' (PyDict.set k v d) = if decide (k' = k) then Some v else PyDict.get k' d.
Proof.
  induction d as [|[k0 v0] d IH]; simpl.
  - by destruct (decide (k' = k)).
  - destruct (decide (k = k0)) as [->|Hne]; simpl.
    + by destruct (decide (k' = k0)).
    + rewrite IH. destruct (decide (k' = k0)) as [->|?]; [|done].
      by rewrite decide_False by congruence.
Qed.

Lemma dict_keys_pop k d :
  PyDict.keys (PyDict.pop k d) = list_remove k (PyDict.keys d).
Proof.
  unfold PyDict.keys. induction d as [|[k' v'] d IH]; [done|].
  cbn [PyDict.pop]. rewrite fmap_cons. cbn [fst list_remove].
  destruct (decide (k = k')); [done|]. rewrite fmap_cons. cbn [fst]. by rewrite IH.
Qed.

Lemma dict_get_None k d : PyDict.get k d = None <-> k ∉ PyDict.keys d.
Proof.
  unfold PyDict.keys. induction d as [|[k' v'] d IH].
  - split; [intros _; apply not_elem_of_nil|done].
  - cbn [PyDict.get]. rewrite fmap_cons. cbn [fst].
    destruct (decide (k = k')) as [->|Hne].
    + split; [done|]. intros Hn. exfalso. apply Hn. left.
    + rewrite IH, not_elem_of_cons. intuition.
Qed.

Lemma dict_get_Some k v d :
  NoDup (PyDict.keys d) -> PyDict.get k d = Some v <-> (k, v) ∈ d.
Proof.
  unfold PyDict.keys. induction d as [|[k' v'] d IH]; intros Hnd.
  - split; [done|]. intros Hin. by apply elem_of_nil in Hin.
  - rewrite fmap_cons in Hnd. cbn [fst] in Hnd. apply NoDup_cons in Hnd as [Hk' Hnd].
    cbn [PyDict.get]. rewrite elem_of_cons. destruct (decide (k = k')) as [->|Hne].
    + split; [intros [= ->]; by left|].
      intros [[= ->]|Hin]; [done|]. exfalso. apply Hk'.
      apply list_elem_of_fmap. by exists (k', v).
    + rewrite IH by done. split; [by right|]. intros [[= -> ->]|Hin]; done.
Qed.

Lemma dict_length_keys d : length (PyDict.keys d) = length d.
Proof. unfold PyDict.keys. by rewrite length_fmap. Qed.
End dictionaries.

(** ** The registry without input/output *)

Section registry.
Implicit Types (self : WebSocketManager) (c websocket : WebSocket).

Lemma init_wf : registry_wf init.
Proof. split_and!; [constructor|constructor|done]. Qed.

(** [disconnect] of a channel that is not in the list changes nothing. *)
Lemma disconnect_absent websocket self :
  websocket ∉ active_connections self -> disconnect websocket self = self.
Proof. intros Hout. unfold disconnect. by rewrite decide_False. Qed.

Lemma disconnect_active websocket self :
  NoDup (active_connections self) ->
  active_connections (disconnect websocket self) =
    filter (fun c => c <> websocket) (active_connections self).
Proof.
  intros Hnd. unfold disconnect. case_decide as Hin; simpl.
  - by apply list_remove_filter.
  - symmetry. apply filter_keeps_all. intros c Hc ->. done.
Qed.

Lemma disconnect_count websocket self :
  websocket ∈ active_connections self ->
  S (get_connection_count (disconnect websocket self)) = get_connection_count self.
Proof.
  intros Hin. unfold disconnect, get_connection_count.
  rewrite decide_True by done. simpl. by apply list_remove_length.
Qed.

Lemma disconnect_wf websocket self :
  registry_wf self -> registry_wf (disconnect websocket self).
Proof.
  intros (Hl & Hk & Hsame). unfold disconnect. case_decide as Hin; [|done].
  unfold registry_wf, same_members. simpl.
  rewrite dict_keys_pop, !list_remove_filter by done.
  split_and!; try by apply NoDup_filter.
  intros c. rewrite !list_elem_of_filter. specialize (Hsame c). tauto.
Qed.

Lemma disconnect_gone websocket self :
  registry_wf self ->
  (websocket ∉ active_connections (disconnect websocket self)) /\
  PyDict.get websocket (connection_info (disconnect websocket self)) = None.
Proof.
  intros (Hl & Hk & Hsame). unfold disconnect. case_decide as Hin; simpl.
  - rewrite dict_get_None, dict_keys_pop, !list_remove_filter by done.
    rewrite !list_elem_of_filter. tauto.
  - split; [done|]. apply dict_get_None. by rewrite <- (Hsame websocket).
Qed.

Lemma add_connection_wf websocket uid self :
  registry_wf self ->
  websocket ∉ active_connections self ->
  registry_wf (add_connection websocket uid self).
Proof.
  intros (Hl & Hk & Hsame) Hout.
  assert (websocket ∉ PyDict.keys (connection_info self)) as Hout'
    by (by rewrite <- (Hsame websocket)).
  unfold registry_wf, same_members, add_connection. simpl.
  rewrite dict_keys_set, decide_False by done.
  split_and!.
  - apply NoDup_app. split_and!; [done| |apply NoDup_singleton].
    intros c Hc Hc'. apply list_elem_of_singleton in Hc' as ->. done.
  - apply NoDup_app. split_and!; [done| |apply NoDup_singleton].
    intros c Hc Hc'. apply list_elem_of_singleton in Hc' as ->. done.
  - intros c. rewrite !elem_of_app. specialize (Hsame c). tauto.
Qed.

Lemma disconnect_all_wf failed self :
  registry_wf self -> registry_wf (disconnect_all self failed).
Proof.
  revert self. induction failed as [|c failed IH]; intros self Hwf; [done|].
  apply IH. by apply disconnect_wf.
Qed.

Lemma disconnect_all_active failed self :
  NoDup (active_connections self) ->
  active_connections (disconnect_all self failed) =
    filter (fun c => c ∉ failed) (active_connections self).
Proof.
  revert self. induction failed as [|x failed IH]; intros self Hnd.
  - symmetry. apply filter_keeps_all. intros c _. apply not_elem_of_nil.
  - cbn [disconnect_all foldl]. fold (disconnect_all (disconnect x self) failed).
    rewrite IH by (rewrite disconnect_active by done; by apply NoDup_filter).
    rewrite disconnect_active by done. rewrite list_filter_filter.
    apply list_filter_iff. intros c. rewrite not_elem_of_cons. tauto.
Qed.

Lemma disconnect_all_info failed self c :
  registry_wf self -> c ∈ failed ->
  PyDict.get c (connection_info (disconnect_all self failed)) = None.
Proof.
  intros Hwf Hc.
  pose proof (disconnect_all_wf failed self Hwf) as (_ & _ & Hsame).
  apply dict_get_None. rewrite <- (Hsame c).
  destruct Hwf as (Hnd & _ & _).
  rewrite disconnect_all_active, list_elem_of_filter by done. tauto.
Qed.
Lemma dict_get_pop_ne {V : Type} (k c : WebSocket) (d : list (WebSocket * V)) :
  c <> k -> PyDict.get c (PyDict.pop k d) = PyDict.get c d.
Proof.
  intros Hne. induction d as [|[k' v'] d IH]; [done|].
  cbn [PyDict.pop PyDict.get]. destruct (decide (k = k')) as [->|Hk].
  - by rewrite decide_False.
  - cbn [PyDict.get]. by rewrite IH.
Qed.

Lemma dict_pop_not_key {V : Type} (k : WebSocket) (d : list (WebSocket * V)) :
  NoDup (PyDict.keys d) ->
  (k ∉ PyDict.keys (PyDict.pop k d)) /\ PyDict.get k (PyDict.pop k d) = None.
Proof.
  intros Hnd.
  assert (k ∉ PyDict.keys (PyDict.pop k d)) as Hout.
  { rewrite dict_keys_pop, list_remove_filter by done.
    rewrite list_elem_of_filter. tauto. }
  split; [done|]. by apply dict_get_None.
Qed.

Lemma disconnect_info_other websocket c self :
  c <> websocket ->
  PyDict.get c (connection_info (disconnect websocket self)) = PyDict.get c (connection_info self).
Proof.
  intros Hne. unfold disconnect. case_decide; [|done]. cbn. by apply dict_get_pop_ne.
Qed.

Lemma disconnect_all_info_other failed c self :
  c ∉ failed ->
  PyDict.get c (connection_info (disconnect_all self failed)) = PyDict.get c (connection_info self).
Proof.
  revert self. induction failed as [|x failed IH]; intros self Hout; [done|].
  apply not_elem_of_cons in Hout as [Hne Hout].
  cbn [disconnect_all foldl]. fold (disconnect_all (disconnect x self) failed).
  rewrite IH by done. by apply disconnect_info_other.
Qed.
End registry.

(** ** Running the coroutines *)

Ltac unfold_async :=
  unfold bind, ret, raise, try_except, try_except_disconnect, get_manager,
    update_manager, ws_accept, ws_send_text, ws_receive_text, json_dumps,
    update_one, await_while, emit in *.

Lemma for_each_disconnect (failed : list WebSocket) (st : State) :
  for_each failed (fun c => update_manager (disconnect c)) st =
    (Return tt, {| manager := disconnect_all (manager st) failed; history := history st |}).
Proof.
  revert st. induction failed as [|c failed IH]; intros [m h]; [done|].
  cbn [for_each]. unfold bind at 1. unfold update_manager at 1. rewrite IH. done.
Qed.

Section sends.
Context `{Environment}.

Lemma send_events_attempts h text connections :
  send_attempts (send_events h text connections) = (fun c => (c, text)) <$> connections.
Proof.
  revert h. induction connections as [|c rest IH]; intros h; [done|].
  cbn. f_equal. apply IH.
Qed.

Lemma send_events_sends h text connections :
  Forall (is_send_of text) (send_events h text connections).
Proof.
  revert h. induction connections as [|c rest IH]; intros h; constructor; [done|apply IH].
Qed.

Lemma send_events_failed h text connections c :
  c ∈ failed_sends (send_events h text connections) -> c ∈ connections.
Proof.
  revert h. induction connections as [|x rest IH]; intros h; cbn.
  - done.
  - destruct (send_ok h x text); cbn.
    + intros Hc. right. by eapply IH.
    + intros Hc. apply elem_of_cons in Hc as [->|Hc]; [left|right; by eapply IH].
Qed.

Lemma failed_sends_elem evs c :
  c ∈ failed_sends evs <-> exists text, EvSendText c text false ∈ evs.
Proof.
  unfold failed_sends. rewrite list_elem_of_omap. split.
  - intros (e & He & Hc). destruct e as [| |c' text [|]| | |]; simplify_eq. by exists text.
  - intros (text & He). by exists (EvSendText c text false).
Qed.

Lemma broadcast_sends_run text connections disconnected_connections st :
  broadcast_sends text connections disconnected_connections st =
    (Return (disconnected_connections ++ failed_sends (send_events (history st) text connections)),
     {| manager := manager st;
        history := history st ++ send_events (history st) text connections |}).
Proof.
  revert disconnected_connections st.
  induction connections as [|c rest IH]; intros acc [m h].
  - cbn. unfold ret. by rewrite !app_nil_r.
  - cbn [broadcast_sends send_events]. unfold_async. cbn.
    destruct (send_ok h c text); rewrite IH; cbn.
    + by rewrite <- app_assoc.
    + by rewrite <- !app_assoc.
Qed.

Lemma broadcast_run message st :
  broadcast message st =
    match active_connections (manager st) with
    | [] => (Return tt, st)
    | _ :: _ =>
        match dumps message with
        | Raise e => (Raise e, emit (EvJsonDumps message) st)
        | Return text =>
            let evs := send_events (history st ++ [EvJsonDumps message]) text
                         (active_connections (manager st)) in
            (Return tt,
             {| manager := disconnect_all (manager st) (failed_sends evs);
                history := history st ++ EvJsonDumps message :: evs |})
        end
    end.
Proof.
  destruct st as [m h]. unfold broadcast. unfold bind at 1. unfold get_manager.
  cbn [manager history active_connections].
  destruct (active_connections m) as [|c rest] eqn:Hactive; [done|].
  unfold bind at 1. unfold json_dumps at 1. cbn [manager history emit].
  destruct (dumps message) as [text|e]; [|done].
  unfold bind. rewrite broadcast_sends_run. cbn [manager history].
  rewrite for_each_disconnect. unfold emit. cbn [manager history app].
  by rewrite <- app_assoc.
Qed.

Lemma broadcast_run_empty message st :
  active_connections (manager st) = [] -> broadcast message st = (Return tt, st).
Proof. intros Hempty. by rewrite broadcast_run, Hempty. Qed.

Lemma broadcast_run_raise message e st :
  active_connections (manager st) <> [] ->
  dumps message = Raise e ->
  broadcast message st = (Raise e, emit (EvJsonDumps message) st).
Proof.
  intros Hne Hdumps. rewrite broadcast_run, Hdumps.
  by destruct (active_connections (manager st)).
Qed.

Lemma broadcast_run_nonempty message text st :
  active_connections (manager st) <> [] ->
  dumps message = Return text ->
  broadcast message st =
    (Return tt,
     {| manager :=
          disconnect_all (manager st)
            (failed_sends (send_events (history st ++ [EvJsonDumps message]) text
                             (active_connections (manager st))));
        history :=
          history st ++ EvJsonDumps message ::
            send_events (history st ++ [EvJsonDumps message]) text
              (active_connections (manager st)) |}).
Proof.
  intros Hne Hdumps. rewrite broadcast_run, Hdumps.
  by destruct (active_connections (manager st)).
Qed.
End sends.

Section pruning.
Context `{Environment}.

(** When the outcome of a send depends on the channel alone, so do the events
    of a pass. *)
Lemma send_events_by_channel (alive : WebSocket -> bool) h text connections :
  (forall c h', c ∈ connections -> send_ok h' c text = alive c) ->
  send_events h text connections = (fun c => EvSendText c text (alive c)) <$> connections.
Proof.
  revert h. induction connections as [|c rest IH]; intros h Hok; [done|].
  cbn [send_events fmap list_fmap]. rewrite Hok by left. f_equal.
  apply IH. intros c' h' Hc'. apply Hok. by right.
Qed.

Lemma failed_sends_by_channel (alive : WebSocket -> bool) text connections :
  failed_sends ((fun c => EvSendText c text (alive c)) <$> connections) =
    filter (fun c => alive c = false) connections.
Proof.
  induction connections as [|c rest IH]; [done|].
  cbn [fmap list_fmap]. unfold failed_sends in *. cbn [omap list_omap].
  destruct (alive c) eqn:Halive.
  - rewrite filter_cons_False by (rewrite Halive; done). apply IH.
  - rewrite filter_cons_True by done. f_equal. apply IH.
Qed.

(** After the second loop no channel of [failed] is in the list. *)
Lemma disconnect_all_prunes failed self c :
  NoDup (active_connections self) -> c ∈ failed ->
  c ∉ active_connections (disconnect_all self failed).
Proof.
  intros Hnd Hc. rewrite disconnect_all_active, list_elem_of_filter by done. tauto.
Qed.
End pruning.

(** ** The fan-out broadcaster *)

(** C6: on an empty registry [broadcast] returns at once: the state it leaves
    is the state it found, registry and history alike, so nothing was
    serialized and nothing was sent (whatever the message, also one that
    [json.dumps] would refuse). *)
Theorem broadcast_empty_registry_noop `{Environment} (message : PyValue) (st : State) :
  active_connections (manager st) = [] ->
  broadcast message st = (Return tt, st) /\
  forall evs, history (broadcast message st).2 = history st ++ evs ->
    serialized evs = [] /\ send_attempts evs = [].
Proof.
  intros Hempty. rewrite broadcast_run, Hempty. split; [done|].
  intros evs Hevs. cbn in Hevs.
  assert (evs = []) as -> by (apply (app_inv_head (history st)); by rewrite app_nil_r).
  done.
Qed.

Lemma broadcast_empty_registry_noop_witness :
  active_connections (manager fresh) = [] /\
  broadcast (H := scenario [] false) (PyDatetime "2025-07-01T09:00:00") fresh = (Return tt, fresh).
Proof.
  split; [reflexivity|].
  apply (broadcast_empty_registry_noop (H := scenario [] false)). reflexivity.
Defined.

(** C1: a registry holds the three channels A, B and C; every send to B
    raises, every send to A and to C goes through.  Then [broadcast] of a
    message with JSON text [text] returns normally, its sends follow the one
    serialization and include a successful delivery of [text] to A and to C
    (the exception of B stops neither); afterwards the count is 2, B is no
    longer in the active list while A and C are, the metadata entry of B is
    gone while those of A and C are as they were, and every channel whose
    send raised during the pass is gone from the list and from the metadata.
    (The keys of the metadata are distinct, as those of a dictionary are.) *)
Theorem broadcast_isolates_failing_channel `{Environment}
    (A B C : WebSocket) (message : PyValue) (text : string) (st : State) :
  NoDup [A; B; C] ->
  active_connections (manager st) ≡ₚ [A; B; C] ->
  NoDup (PyDict.keys (connection_info (manager st))) ->
  dumps message = Return text ->
  (forall h t, send_ok h A t = true) ->
  (forall h t, send_ok h C t = true) ->
  (forall h t, send_ok h B t = false) ->
  exists st' sends,
    broadcast message st = (Return tt, st') /\
    history st' = history st ++ EvJsonDumps message :: sends /\
    EvSendText A text true ∈ sends /\
    EvSendText C text true ∈ sends /\
    get_connection_count (manager st') = 2 /\
    (B ∉ active_connections (manager st')) /\
    A ∈ active_connections (manager st') /\
    C ∈ active_connections (manager st') /\
    connection_info (manager st') = PyDict.pop B (connection_info (manager st)) /\
    (B ∉ PyDict.keys (connection_info (manager st'))) /\
    PyDict.get B (connection_info (manager st')) = None /\
    PyDict.get A (connection_info (manager st')) = PyDict.get A (connection_info (manager st)) /\
    PyDict.get C (connection_info (manager st')) = PyDict.get C (connection_info (manager st)) /\
    (forall c t, EvSendText c t false ∈ sends ->
       (c ∉ active_connections (manager st')) /\
       PyDict.get c (connection_info (manager st')) = None).
Proof.
  intros Hdistinct Hperm Hkeys Hdumps HA HC HB.
  assert (NoDup (active_connections (manager st))) as Hnd by (by rewrite Hperm).
  assert (forall c, c ∈ active_connections (manager st) <-> c = A \/ c = B \/ c = C) as Hmem.
  { intros c. rewrite Hperm, !elem_of_cons, elem_of_nil. tauto. }
  assert (A <> B /\ A <> C /\ B <> C) as (HAB & HAC & HBC).
  { rewrite !NoDup_cons, !not_elem_of_cons in Hdistinct. tauto. }
  set (alive := fun c : WebSocket => bool_decide (c <> B)).
  assert (active_connections (manager st) <> []) as Hne.
  { intros Hnil. rewrite Hnil in Hperm. by apply Permutation_length in Hperm. }
  eexists _, _. rewrite (broadcast_run_nonempty message text) by done.
  rewrite (send_events_by_channel alive).
  2:{ intros c h' Hc. apply Hmem in Hc as [-> | [-> | ->]]; subst alive; cbn.
      - rewrite HA. symmetry. by apply bool_decide_eq_true.
      - rewrite HB. symmetry. apply bool_decide_eq_false. by intros Hn.
      - rewrite HC. symmetry. apply bool_decide_eq_true. congruence. }
  rewrite failed_sends_by_channel.
  assert (filter (fun c => alive c = false) (active_connections (manager st)) = [B]) as Hfailed.
  { apply Permutation_singleton_r. rewrite Hperm. subst alive. cbn beta.
    rewrite filter_cons_False by (rewrite bool_decide_eq_false; tauto).
    rewrite filter_cons_True by (rewrite bool_decide_eq_false; tauto).
    rewrite filter_cons_False by (rewrite bool_decide_eq_false; intros Hn; apply Hn; congruence).
    done. }
  rewrite Hfailed.
  assert (disconnect_all (manager st) [B] =
            {| active_connections := list_remove B (active_connections (manager st));
               connection_info := PyDict.pop B (connection_info (manager st)) |}) as Hleft.
  { cbn [disconnect_all foldl]. unfold disconnect.
    rewrite decide_True; [done|]. apply Hmem. tauto. }
  rewrite Hleft.
  assert (list_remove B (active_connections (manager st))
          = filter (fun c => c <> B) (active_connections (manager st))) as Hlist
    by (by apply list_remove_filter).
  destruct (dict_pop_not_key B (connection_info (manager st)) Hkeys) as [HBkey HBget].
  split; [reflexivity|]. cbn [manager history active_connections connection_info].
  split; [reflexivity|].
  rewrite Hlist. split_and!.
  - apply list_elem_of_fmap. exists A. split; [|apply Hmem; tauto].
    subst alive. cbn. by rewrite bool_decide_eq_true_2.
  - apply list_elem_of_fmap. exists C. split; [|apply Hmem; tauto].
    subst alive. cbn. rewrite bool_decide_eq_true_2; [done|congruence].
  - unfold get_connection_count. cbn [active_connections]. rewrite Hperm.
    rewrite filter_cons_True by done.
    rewrite filter_cons_False by (intros Hn; by apply Hn).
    rewrite filter_cons_True by congruence. done.
  - rewrite list_elem_of_filter. tauto.
  - rewrite list_elem_of_filter, Hmem. tauto.
  - rewrite list_elem_of_filter, Hmem. split; [congruence|tauto].
  - reflexivity.
  - done.
  - done.
  - by apply dict_get_pop_ne.
  - apply dict_get_pop_ne. congruence.
  - intros c t Hfail. apply list_elem_of_fmap in Hfail as (c' & Heq & Hc').
    injection Heq as -> -> Halive. subst alive. cbn in Halive.
    symmetry in Halive. apply bool_decide_eq_false in Halive.
    assert (c' = B) as -> by (destruct (decide (c' = B)); [done|tauto]).
    split; [|done]. rewrite list_elem_of_filter. tauto.
Qed.

Lemma broadcast_isolates_failing_channel_witness :
  exists st' sends,
    broadcast (H := scenario [2] false) (lovebug_update []) three_channels = (Return tt, st') /\
    history st' = history three_channels ++ EvJsonDumps (lovebug_update []) :: sends /\
    EvSendText 1 "json" true ∈ sends /\
    EvSendText 3 "json" true ∈ sends /\
    get_connection_count (manager st') = 2 /\
    (2 ∉ active_connections (manager st')) /\
    1 ∈ active_connections (manager st') /\
    3 ∈ active_connections (manager st') /\
    connection_info (manager st') = PyDict.pop 2 (connection_info (manager three_channels)) /\
    (2 ∉ PyDict.keys (connection_info (manager st'))) /\
    PyDict.get 2 (connection_info (manager st')) = None /\
    PyDict.get 1 (connection_info (manager st'))
      = PyDict.get 1 (connection_info (manager three_channels)) /\
    PyDict.get 3 (connection_info (manager st'))
      = PyDict.get 3 (connection_info (manager three_channels)) /\
    (forall c t, EvSendText c t false ∈ sends ->
       (c ∉ active_connections (manager st')) /\
       PyDict.get c (connection_info (manager st')) = None).
Proof.
  apply (broadcast_isolates_failing_channel (H := scenario [2] false) 1 2 3).
  - compute_done.
  - reflexivity.
  - compute_done.
  - reflexivity.
  - intros h t. reflexivity.
  - intros h t. reflexivity.
  - intros h t. reflexivity.
Defined.

(** ** Registration and personal messages *)

Section personal.
Context `{Environment}.

Lemma connect_run websocket uid st :
  connect websocket uid st =
    if accept_ok (history st) websocket then
      (Return tt, {| manager := add_connection websocket uid (manager st);
                     history := history st ++ [EvAccept websocket true] |})
    else
      (Raise (Exception "accept"),
       {| manager := manager st; history := history st ++ [EvAccept websocket false] |}).
Proof.
  unfold connect. unfold_async. cbn. by destruct (accept_ok (history st) websocket).
Qed.

Lemma send_personal_message_run message websocket st :
  send_personal_message message websocket st =
    match dumps message with
    | Raise _ =>
        (Return tt, {| manager := disconnect websocket (manager st);
                       history := history st ++ [EvJsonDumps message] |})
    | Return text =>
        let ok := send_ok (history st ++ [EvJsonDumps message]) websocket text in
        (Return tt,
         {| manager := if ok then manager st else disconnect websocket (manager st);
            history := history st ++ [EvJsonDumps message; EvSendText websocket text ok] |})
    end.
Proof.
  unfold send_personal_message. unfold_async. cbn.
  destruct (dumps message) as [text|e]; [|done]. cbn.
  destruct (send_ok _ websocket text); cbn; by rewrite <- app_assoc.
Qed.

Lemma send_personal_message_returns message websocket st :
  (send_personal_message message websocket st).1 = Return tt.
Proof. rewrite send_personal_message_run. by destruct (dumps message). Qed.

Lemma send_to_user_items_run uid message items st :
  send_to_user_items uid message items st =
    match list_find (fun item => user_id item.2 = Some uid) items with
    | None => (Return false, st)
    | Some (_, (websocket, _)) =>
        (Return true, (send_personal_message message websocket st).2)
    end.
Proof.
  induction items as [|[c info] rest IH]; [done|].
  cbn [send_to_user_items list_find]. cbn [snd].
  destruct (decide (user_id info = Some uid)) as [Huid|Huid].
  - unfold bind, ret.
    pose proof (send_personal_message_returns message c st) as Hret.
    destruct (send_personal_message message c st) as [r st']. cbn in Hret. by subst r.
  - rewrite IH.
    destruct (list_find _ rest) as [[i [c' info']]|]; reflexivity.
Qed.
End personal.

(** C9, as the code has it: [connect] first awaits the handshake.  When the
    handshake raises, the exception reaches the caller and the registry is
    as before.  When it completes, the channel is appended to the active list
    and its metadata entry holds the client id, with the two timestamp
    fields present but left at [None]; the entries of other channels are not
    touched. *)
Theorem connect_registers_after_handshake `{Environment}
    (websocket : WebSocket) (uid : option string) (st : State) :
  let ok := accept_ok (history st) websocket in
  let r := connect websocket uid st in
  history r.2 = history st ++ [EvAccept websocket ok] /\
  if ok then
    r.1 = Return tt /\
    active_connections (manager r.2) = active_connections (manager st) ++ [websocket] /\
    PyDict.get websocket (connection_info (manager r.2)) =
      Some {| user_id := uid; connected_at := PyNone; last_activity := PyNone |} /\
    (forall c, c <> websocket ->
       PyDict.get c (connection_info (manager r.2)) = PyDict.get c (connection_info (manager st)))
  else
    r.1 = Raise (Exception "accept") /\ manager r.2 = manager st.
Proof.
  cbn zeta. rewrite connect_run.
  destruct (accept_ok (history st) websocket); cbn; [|done].
  split_and!; try done.
  - rewrite dict_get_set. by rewrite decide_True.
  - intros c Hc. rewrite dict_get_set. by rewrite decide_False.
Qed.

(** C9 as stated fails: after a successful registration the metadata of the
    channel carries no time at all. *)
Lemma connect_leaves_timestamps_unset :
  exists info,
    PyDict.get 1 (connection_info (manager (connect (H := scenario [] false) 1 (Some "alice") fresh).2))
      = Some info /\
    connected_at info = PyNone /\ last_activity info = PyNone /\
    forall t, ~ stamped t info.
Proof.
  eexists. split; [reflexivity|]. split_and!; [done|done|].
  intros t [Hc _]. discriminate Hc.
Qed.

(** C7: [send_to_user] looks for the first entry of [connection_info], in
    the order of the dictionary, whose client id is [uid].  Without one it
    returns [False] and the state is untouched: nothing is serialized or
    sent.  With one it returns [True] after one send of the message to that
    channel and to no other; when that send raises, the registry that is left
    is the one [disconnect] of that channel gives, in which, the registry
    being well formed, the channel is neither in the list nor in the
    dictionary. *)
Theorem send_to_user_first_match `{Environment}
    (uid : string) (message : PyValue) (st : State) :
  match list_find (fun item => user_id item.2 = Some uid) (connection_info (manager st)) with
  | None => send_to_user uid message st = (Return false, st)
  | Some (_, (websocket, _)) =>
      forall text, dumps message = Return text ->
        let ok := send_ok (history st ++ [EvJsonDumps message]) websocket text in
        send_to_user uid message st =
          (Return true,
           {| manager := if ok then manager st else disconnect websocket (manager st);
              history := history st ++ [EvJsonDumps message; EvSendText websocket text ok] |}) /\
        (ok = false -> registry_wf (manager st) ->
           let left := disconnect websocket (manager st) in
           (websocket ∉ active_connections left) /\
           PyDict.get websocket (connection_info left) = None)
  end.
Proof.
  change (send_to_user uid message st)
    with (send_to_user_items uid message (connection_info (manager st)) st).
  rewrite send_to_user_items_run.
  destruct (list_find _ (connection_info (manager st))) as [[i [websocket info]]|]; [|done].
  intros text Hdumps. cbn zeta. split.
  - rewrite send_personal_message_run, Hdumps. done.
  - intros _ Hwf. by apply disconnect_gone.
Qed.

Lemma send_to_user_first_match_witness :
  send_to_user (H := scenario [2] false) "carol" pong_message three_channels
    = (Return false, three_channels) /\
  send_to_user (H := scenario [2] false) "bob" pong_message three_channels
    = (Return true,
       {| manager := disconnect 2 (manager three_channels);
          history := [EvJsonDumps pong_message; EvSendText 2 "json" false] |}).
Proof.
  split.
  - exact (send_to_user_first_match (H := scenario [2] false) "carol" pong_message three_channels).
  - apply (send_to_user_first_match (H := scenario [2] false) "bob" pong_message three_channels
             "json").
    reflexivity.
Defined.

(** ** The list and the dictionary stay together *)

Section invariant.
Context `{Environment}.

Lemma since_app st h m evs : history st = h -> since st {| manager := m; history := h ++ evs |} = evs.
Proof. intros <-. unfold since. cbn. apply drop_app_length. Qed.

Lemma since_same st m : since st {| manager := m; history := history st |} = [].
Proof. unfold since. cbn. by rewrite drop_all. Qed.

Lemma since_refl st : since st st = [].
Proof. unfold since. by rewrite drop_all. Qed.

Lemma wf_same_length self :
  registry_wf self ->
  PyDict.keys (connection_info self) ≡ₚ active_connections self /\
  get_connection_count self = length (connection_info self).
Proof.
  intros (Hl & Hk & Hsame).
  assert (PyDict.keys (connection_info self) ≡ₚ active_connections self) as Hperm.
  { apply NoDup_Permutation; [done|done|]. intros c. symmetry. apply Hsame. }
  split; [done|]. unfold get_connection_count.
  by rewrite <- Hperm, dict_length_keys.
Qed.

(** The listing of client ids reads the entries of the channels of the list. *)
Lemma wf_connected_users self uid :
  registry_wf self ->
  uid ∈ get_connected_users self <->
  exists c info,
    c ∈ active_connections self /\
    PyDict.get c (connection_info self) = Some info /\
    truthy_user_id (user_id info) = Some uid.
Proof.
  intros (Hl & Hk & Hsame). unfold get_connected_users, PyDict.values.
  rewrite list_elem_of_omap. split.
  - intros (info & Hin & Huid). apply list_elem_of_fmap in Hin as ([c info'] & -> & Hin).
    exists c, info'. split_and!; [|by apply dict_get_Some|done].
    apply Hsame. apply list_elem_of_fmap. by exists (c, info').
  - intros (c & info & _ & Hget & Huid). exists info. split; [|done].
    apply list_elem_of_fmap. exists (c, info). split; [done|]. by apply dict_get_Some.
Qed.

Lemma connect_pruned websocket uid st :
  registry_wf (manager st) ->
  websocket ∉ active_connections (manager st) ->
  pruned_after st (connect websocket uid st).2.
Proof.
  intros Hwf Hout. rewrite connect_run.
  destruct (accept_ok (history st) websocket); cbn; split; cbn.
  - by apply add_connection_wf.
  - intros c text. rewrite (since_app st (history st)) by done.
    intros Hin. apply list_elem_of_singleton in Hin. done.
  - done.
  - intros c text. rewrite (since_app st (history st)) by done.
    intros Hin. apply list_elem_of_singleton in Hin. done.
Qed.

Lemma disconnect_pruned websocket st :
  registry_wf (manager st) ->
  pruned_after st (update_manager (disconnect websocket) st).2.
Proof.
  intros Hwf. split; cbn; [by apply disconnect_wf|].
  intros c text. rewrite since_same. intros Hin. by apply elem_of_nil in Hin.
Qed.

Lemma send_personal_message_pruned message websocket st :
  registry_wf (manager st) ->
  pruned_after st (send_personal_message message websocket st).2.
Proof.
  intros Hwf. rewrite send_personal_message_run.
  destruct (dumps message) as [text|e]; cbn.
  - destruct (send_ok _ websocket text); split; cbn; try done.
    + intros c t. rewrite (since_app st (history st)) by done.
      rewrite !elem_of_cons, elem_of_nil. intros [?|[?|[]]]; done.
    + by apply disconnect_wf.
    + intros c t. rewrite (since_app st (history st)) by done.
      rewrite !elem_of_cons, elem_of_nil. intros [?|[Heq|[]]]; [done|].
      injection Heq as -> ->. by apply disconnect_gone.
  - split; cbn; [by apply disconnect_wf|].
    intros c t. rewrite (since_app st (history st)) by done.
    intros Hin. apply list_elem_of_singleton in Hin. done.
Qed.

Lemma broadcast_pruned message st :
  registry_wf (manager st) ->
  pruned_after st (broadcast message st).2.
Proof.
  intros Hwf.
  destruct (decide (active_connections (manager st) = [])) as [Hempty|Hne].
  { rewrite broadcast_run_empty by done. split; [done|]. intros c t.
    cbn [snd]. rewrite since_refl. intros Hin. by apply elem_of_nil in Hin. }
  destruct (dumps message) as [text|e] eqn:Hdumps.
  - rewrite (broadcast_run_nonempty message text) by done.
    split; cbn [snd manager]; [by apply disconnect_all_wf|].
    intros c t. rewrite (since_app st (history st)) by done.
    intros Hin. apply elem_of_cons in Hin as [?|Hin]; [done|].
    assert (c ∈ failed_sends
                  (send_events (history st ++ [EvJsonDumps message]) text
                     (active_connections (manager st)))) as Hfailed
      by (apply failed_sends_elem; by exists t).
    split.
    + apply disconnect_all_prunes; [apply Hwf|done].
    + by apply disconnect_all_info.
  - rewrite (broadcast_run_raise message e) by done.
    split; cbn; [done|]. intros c t. unfold emit.
    rewrite (since_app st (history st)) by done.
    intros Hin. apply list_elem_of_singleton in Hin. done.
Qed.

Lemma send_to_user_pruned uid message st :
  registry_wf (manager st) ->
  pruned_after st (send_to_user uid message st).2.
Proof.
  intros Hwf.
  change (send_to_user uid message st)
    with (send_to_user_items uid message (connection_info (manager st)) st).
  rewrite send_to_user_items_run.
  destruct (list_find _ (connection_info (manager st))) as [[i [websocket info]]|]; cbn.
  - by apply send_personal_message_pruned.
  - split; [done|]. intros c t. rewrite since_refl.
    intros Hin. by apply elem_of_nil in Hin.
Qed.
End invariant.

Section reachable.
Context `{Environment}.

Lemma list_remove_subset (x c : WebSocket) (l : list WebSocket) :
  c ∈ list_remove x l -> c ∈ l.
Proof.
  induction l as [|y l IH]; cbn; [done|].
  destruct (decide (x = y)); [by right|].
  rewrite !elem_of_cons. intros [->|Hc]; [by left|right; by apply IH].
Qed.

Lemma disconnect_subset websocket self c :
  c ∈ active_connections (disconnect websocket self) -> c ∈ active_connections self.
Proof. unfold disconnect. case_decide; [|done]. cbn. apply list_remove_subset. Qed.

Lemma disconnect_all_subset failed self c :
  c ∈ active_connections (disconnect_all self failed) -> c ∈ active_connections self.
Proof.
  revert self. induction failed as [|x failed IH]; intros self; [done|].
  cbn [disconnect_all foldl]. fold (disconnect_all (disconnect x self) failed).
  intros Hc. by eapply disconnect_subset, IH.
Qed.

Lemma try_state (m : Async unit) st :
  try_except m (fun _ => ret tt) st = (Return tt, (m st).2).
Proof. unfold try_except, ret. by destruct (m st) as [[[]|e] st1]. Qed.

Lemma send_personal_message_accepted message websocket st :
  members_accepted st -> members_accepted (send_personal_message message websocket st).2.
Proof.
  intros Hacc c. rewrite send_personal_message_run.
  destruct (dumps message) as [text|e]; cbn.
  - destruct (send_ok _ websocket text); cbn; intros Hc; apply elem_of_app; left; apply Hacc;
      [done|by eapply disconnect_subset].
  - intros Hc. apply elem_of_app; left. apply Hacc. by eapply disconnect_subset.
Qed.

(** No operation puts a channel in the list that did not go through its
    handshake. *)
Lemma exec_members_accepted op st :
  members_accepted st -> members_accepted (exec op st).2.
Proof.
  intros Hacc.
  destruct op as [websocket uid|websocket|message websocket|message|uid message]; cbn [exec].
  - rewrite connect_run. destruct (accept_ok (history st) websocket); intros c; cbn.
    + rewrite !elem_of_app. intros [Hc|Hc]; [left; by apply Hacc|right].
      apply list_elem_of_singleton in Hc as ->. left.
    + intros Hc. apply elem_of_app; left. by apply Hacc.
  - intros c Hc. cbn in Hc. apply Hacc. by eapply disconnect_subset.
  - by apply send_personal_message_accepted.
  - intros c. destruct (decide (active_connections (manager st) = [])) as [Hempty|Hne].
    { rewrite broadcast_run_empty by done. apply Hacc. }
    destruct (dumps message) as [text|e] eqn:Hdumps.
    + rewrite (broadcast_run_nonempty message text) by done. cbn.
      intros Hc. apply elem_of_app; left. apply Hacc. by eapply disconnect_all_subset.
    + rewrite (broadcast_run_raise message e) by done. cbn.
      intros Hc. apply elem_of_app; left. by apply Hacc.
  - assert (members_accepted (send_to_user uid message st).2) as Hto.
    { change (send_to_user uid message st)
        with (send_to_user_items uid message (connection_info (manager st)) st).
      rewrite send_to_user_items_run.
      destruct (list_find _ (connection_info (manager st))) as [[i [websocket info]]|]; cbn.
      - by apply send_personal_message_accepted.
      - done. }
    unfold bind, ret. by destruct (send_to_user uid message st) as [[b|e] st'].
Qed.

(** Where a handshake completes at most once, [connect] never meets a
    channel of the list with a handshake that completes. *)
Lemma exec_pruned (Honce : accepts_once) op st :
  registry_wf (manager st) -> members_accepted st -> pruned_after st (exec op st).2.
Proof.
  intros Hwf Hacc.
  destruct op as [websocket uid|websocket|message websocket|message|uid message]; cbn [exec].
  - destruct (decide (websocket ∈ active_connections (manager st))) as [Hin|Hout].
    + rewrite connect_run, (Honce _ _ (Hacc _ Hin)). split; cbn; [done|].
      intros c text. rewrite (since_app st (history st)) by done.
      intros Hev. apply list_elem_of_singleton in Hev. done.
    + by apply connect_pruned.
  - by apply disconnect_pruned.
  - by apply send_personal_message_pruned.
  - by apply broadcast_pruned.
  - pose proof (send_to_user_pruned uid message st Hwf) as Hp.
    unfold bind, ret. by destruct (send_to_user uid message st) as [[b|e] st'].
Qed.

(** Every state the operations lead to from a well-formed one is well
    formed. *)
Lemma run_ops_reaches (Honce : accepts_once) ops st :
  registry_wf (manager st) -> members_accepted st ->
  registry_wf (manager (run_ops ops st).2) /\ members_accepted (run_ops ops st).2.
Proof.
  revert st. induction ops as [|op ops IH]; intros st Hwf Hacc; [done|].
  assert (run_ops (op :: ops) st = run_ops ops (exec op st).2) as ->.
  { cbn [run_ops]. unfold bind. by rewrite try_state. }
  apply IH; [|by apply exec_members_accepted].
  by destruct (exec_pruned Honce op st Hwf Hacc).
Qed.
End reachable.

Lemma one_handshake_accepts_once dead : accepts_once (H := one_handshake dead).
Proof.
  intros h websocket Hin. cbn. apply negb_false_iff. unfold was_accepted.
  apply existsb_exists. exists (EvAccept websocket true).
  split; [by apply list_elem_of_In|]. by apply bool_decide_eq_true.
Qed.

(** C10.  The registry is empty when the process starts and a channel
    completes its handshake at most once.  Then in every state that the five
    operations lead to, in any number and order, a channel is in the active
    list if and only if it has a metadata entry, and every operation made
    there keeps it so; no channel is twice in the list, the keys of the
    metadata are a rearrangement of the list, the count is the number of
    metadata entries, the listing of client ids reads the entries of exactly
    the channels of the list, and a channel whose send raised during the
    operation is gone from both. *)
Theorem registry_operations_keep_list_and_metadata_together `{Environment}
    (Honce : accepts_once) (ops : list RegistryOp) (op : RegistryOp) :
  let st := (run_ops ops fresh).2 in
  let st' := (exec op st).2 in
  same_members (manager st) /\
  same_members (manager st') /\
  registry_wf (manager st') /\
  PyDict.keys (connection_info (manager st')) ≡ₚ active_connections (manager st') /\
  get_connection_count (manager st') = length (connection_info (manager st')) /\
  (forall uid,
     uid ∈ get_connected_users (manager st') <->
     exists c info,
       c ∈ active_connections (manager st') /\
       PyDict.get c (connection_info (manager st')) = Some info /\
       truthy_user_id (user_id info) = Some uid) /\
  (forall websocket text,
     EvSendText websocket text false ∈ since st st' ->
     (websocket ∉ active_connections (manager st')) /\
     PyDict.get websocket (connection_info (manager st')) = None).
Proof.
  cbn zeta.
  assert (registry_wf (manager fresh) /\ members_accepted fresh) as [Hwf0 Hacc0].
  { split; [apply init_wf|]. intros c Hc. by apply elem_of_nil in Hc. }
  destruct (run_ops_reaches Honce ops fresh Hwf0 Hacc0) as [Hwf Hacc].
  destruct (exec_pruned Honce op _ Hwf Hacc) as [Hwf' Hpruned].
  destruct (wf_same_length _ Hwf') as [Hperm Hcount].
  split_and!; try done; [apply Hwf|apply Hwf'|]. intros uid. by apply wf_connected_users.
Qed.

Lemma registry_operations_keep_list_and_metadata_together_witness :
  let st := (run_ops (H := one_handshake [2])
               [OpConnect 1 None; OpConnect 2 (Some "bob"); OpConnect 1 None;
                OpConnect 3 None] fresh).2 in
  let st' := (exec (H := one_handshake [2]) (OpBroadcast (lovebug_update [])) st).2 in
  same_members (manager st) /\
  same_members (manager st') /\
  registry_wf (manager st') /\
  PyDict.keys (connection_info (manager st')) ≡ₚ active_connections (manager st') /\
  get_connection_count (manager st') = length (connection_info (manager st')) /\
  (forall uid,
     uid ∈ get_connected_users (manager st') <->
     exists c info,
       c ∈ active_connections (manager st') /\
       PyDict.get c (connection_info (manager st')) = Some info /\
       truthy_user_id (user_id info) = Some uid) /\
  (forall websocket text,
     EvSendText websocket text false ∈ since st st' ->
     (websocket ∉ active_connections (manager st')) /\
     PyDict.get websocket (connection_info (manager st')) = None).
Proof.
  apply (registry_operations_keep_list_and_metadata_together (H := one_handshake [2])
           (one_handshake_accepts_once [2])
           [OpConnect 1 None; OpConnect 2 (Some "bob"); OpConnect 1 None; OpConnect 3 None]
           (OpBroadcast (lovebug_update []))).
Defined.

(** The run of the witness: the second registration of channel 1 is refused,
    and the broadcast prunes channel 2 from list and metadata. *)
Example second_handshake_is_refused :
  let st := (run_ops (H := one_handshake [2])
               [OpConnect 1 None; OpConnect 2 (Some "bob"); OpConnect 1 None;
                OpConnect 3 None] fresh).2 in
  active_connections (manager st) = [1; 2; 3] /\
  PyDict.keys (connection_info (manager st)) = [1; 2; 3] /\
  history st = [EvAccept 1 true; EvAccept 2 true; EvAccept 1 false; EvAccept 3 true] /\
  active_connections
    (manager (exec (H := one_handshake [2]) (OpBroadcast (lovebug_update [])) st).2) = [1; 3] /\
  PyDict.keys
    (connection_info
       (manager (exec (H := one_handshake [2]) (OpBroadcast (lovebug_update [])) st).2)) = [1; 3].
Proof. split_and!; reflexivity. Qed.

(** ** Counting *)

Section counting.
Context `{Environment}.

Lemma register_step websocket uid st :
  try_except (connect websocket uid ;;; ret true) (fun _ => ret false) st =
    if accept_ok (history st) websocket then
      (Return true, {| manager := add_connection websocket uid (manager st);
                       history := history st ++ [EvAccept websocket true] |})
    else
      (Return false, {| manager := manager st;
                        history := history st ++ [EvAccept websocket false] |}).
Proof.
  unfold try_except, bind. rewrite connect_run.
  by destruct (accept_ok (history st) websocket).
Qed.

Lemma run_calls_returns calls st :
  exists outcomes st', run_calls calls st = (Return outcomes, st') /\ outcomes.*1 = calls.
Proof.
  revert st. induction calls as [|call rest IH]; intros st.
  - by exists [], st.
  - cbn [run_calls]. unfold bind at 1.
    destruct call as [websocket uid|websocket].
    + rewrite register_step. destruct (accept_ok (history st) websocket).
      * destruct (IH {| manager := add_connection websocket uid (manager st);
                        history := history st ++ [EvAccept websocket true] |})
          as (outs & st' & Hrun & Hcalls).
        eexists _, st'. unfold bind, ret. rewrite Hrun. split; [reflexivity|].
        cbn. by rewrite Hcalls.
      * destruct (IH {| manager := manager st;
                        history := history st ++ [EvAccept websocket false] |})
          as (outs & st' & Hrun & Hcalls).
        eexists _, st'. unfold bind, ret. rewrite Hrun. split; [reflexivity|].
        cbn. by rewrite Hcalls.
    + unfold bind at 1. unfold update_manager at 1. unfold ret at 1.
      destruct (IH {| manager := disconnect websocket (manager st); history := history st |})
        as (outs & st' & Hrun & Hcalls).
      eexists _, st'. unfold bind, ret. rewrite Hrun. split; [reflexivity|].
      cbn. by rewrite Hcalls.
Qed.

Lemma tracks_add websocket uid self S :
  tracks self S -> websocket ∉ S -> tracks (add_connection websocket uid self) ({[websocket]} ∪ S).
Proof.
  intros [Hnd Hmem] Hout. split; cbn.
  - apply NoDup_app. split_and!; [done| |apply NoDup_singleton].
    intros c Hc Hc'. apply list_elem_of_singleton in Hc' as ->. by apply Hout, Hmem.
  - intros c.
    rewrite elem_of_app, list_elem_of_singleton, elem_of_union, elem_of_singleton, (Hmem c).
    tauto.
Qed.

Lemma tracks_disconnect websocket self S :
  tracks self S -> tracks (disconnect websocket self) (S ∖ {[websocket]}).
Proof.
  intros [Hnd Hmem]. split.
  - rewrite disconnect_active by done. by apply NoDup_filter.
  - intros c.
    rewrite disconnect_active, list_elem_of_filter, elem_of_difference, elem_of_singleton,
      (Hmem c) by done.
    tauto.
Qed.

(** Where a handshake completes at most once, a channel that is registered
    is never registered again: the list follows the set of the
    specification. *)
Lemma run_calls_tracks (Honce : accepts_once) calls st S outcomes st' :
  tracks (manager st) S ->
  members_accepted st ->
  run_calls calls st = (Return outcomes, st') ->
  tracks (manager st') (foldl registered_step S outcomes).
Proof.
  revert st S outcomes st'.
  induction calls as [|call rest IH]; intros st S outcomes st' Htr Hacc Hrun.
  - injection Hrun as <- <-. done.
  - cbn [run_calls] in Hrun. unfold bind at 1 in Hrun.
    destruct call as [websocket uid|websocket].
    + rewrite register_step in Hrun.
      destruct (accept_ok (history st) websocket) eqn:Haccept.
      * unfold bind, ret in Hrun.
        destruct (run_calls rest _) as [[outs|e] st1] eqn:Hrest; [|done].
        injection Hrun as <- <-. cbn [foldl].
        eapply IH; [| |exact Hrest]; cbn.
        -- apply tracks_add; [done|]. intros HS.
           assert (websocket ∈ active_connections (manager st)) as Hin by (by apply Htr).
           by rewrite (Honce _ _ (Hacc _ Hin)) in Haccept.
        -- intros c. cbn. rewrite !elem_of_app. intros [Hc|Hc]; [left; by apply Hacc|right].
           apply list_elem_of_singleton in Hc as ->. left.
      * unfold bind, ret in Hrun.
        destruct (run_calls rest _) as [[outs|e] st1] eqn:Hrest; [|done].
        injection Hrun as <- <-. cbn [foldl].
        eapply IH; [| |exact Hrest]; cbn; [done|].
        intros c Hc. cbn. apply elem_of_app; left. by apply Hacc.
    + unfold bind at 1 in Hrun. unfold update_manager at 1 in Hrun.
      unfold bind, ret in Hrun.
      destruct (run_calls rest _) as [[outs|e] st1] eqn:Hrest; [|done].
      injection Hrun as <- <-. cbn [foldl].
      eapply IH; [| |exact Hrest]; cbn; [by apply tracks_disconnect|].
      intros c Hc. cbn in Hc. apply Hacc. by eapply disconnect_subset.
Qed.

Lemma tracks_count self S : tracks self S -> get_connection_count self = size S.
Proof.
  intros [Hnd Hmem]. unfold get_connection_count.
  rewrite <- (size_list_to_set (C := gset WebSocket)) by done.
  f_equal. apply set_eq. intros c. by rewrite elem_of_list_to_set.
Qed.
End counting.

(** C3.  A channel completes its handshake at most once.  Then any sequence
    of [connect] and [disconnect] calls on a fresh registry runs to its end,
    and afterwards the count is the number of channels that were registered
    (their handshake completed) and not since unregistered. *)
Theorem count_matches_registered_channels `{Environment}
    (Honce : accepts_once) (calls : list RegistryCall) (h : list Event) :
  exists outcomes st',
    run_calls calls {| manager := init; history := h |} = (Return outcomes, st') /\
    outcomes.*1 = calls /\
    get_connection_count (manager st') = size (registered_channels outcomes).
Proof.
  destruct (run_calls_returns calls {| manager := init; history := h |})
    as (outcomes & st' & Hrun & Hcalls).
  exists outcomes, st'. split_and!; [done|done|].
  apply tracks_count. eapply (run_calls_tracks Honce); [| |exact Hrun].
  - split; cbn; [constructor|]. intros c. set_solver.
  - intros c Hc. by apply elem_of_nil in Hc.
Qed.

Lemma count_matches_registered_channels_witness :
  exists outcomes st',
    run_calls (H := one_handshake [])
      [Register 1 (Some "alice"); Register 2 None; Register 2 None; Unregister 1;
       Register 1 None; Unregister 7] fresh = (Return outcomes, st') /\
    outcomes.*1 =
      [Register 1 (Some "alice"); Register 2 None; Register 2 None; Unregister 1;
       Register 1 None; Unregister 7] /\
    get_connection_count (manager st') = size (registered_channels outcomes).
Proof.
  apply (count_matches_registered_channels (H := one_handshake [])
           (one_handshake_accepts_once [])
           [Register 1 (Some "alice"); Register 2 None; Register 2 None; Unregister 1;
            Register 1 None; Unregister 7] []).
Defined.

(** The run of the witness: the second registration of channel 2 and the
    registration of channel 1 after it was unregistered are refused, and
    one channel is left. *)
Example registrations_of_one_channel :
  run_calls (H := one_handshake [])
    [Register 1 (Some "alice"); Register 2 None; Register 2 None; Unregister 1;
     Register 1 None; Unregister 7] fresh =
    (Return [(Register 1 (Some "alice"), true); (Register 2 None, true);
             (Register 2 None, false); (Unregister 1, true); (Register 1 None, false);
             (Unregister 7, true)],
     {| manager :=
          {| active_connections := [2];
             connection_info :=
               [(2, {| user_id := None; connected_at := PyNone; last_activity := PyNone |})] |};
        history := [EvAccept 1 true; EvAccept 2 true; EvAccept 2 false; EvAccept 1 false] |}).
Proof. reflexivity. Qed.

(** ** The pass of [broadcast] among other tasks *)

Section interleaving.
Context `{Environment}.

Lemma send_while_run others c text st :
  try_except (await_while others (ws_send_text c text) ;;; ret false) (fun _ => ret true) st =
    (Return (negb (send_ok (history st) c text)),
     {| manager := foldl interfere (manager st) others;
        history := history st ++ [EvSendText c text (send_ok (history st) c text)] |}).
Proof.
  unfold try_except, bind, await_while, ws_send_text, ret, emit. cbn.
  by destruct (send_ok (history st) c text).
Qed.

Lemma failed_sends_cons c text ok evs :
  failed_sends (EvSendText c text ok :: evs) =
    (if negb ok then [c] else []) ++ failed_sends evs.
Proof. by destruct ok. Qed.

(** The pass changes the registry by what the other tasks do and by nothing
    else, and adds only sends of [text] to the history. *)
Lemma broadcast_sends_live_run text schedule index disconnected_connections st :
  exists sends k,
    broadcast_sends_live text schedule index disconnected_connections st =
      (Return (disconnected_connections ++ failed_sends sends),
       {| manager := foldl interfere (manager st) (concat (take k schedule));
          history := history st ++ sends |}) /\
    Forall (is_send_of text) sends /\
    (schedule = [] ->
     sends = send_events (history st) text (drop index (active_connections (manager st)))).
Proof.
  revert index disconnected_connections st.
  induction schedule as [|others schedule' IH]; intros index acc st.
  - exists (send_events (history st) text (drop index (active_connections (manager st)))), 0.
    cbn [broadcast_sends_live]. unfold bind at 1. unfold get_manager.
    rewrite broadcast_sends_run. split_and!; [done|apply send_events_sends|done].
  - cbn [broadcast_sends_live]. unfold bind at 1. unfold get_manager at 1.
    destruct (active_connections (manager st) !! index) as [c|] eqn:Hlookup.
    + unfold bind at 1. rewrite send_while_run.
      set (ok := send_ok (history st) c text).
      destruct (IH (S index) (if negb ok then acc ++ [c] else acc)
                  {| manager := foldl interfere (manager st) others;
                     history := history st ++ [EvSendText c text ok] |})
        as (sends & k & Hrun & Hsends & _).
      exists (EvSendText c text ok :: sends), (S k). split_and!; [|by constructor|done].
      rewrite Hrun. cbn [manager history take concat]. rewrite foldl_app, failed_sends_cons.
      rewrite <- (app_assoc (history st)). cbn [app].
      by destruct (negb ok); rewrite <- ?app_assoc.
    + exists [], 0. unfold ret. cbn [take concat foldl failed_sends omap list_omap].
      rewrite !app_nil_r. destruct st. split_and!; done.
Qed.

(** One send with the other tasks of [others] running during it, then the
    rest of the loop undisturbed: the loop goes on at position 1 of the list
    as the other tasks left it. *)
Lemma broadcast_sends_live_one text others c1 tail acc st :
  active_connections (manager st) = c1 :: tail ->
  broadcast_sends_live text [others] 0 acc st =
    (Return ((if negb (send_ok (history st) c1 text) then acc ++ [c1] else acc) ++
             failed_sends
               (send_events (history st ++ [EvSendText c1 text (send_ok (history st) c1 text)])
                  text (drop 1 (active_connections (foldl interfere (manager st) others))))),
     {| manager := foldl interfere (manager st) others;
        history :=
          (history st ++ [EvSendText c1 text (send_ok (history st) c1 text)]) ++
          send_events (history st ++ [EvSendText c1 text (send_ok (history st) c1 text)])
            text (drop 1 (active_connections (foldl interfere (manager st) others))) |}).
Proof.
  intros Hactive. cbn [broadcast_sends_live]. unfold bind at 1. unfold get_manager at 1.
  rewrite Hactive. cbn [lookup list_lookup]. unfold bind at 1. rewrite send_while_run.
  unfold bind at 1. unfold get_manager. by rewrite broadcast_sends_run.
Qed.

Lemma sends_not_serialized text evs : Forall (is_send_of text) evs -> serialized evs = [].
Proof.
  induction 1 as [|e evs He _ IH]; [done|]. by destruct e.
Qed.

Lemma failed_sends_attempted evs c :
  c ∈ failed_sends evs -> c ∈ (send_attempts evs).*1.
Proof.
  induction evs as [|e evs IH]; cbn; [done|].
  destruct e as [| |c' t ok| | |]; cbn; try done.
  destruct ok; cbn; rewrite ?elem_of_cons; [by right; apply IH|].
  intros [->|Hc]; [by left|right; by apply IH].
Qed.

Lemma broadcast_live_alone message st :
  broadcast_live [] message st = broadcast message st.
Proof.
  unfold broadcast_live, broadcast, bind, get_manager.
  destruct (active_connections (manager st)) as [|c rest] eqn:Hactive; [done|].
  unfold json_dumps. destruct (dumps message) as [text|e]; [|done].
  cbn [broadcast_sends_live]. unfold bind, get_manager, emit.
  cbn [manager]. by rewrite drop_0, Hactive.
Qed.
End interleaving.

(** C2.  What the code does where the specification has a snapshot: the loop of
    [broadcast] reads the registry's own list at every step.  The message is
    serialized once and the failed channels are removed after the pass, as
    specified; but when other tasks change the list during the first send, the
    loop goes on at position 1 of the list as they left it.  So when the
    client of the first member leaves during its own send, the second member
    gets no send at all, although it was registered before the call and
    still is after it. *)
Theorem broadcast_iterates_the_live_list `{Environment}
    (others : list Interference) (c1 : WebSocket) (tail : list WebSocket)
    (message : PyValue) (text : string) (st : State) :
  active_connections (manager st) = c1 :: tail ->
  dumps message = Return text ->
  let st' := (broadcast_live [others] message st).2 in
  let during := foldl interfere (manager st) others in
  (broadcast_live [others] message st).1 = Return tt /\
  serialized (since st st') = [message] /\
  send_attempts (since st st') =
    (fun c => (c, text)) <$> (c1 :: drop 1 (active_connections during)) /\
  manager st' = disconnect_all during (failed_sends (since st st')) /\
  (forall c2 rest,
     tail = c2 :: rest -> NoDup (c1 :: c2 :: rest) -> others = [OtherDisconnect c1] ->
     (send_attempts (since st st')).*1 = c1 :: rest /\
     (c2 ∉ (send_attempts (since st st')).*1) /\
     c2 ∈ active_connections (manager st') /\
     ~ sends_to_snapshot st st').
Proof.
  intros Hactive Hdumps. cbn zeta.
  set (h1 := history st ++ [EvJsonDumps message]).
  set (ok := send_ok h1 c1 text).
  set (during := foldl interfere (manager st) others).
  set (sends := EvSendText c1 text ok ::
                  send_events (h1 ++ [EvSendText c1 text ok]) text
                    (drop 1 (active_connections during))).
  assert (broadcast_live [others] message st =
            (Return tt,
             {| manager := disconnect_all during (failed_sends sends);
                history := history st ++ EvJsonDumps message :: sends |})) as Hrun.
  { unfold broadcast_live. unfold bind at 1. unfold get_manager. rewrite Hactive.
    unfold bind at 1. unfold json_dumps. rewrite Hdumps.
    unfold bind. rewrite (broadcast_sends_live_one text others c1 tail) by done.
    rewrite for_each_disconnect. cbn [emit manager history app].
    fold h1. fold ok. fold during. subst sends.
    rewrite failed_sends_cons. f_equal. f_equal.
    subst h1. by rewrite <- !app_assoc. }
  rewrite Hrun. cbn [fst snd]. rewrite (since_app st (history st)) by done.
  assert (Forall (is_send_of text) sends) as Hsends.
  { subst sends. constructor; [done|apply send_events_sends]. }
  assert (send_attempts (EvJsonDumps message :: sends) =
            (fun c => (c, text)) <$> (c1 :: drop 1 (active_connections during))) as Hattempts.
  { subst sends. cbn. by rewrite send_events_attempts. }
  split; [done|]. split.
  { change (serialized (EvJsonDumps message :: sends)) with (message :: serialized sends).
    by rewrite (sends_not_serialized text). }
  split; [done|]. split; [done|].
  intros c2 rest -> Hnd ->.
  assert (active_connections during = c2 :: rest) as Hduring.
  { subst during. cbn [foldl interfere]. unfold disconnect. rewrite Hactive.
    rewrite decide_True by left. cbn. by rewrite decide_True. }
  assert ((send_attempts (EvJsonDumps message :: sends)).*1 = c1 :: rest) as Hfirst.
  { rewrite Hattempts, Hduring, <- list_fmap_compose. cbn [drop]. apply list_fmap_id. }
  assert (c2 ∉ c1 :: rest) as Hskipped.
  { apply NoDup_cons in Hnd as [Hc1 Hnd]. apply NoDup_cons in Hnd as [Hc2 _].
    rewrite not_elem_of_cons. split; [|done]. intros ->. apply Hc1. left. }
  split_and!.
  - done.
  - by rewrite Hfirst.
  - cbn [manager]. rewrite disconnect_all_active.
    2:{ rewrite Hduring. by apply NoDup_cons in Hnd as [_ Hnd]. }
    rewrite Hduring. apply list_elem_of_filter. split; [|left].
    intros Hfailed. apply Hskipped. rewrite <- Hfirst.
    apply failed_sends_attempted.
    by change (failed_sends (EvJsonDumps message :: sends)) with (failed_sends sends).
  - unfold sends_to_snapshot.
    rewrite (since_app st (history st)) by done. rewrite Hfirst, Hactive.
    intros Hsnap. injection Hsnap as Hrest.
    apply (f_equal length) in Hrest. cbn in Hrest. lia.
Qed.

Lemma broadcast_iterates_the_live_list_witness :
  let st' := (broadcast_live (H := scenario [3] false) [[OtherDisconnect 1]]
                (lovebug_update []) three_channels).2 in
  let during := foldl interfere (manager three_channels) [OtherDisconnect 1] in
  (broadcast_live (H := scenario [3] false) [[OtherDisconnect 1]]
     (lovebug_update []) three_channels).1 = Return tt /\
  serialized (since three_channels st') = [lovebug_update []] /\
  send_attempts (since three_channels st') =
    (fun c => (c, "json")) <$> (1 :: drop 1 (active_connections during)) /\
  manager st' = disconnect_all during (failed_sends (since three_channels st')) /\
  (forall c2 rest,
     [2; 3] = c2 :: rest -> NoDup (1 :: c2 :: rest) ->
     [OtherDisconnect 1] = [OtherDisconnect 1] ->
     (send_attempts (since three_channels st')).*1 = 1 :: rest /\
     (c2 ∉ (send_attempts (since three_channels st')).*1) /\
     c2 ∈ active_connections (manager st') /\
     ~ sends_to_snapshot three_channels st').
Proof.
  apply (broadcast_iterates_the_live_list (H := scenario [3] false)
           [OtherDisconnect 1] 1 [2; 3] (lovebug_update []) "json" three_channels).
  - reflexivity.
  - reflexivity.
Defined.

(** The run of the witness.  The registry holds the channels 1, 2 and 3 and
    the send to channel 3 raises; while [broadcast] is suspended in the send
    to channel 1, the task of that client disconnects it.  The list is now
    [2; 3] and the iteration goes on at position 1: channel 2, a member
    before, during and after the call, gets no send, and channel 3 is pruned
    after the pass. *)
Example broadcast_skips_a_member_when_the_list_shrinks :
  active_connections (manager three_channels) = [1; 2; 3] /\
  broadcast_live (H := scenario [3] false) [[OtherDisconnect 1]] (lovebug_update [])
    three_channels =
    (Return tt,
     {| manager :=
          {| active_connections := [2];
             connection_info :=
               [(2, {| user_id := Some "bob"; connected_at := PyNone;
                       last_activity := PyNone |})] |};
        history :=
          [EvJsonDumps (lovebug_update []); EvSendText 1 "json" true;
           EvSendText 3 "json" false] |}).
Proof. split; reflexivity. Qed.

(** ** The live channel *)

Section replies.
Context `{Environment}.

Lemma receive_loop_run websocket incoming closing st :
  exists evs m',
    receive_loop websocket incoming closing st =
      (Raise closing, {| manager := m'; history := history st ++ evs |}) /\
    serialized evs = repeat pong_message (length incoming) /\
    (forall text, dumps pong_message = Return text ->
       send_attempts evs = repeat (websocket, text) (length incoming)).
Proof.
  revert st. induction incoming as [|frame rest IH]; intros st.
  - exists [EvReceiveText websocket (Raise closing)], (manager st). done.
  - cbn [receive_loop]. unfold bind at 1. unfold ws_receive_text at 1.
    unfold bind at 1. rewrite send_personal_message_run.
    destruct (dumps pong_message) as [text|e] eqn:Hdumps.
    + cbn zeta. cbn [emit manager history].
      match goal with
      | |- context [receive_loop websocket rest closing ?s] =>
          destruct (IH s) as (evs & m' & Hrun & Hser & Hsent); rewrite Hrun
      end.
      cbn [history]. eexists (_ :: _ :: _ :: evs), m'. split_and!.
      * by rewrite <- !app_assoc.
      * cbn. by rewrite <- Hser.
      * intros text' [= <-]. cbn. by rewrite <- (Hsent text).
    + cbn [emit manager history].
      match goal with
      | |- context [receive_loop websocket rest closing ?s] =>
          destruct (IH s) as (evs & m' & Hrun & Hser & Hsent); rewrite Hrun
      end.
      cbn [history]. eexists (_ :: _ :: evs), m'. split_and!.
      * by rewrite <- !app_assoc.
      * cbn. by rewrite <- Hser.
      * intros text' [=].
Qed.
End replies.

(** C8, as the code has it.  Once the handshake has completed, the endpoint
    answers every text frame of the client, whatever it holds, with one
    message, always the same: [{"type": "pong", "message": status}], the
    status string being under the key [message]; there is no [data] key. *)
Theorem endpoint_answers_every_frame_with_pong `{Environment}
    (websocket : WebSocket) (incoming : list string) (closing : Exn) (st : State) :
  accept_ok (history st) websocket = true ->
  let st' := (websocket_endpoint websocket incoming closing st).2 in
  serialized (since st st') = repeat pong_message (length incoming) /\
  (forall text, dumps pong_message = Return text ->
     send_attempts (since st st') = repeat (websocket, text) (length incoming)) /\
  py_get "type" pong_message = Some (PyStr "pong") /\
  py_get "message" pong_message = Some (PyStr "연결 유지됨") /\
  py_get "data" pong_message = None.
Proof.
  intros Haccept. cbn zeta.
  assert (exists evs m',
            (websocket_endpoint websocket incoming closing st).2 =
              {| manager := m'; history := history st ++ EvAccept websocket true :: evs |} /\
            serialized evs = repeat pong_message (length incoming) /\
            (forall text, dumps pong_message = Return text ->
               send_attempts evs = repeat (websocket, text) (length incoming)))
    as (evs & m' & -> & Hser & Hsent).
  { unfold websocket_endpoint. unfold bind at 1. rewrite connect_run, Haccept.
    unfold try_except_disconnect.
    match goal with
    | |- context [receive_loop websocket incoming closing ?s] =>
        destruct (receive_loop_run websocket incoming closing s)
          as (evs & m' & Hrun & Hser & Hsent); rewrite Hrun
    end.
    cbn [history]. rewrite <- app_assoc. cbn [app].
    destruct closing; eauto 6. }
  rewrite (since_app st (history st)) by done. split_and!; try done.
Qed.

Lemma endpoint_answers_every_frame_with_pong_witness :
  let st' := (websocket_endpoint (H := scenario [] false) 1 ["ping"; "hello"]
                WebSocketDisconnect fresh).2 in
  serialized (since fresh st') = repeat pong_message 2 /\
  (forall text, dumps (Environment := scenario [] false) pong_message = Return text ->
     send_attempts (since fresh st') = repeat (1, text) 2) /\
  py_get "type" pong_message = Some (PyStr "pong") /\
  py_get "message" pong_message = Some (PyStr "연결 유지됨") /\
  py_get "data" pong_message = None.
Proof.
  apply (endpoint_answers_every_frame_with_pong (H := scenario [] false) 1 ["ping"; "hello"]
           WebSocketDisconnect fresh).
  reflexivity.
Defined.

(** C8 as stated fails: the reply to a frame is not in the envelope of the
    specification, it has no [data] field. *)
Lemma pong_reply_is_not_in_the_envelope :
  serialized (history (websocket_endpoint (H := scenario [] false) 1 ["ping"]
                         WebSocketDisconnect fresh).2) = [pong_message] /\
  py_get "data" pong_message = None /\
  ~ envelope pong_message.
Proof.
  split_and!; [reflexivity|reflexivity|].
  intros (type & payload & _ & Hdata). discriminate Hdata.
Qed.

(** ** The scheduled run *)

Section run.
Context `{Environment}.

Lemma wire_events evs :
  Forall is_wire evs ->
  broadcast_calls evs = [] /\ upserts evs = [] /\ forall k d ok, EvUpdateOne k d ok ∉ evs.
Proof.
  induction 1 as [|e evs He _ (IHb & IHu & IHn)]; [split_and!; [done|done|]|].
  - intros k d b Hin. by apply elem_of_nil in Hin.
  - destruct e; try done. all: split_and!; [done|done|].
    all: intros k d b Hin; apply elem_of_cons in Hin as [?|?]; [done|by eapply IHn].
Qed.

Lemma upsert_events evs :
  Forall is_upsert evs -> broadcast_calls evs = [].
Proof. induction 1 as [|e evs He _ IH]; [done|]. by destruct e. Qed.

Lemma broadcast_history message st :
  exists r m' evs,
    broadcast message st = (r, {| manager := m'; history := history st ++ evs |}) /\
    Forall is_wire evs.
Proof.
  rewrite broadcast_run. destruct (active_connections (manager st)) as [|c rest].
  - exists (Return tt), (manager st), []. rewrite app_nil_r. by destruct st.
  - destruct (dumps message) as [text|e].
    + eexists _, _, (_ :: _). split; [reflexivity|]. constructor; [done|].
      eapply Forall_impl; [apply send_events_sends|]. by intros [].
    + eexists _, _, [_]. split; [reflexivity|]. by constructor.
Qed.

Lemma upserts_run (reports : list LovebugReport.t) st :
  exists r ups,
    for_each reports (fun report =>
        update_one (py_optional_str (LovebugReport.tweet_id report))
                   (LovebugReport_dict report)) st
      = (r, {| manager := manager st; history := history st ++ ups |}) /\
    Forall is_upsert ups /\
    (forall k d, EvUpdateOne k d false ∈ ups -> exists h, update_ok h k d = false) /\
    match r with
    | Return _ => upserts ups = upsert_of <$> reports /\ forall k d, EvUpdateOne k d false ∉ ups
    | Raise _ => exists k d, EvUpdateOne k d false ∈ ups
    end.
Proof.
  revert st. induction reports as [|report rest IH]; intros st.
  - exists (Return tt), []. rewrite app_nil_r. destruct st. split_and!; try done.
    + intros k d Hin. by apply elem_of_nil in Hin.
    + intros k d Hin. by apply elem_of_nil in Hin.
  - cbn [for_each]. unfold bind at 1. unfold update_one at 1.
    destruct (update_ok (history st) _ _) eqn:Hok.
    + unfold emit. cbn [manager history].
      match goal with
      | |- context [for_each rest ?f ?s] =>
          destruct (IH s) as (r & ups & Hrun & Hups & Hanswer & Hr); rewrite Hrun
      end.
      cbn [manager history]. eexists r, (_ :: ups).
      split_and!; [by rewrite <- app_assoc|by constructor| |].
      * intros k d Hin. apply elem_of_cons in Hin as [?|?]; [done|by apply Hanswer].
      * destruct r as [[]|e].
        -- destruct Hr as [Hr Hnone]. split; [cbn; by rewrite <- Hr|].
           intros k d Hin. apply elem_of_cons in Hin as [?|?]; [done|by eapply Hnone].
        -- destruct Hr as (k & d & Hin). exists k, d. by right.
    + unfold emit. cbn [manager history].
      eexists (Raise _), [EvUpdateOne _ _ false]. split_and!; [done|by constructor| |].
      * intros k d Hin. apply list_elem_of_singleton in Hin. injection Hin as -> ->. eauto.
      * eexists _, _. left.
Qed.
End run.

Section scheduled.
Context `{Environment} `{Collaborators}.

Lemma crawl_and_update_run st :
  exists m' evs,
    crawl_and_update st = (Return tt, {| manager := m'; history := history st ++ evs |}) /\
    RunShape crawl_lovebug_tweets evs /\
    (crawl_lovebug_tweets = [] -> m' = manager st).
Proof.
  unfold crawl_and_update, try_except.
  destruct crawl_lovebug_tweets as [|report rest] eqn:Hreports.
  { exists (manager st), []. rewrite app_nil_r. destruct st. split_and!; [done| |done].
    by apply run_nothing_to_do. }
  unfold bind at 1. unfold get_collection.
  destruct database_ready eqn:Hdb.
  2:{ exists (manager st), []. rewrite app_nil_r. destruct st. split_and!; [done| |done].
      by apply run_no_database. }
  unfold ret at 1. unfold bind at 1.
  destruct (upserts_run (report :: rest) st) as (r & ups & Hrun & Hups & Hanswer & Hr).
  rewrite Hrun. destruct r as [[]|e].
  - destruct Hr as [Hall Hnone].
    unfold call_broadcast. unfold bind at 1. unfold emit. cbn [manager history].
    match goal with
    | |- context [broadcast ?m ?s] =>
        destruct (broadcast_history m s) as (r & m' & wire & Hb & Hwire); rewrite Hb
    end.
    cbn [history].
    exists m', (ups ++ EvBroadcast (lovebug_update (report :: rest)) :: wire).
    split_and!; [destruct r as [[]|e]; unfold ret; by rewrite <- !app_assoc| |done].
    by apply run_published.
  - destruct Hr as (k & d & Hin). exists (manager st), ups.
    split_and!; [done| |done]. by eapply run_upsert_raised.
Qed.

Lemma broadcast_calls_app evs1 evs2 :
  broadcast_calls (evs1 ++ evs2) = broadcast_calls evs1 ++ broadcast_calls evs2.
Proof. apply omap_app. Qed.

Lemma upserts_app evs1 evs2 : upserts (evs1 ++ evs2) = upserts evs1 ++ upserts evs2.
Proof. apply omap_app. Qed.

Lemma run_published_calls reports ups wire :
  Forall is_upsert ups -> Forall is_wire wire ->
  broadcast_calls (ups ++ EvBroadcast (lovebug_update reports) :: wire) = [lovebug_update reports] /\
  upserts (ups ++ EvBroadcast (lovebug_update reports) :: wire) = upserts ups.
Proof.
  intros Hups Hwire. destruct (wire_events wire Hwire) as (Hb & Hu & _).
  rewrite broadcast_calls_app, upserts_app, (upsert_events ups Hups).
  change (broadcast_calls (EvBroadcast (lovebug_update reports) :: wire))
    with (lovebug_update reports :: broadcast_calls wire).
  change (upserts (EvBroadcast (lovebug_update reports) :: wire)) with (upserts wire).
  by rewrite Hb, Hu, app_nil_r.
Qed.
End scheduled.

(** C4, as the code has it.  A run always ends normally.  With no report it
    does nothing at all: no upsert, no call of the broadcaster.  With a
    batch, the broadcaster is called never or once, and then with the one
    message that holds the whole batch; it is called once, after one upsert
    per report, when the database is there and no upsert raises; and it is
    not called when the database is missing or an upsert raises, the run
    ending there. *)
Theorem run_publishes_the_batch_at_most_once `{Environment} `{Collaborators} (st : State) :
  let reports := crawl_lovebug_tweets in
  let st' := (crawl_and_update st).2 in
  (crawl_and_update st).1 = Return tt /\
  (reports = [] -> st' = st) /\
  (broadcast_calls (since st st') = [] \/
   broadcast_calls (since st st') = [lovebug_update reports]) /\
  (reports <> [] -> database_ready = true ->
   (forall k d, EvUpdateOne k d false ∉ since st st') ->
     upserts (since st st') = upsert_of <$> reports /\
     broadcast_calls (since st st') = [lovebug_update reports] /\
     py_get "data" (lovebug_update reports) = Some (PyList (LovebugReport_dict <$> reports))) /\
  (database_ready = false \/ (exists k d, EvUpdateOne k d false ∈ since st st') ->
     broadcast_calls (since st st') = []).
Proof.
  cbn zeta. destruct (crawl_and_update_run st) as (m' & evs & Hrun & Hshape & Hidle).
  rewrite Hrun. cbn [fst snd]. rewrite (since_app st (history st)) by done.
  split; [done|]. split.
  { intros Hnone. rewrite (Hidle Hnone).
    destruct Hshape as [_|Hne _|ups k d Hne _ _ _ _|ups wire Hne _ _ _ _ _]; try done.
    rewrite app_nil_r. by destruct st. }
  destruct Hshape as [Hnone|Hne Hdb|ups k d Hne Hdb Hups Hanswer Hin
                     |ups wire Hne Hdb Hups Hall Hgood Hwire].
  - split_and!; [by left|done|done].
  - split_and!; [by left| |done]. intros _ Hdb'. congruence.
  - split_and!; [left; by apply upsert_events| |intros _; by apply upsert_events].
    intros _ _ Hgood. by destruct (Hgood k d).
  - destruct (run_published_calls crawl_lovebug_tweets ups wire Hups Hwire) as [Hcalls Hupserts].
    rewrite Hcalls, Hupserts. split_and!; [by right|done|].
    intros [Hdb'|(k & d & Hin)]; [congruence|].
    apply elem_of_app in Hin as [Hin|Hin]; [by destruct (Hgood k d)|].
    apply elem_of_cons in Hin as [?|Hin]; [done|].
    destruct (wire_events wire Hwire) as (_ & _ & Hnone). by destruct (Hnone k d false).
Qed.

Lemma run_publishes_the_batch_at_most_once_witness :
  upserts (since fresh (crawl_and_update (H := scenario [] false) (H0 := three_tweets) fresh).2)
    = upsert_of <$> crawl_lovebug_tweets (H := three_tweets) /\
  broadcast_calls
    (since fresh (crawl_and_update (H := scenario [] false) (H0 := three_tweets) fresh).2)
    = [lovebug_update (crawl_lovebug_tweets (H := three_tweets))] /\
  py_get "data" (lovebug_update (crawl_lovebug_tweets (H := three_tweets)))
    = Some (PyList (LovebugReport_dict <$> crawl_lovebug_tweets (H := three_tweets))).
Proof.
  apply (proj1 (proj2 (proj2 (proj2
           (run_publishes_the_batch_at_most_once (H := scenario [] false) (H0 := three_tweets)
              fresh))))).
  - vm_compute. discriminate.
  - reflexivity.
  - intros k d Hin. vm_compute since in Hin.
    repeat (apply elem_of_cons in Hin as [Hin|Hin]; [discriminate Hin|]).
    by apply elem_of_nil in Hin.
Defined.

(** C4 as stated fails.  The run has a batch of two reports and the store
    refuses the first upsert: the run ends there and the broadcaster is not
    called. *)
Lemma run_with_a_batch_and_a_failing_upsert_publishes_nothing :
  crawl_lovebug_tweets (H := three_tweets) = [report_of "1" "one"; report_of "3" "three"] /\
  upserts (history (crawl_and_update (H := scenario [] true) (H0 := three_tweets) fresh).2)
    = [upsert_of (report_of "1" "one")] /\
  broadcast_calls (history (crawl_and_update (H := scenario [] true) (H0 := three_tweets) fresh).2)
    = [].
Proof. split_and!; reflexivity. Qed.

(** * More of the registry *)

Section registry_more.
Implicit Types (self : WebSocketManager) (c websocket : WebSocket).

Lemma list_remove_snoc {A : Type} `{EqDecision A} (x : A) (l : list A) :
  x ∉ l -> list_remove x (l ++ [x]) = l.
Proof.
  induction l as [|y l IH]; intros Hout; cbn.
  - by rewrite decide_True.
  - apply not_elem_of_cons in Hout as [Hne Hout].
    rewrite decide_False by done. f_equal. by apply IH.
Qed.

Lemma dict_set_fresh {V : Type} (k : WebSocket) (v : V) (d : list (WebSocket * V)) :
  k ∉ PyDict.keys d -> PyDict.set k v d = d ++ [(k, v)].
Proof.
  unfold PyDict.keys. induction d as [|[k' v'] d IH]; intros Hout; [done|].
  rewrite fmap_cons in Hout. cbn [fst] in Hout.
  apply not_elem_of_cons in Hout as [Hne Hout].
  cbn [PyDict.set]. rewrite decide_False by done. cbn. f_equal. by apply IH.
Qed.

Lemma dict_pop_snoc {V : Type} (k : WebSocket) (v : V) (d : list (WebSocket * V)) :
  k ∉ PyDict.keys d -> PyDict.pop k (d ++ [(k, v)]) = d.
Proof.
  unfold PyDict.keys. induction d as [|[k' v'] d IH]; intros Hout; cbn.
  - by rewrite decide_True.
  - rewrite fmap_cons in Hout. cbn [fst] in Hout.
    apply not_elem_of_cons in Hout as [Hne Hout].
    rewrite decide_False by done. f_equal. by apply IH.
Qed.

Lemma add_then_disconnect websocket uid self :
  websocket ∉ active_connections self ->
  websocket ∉ PyDict.keys (connection_info self) ->
  disconnect websocket (add_connection websocket uid self) = self.
Proof.
  intros Hl Hk. unfold disconnect, add_connection. cbn [active_connections connection_info].
  rewrite decide_True by (apply elem_of_app; right; left).
  rewrite list_remove_snoc, dict_set_fresh, dict_pop_snoc by done. by destruct self.
Qed.

End registry_more.

(** X1: on a registry whose list holds no channel twice, [disconnect] of a
    channel a second time changes nothing more, and [disconnect] of a channel
    that is not in the list changes nothing at all (its metadata, should
    there be any, stays). *)
Theorem disconnect_twice_is_disconnect_once (websocket : WebSocket) (self : WebSocketManager) :
  NoDup (active_connections self) ->
  disconnect websocket (disconnect websocket self) = disconnect websocket self /\
  (websocket ∉ active_connections self -> disconnect websocket self = self).
Proof.
  intros Hnd. split; [|apply disconnect_absent].
  apply disconnect_absent. rewrite disconnect_active, list_elem_of_filter by done. tauto.
Qed.

Lemma disconnect_twice_is_disconnect_once_witness :
  disconnect 2 (disconnect 2 (manager three_channels)) = disconnect 2 (manager three_channels) /\
  (2 ∉ active_connections (manager three_channels) ->
   disconnect 2 (manager three_channels) = manager three_channels).
Proof.
  apply (disconnect_twice_is_disconnect_once 2 (manager three_channels)). compute_done.
Defined.

(** X2: a channel that is in neither the list nor the dictionary is
    registered by [connect] and then removed by [disconnect]: the registry is
    again exactly what it was, order of the other members included, whether
    the handshake completed or not. *)
Theorem connect_then_disconnect_restores_the_registry `{Environment}
    (websocket : WebSocket) (uid : option string) (st : State) :
  websocket ∉ active_connections (manager st) ->
  websocket ∉ PyDict.keys (connection_info (manager st)) ->
  manager (update_manager (disconnect websocket) (connect websocket uid st).2).2 = manager st.
Proof.
  intros Hl Hk. rewrite connect_run.
  destruct (accept_ok (history st) websocket); cbn.
  - by apply add_then_disconnect.
  - by apply disconnect_absent.
Qed.

Lemma connect_then_disconnect_restores_the_registry_witness :
  manager (update_manager (disconnect 4)
             (connect (H := scenario [] false) 4 (Some "dave") three_channels).2).2
  = manager three_channels.
Proof.
  apply (connect_then_disconnect_restores_the_registry (H := scenario [] false) 4 (Some "dave")
           three_channels); compute_done.
Defined.

(** X3: when the handshake completes for a channel that has no metadata yet,
    the count grows by one and the listing of client ids gets the new id at
    its end, unless the id is [None] or the empty string, in which case the
    listing is as before.  A client id that is listed already is listed once
    more. *)
Theorem connect_extends_count_and_listing `{Environment}
    (websocket : WebSocket) (uid : option string) (st : State) :
  accept_ok (history st) websocket = true ->
  websocket ∉ PyDict.keys (connection_info (manager st)) ->
  let self' := manager (connect websocket uid st).2 in
  get_connection_count self' = S (get_connection_count (manager st)) /\
  get_connected_users self' =
    get_connected_users (manager st) ++
      match truthy_user_id uid with
      | Some u => [u]
      | None => []
      end.
Proof.
  intros Haccept Hk. cbn zeta. rewrite connect_run, Haccept. cbn [snd manager].
  unfold get_connection_count, get_connected_users, add_connection, PyDict.values.
  cbn [active_connections connection_info]. split.
  - rewrite length_app. cbn. lia.
  - rewrite dict_set_fresh by done. rewrite fmap_app, omap_app. cbn.
    by destruct (truthy_user_id uid).
Qed.

Lemma connect_extends_count_and_listing_witness :
  let self' := manager (connect (H := scenario [] false) 4 (Some "bob") three_channels).2 in
  get_connection_count self' = S (get_connection_count (manager three_channels)) /\
  get_connected_users self' =
    get_connected_users (manager three_channels) ++
      match truthy_user_id (Some "bob") with
      | Some u => [u]
      | None => []
      end.
Proof.
  apply (connect_extends_count_and_listing (H := scenario [] false) 4 (Some "bob")
           three_channels); [reflexivity|compute_done].
Defined.

Section sending_more.
Context `{Environment}.

Lemma send_events_failed_count h text connections :
  NoDup connections ->
  length (filter (fun c => c ∉ failed_sends (send_events h text connections)) connections)
    + length (failed_sends (send_events h text connections))
  = length connections.
Proof.
  revert h. induction connections as [|c rest IH]; intros h Hnd; [done|].
  apply NoDup_cons in Hnd as [Hc Hnd].
  cbn [send_events]. rewrite failed_sends_cons.
  set (h' := h ++ [EvSendText c text (send_ok h c text)]).
  assert (c ∉ failed_sends (send_events h' text rest)) as Hc'.
  { intros Hin. by apply Hc, (send_events_failed h' text). }
  specialize (IH h' Hnd).
  destruct (send_ok h c text); cbn [negb app].
  - rewrite filter_cons_True by done. cbn [length]. lia.
  - rewrite filter_cons_False by (intros Hn; apply Hn; left).
    rewrite (filter_agree _ (fun x => x ∉ failed_sends (send_events h' text rest))).
    + cbn [length]. lia.
    + intros x Hx. rewrite not_elem_of_cons. split; [tauto|].
      intros Hout. split; [|done]. intros ->. done.
Qed.
End sending_more.

(** X4: [send_personal_message] never raises.  When [json.dumps] refuses the
    message no send is attempted and the channel is disconnected all the same;
    otherwise there is one send, to that channel, and the channel is
    disconnected exactly when the send raises. *)
Theorem send_personal_message_never_raises `{Environment}
    (message : PyValue) (websocket : WebSocket) (st : State) :
  let r := send_personal_message message websocket st in
  r.1 = Return tt /\
  match dumps message with
  | Raise _ =>
      send_attempts (since st r.2) = [] /\
      manager r.2 = disconnect websocket (manager st)
  | Return text =>
      send_attempts (since st r.2) = [(websocket, text)] /\
      manager r.2 =
        if send_ok (history st ++ [EvJsonDumps message]) websocket text then manager st
        else disconnect websocket (manager st)
  end.
Proof.
  cbn zeta. rewrite send_personal_message_run.
  destruct (dumps message) as [text|e]; cbn [fst snd].
  - split; [done|]. by rewrite (since_app st (history st)).
  - split; [done|]. by rewrite (since_app st (history st)).
Qed.

(** X5: on a registry that is not empty, a message [json.dumps] refuses makes
    [broadcast] raise that exception to its caller after the one
    serialization attempt: nothing is sent and no channel is removed. *)
Theorem broadcast_raises_what_json_dumps_raises `{Environment}
    (message : PyValue) (e : Exn) (st : State) :
  active_connections (manager st) <> [] ->
  dumps message = Raise e ->
  let r := broadcast message st in
  r.1 = Raise e /\
  manager r.2 = manager st /\
  serialized (since st r.2) = [message] /\
  send_attempts (since st r.2) = [].
Proof.
  intros Hne Hdumps. cbn zeta. rewrite (broadcast_run_raise message e) by done.
  unfold emit. cbn [fst snd manager]. by rewrite (since_app st (history st)).
Qed.

Lemma broadcast_raises_what_json_dumps_raises_witness :
  let H : Environment :=
    {| accept_ok := fun _ _ => true; send_ok := fun _ _ _ => true;
       dumps := fun _ => Raise (Exception "TypeError");
       database_ready := true; update_ok := fun _ _ _ => true |} in
  let r := broadcast (PyDatetime "2025-07-01T09:00:00") three_channels in
  r.1 = Raise (Exception "TypeError") /\
  manager r.2 = manager three_channels /\
  serialized (since three_channels r.2) = [PyDatetime "2025-07-01T09:00:00"] /\
  send_attempts (since three_channels r.2) = [].
Proof.
  apply (broadcast_raises_what_json_dumps_raises
           (H := {| accept_ok := fun _ _ => true; send_ok := fun _ _ _ => true;
                    dumps := fun _ => Raise (Exception "TypeError");
                    database_ready := true; update_ok := fun _ _ _ => true |})
           (PyDatetime "2025-07-01T09:00:00") (Exception "TypeError") three_channels).
  - discriminate.
  - reflexivity.
Defined.

(** X6: on a well-formed registry, for a message that serializes,
    [broadcast] leaves in the list exactly the channels whose send did not
    raise, in their order; the metadata of those is untouched and that of the
    others is gone; the count drops by the number of failed sends; and when
    no send raises the registry is what it was. *)
Theorem broadcast_keeps_the_channels_it_reached `{Environment}
    (message : PyValue) (text : string) (st : State) :
  registry_wf (manager st) ->
  dumps message = Return text ->
  let st' := (broadcast message st).2 in
  let failed := failed_sends (since st st') in
  active_connections (manager st') =
    filter (fun c => c ∉ failed) (active_connections (manager st)) /\
  (forall c, c ∉ failed ->
     PyDict.get c (connection_info (manager st')) = PyDict.get c (connection_info (manager st))) /\
  (forall c, c ∈ failed -> PyDict.get c (connection_info (manager st')) = None) /\
  get_connection_count (manager st') + length failed = get_connection_count (manager st) /\
  (failed = [] -> manager st' = manager st).
Proof.
  intros Hwf Hdumps. cbn zeta.
  destruct (decide (active_connections (manager st) = [])) as [Hempty|Hne].
  { rewrite broadcast_run_empty by done. cbn [snd]. rewrite since_refl.
    change (failed_sends []) with (@nil WebSocket). rewrite Hempty. split_and!; try done.
    intros c Hc. by apply elem_of_nil in Hc. }
  rewrite (broadcast_run_nonempty message text) by done. cbn [snd manager].
  rewrite (since_app st (history st)) by done.
  set (evs := send_events (history st ++ [EvJsonDumps message]) text
                (active_connections (manager st))).
  change (failed_sends (EvJsonDumps message :: evs)) with (failed_sends evs).
  destruct Hwf as (Hnd & Hk & Hsame). split_and!.
  - by apply disconnect_all_active.
  - intros c Hc. by apply disconnect_all_info_other.
  - intros c Hc. by apply disconnect_all_info.
  - unfold get_connection_count. rewrite disconnect_all_active by done.
    by apply send_events_failed_count.
  - by intros ->.
Qed.

Lemma broadcast_keeps_the_channels_it_reached_witness :
  let st' := (broadcast (H := scenario [2] false) (lovebug_update []) three_channels).2 in
  let failed := failed_sends (since three_channels st') in
  active_connections (manager st') =
    filter (fun c => c ∉ failed) (active_connections (manager three_channels)) /\
  (forall c, c ∉ failed ->
     PyDict.get c (connection_info (manager st'))
       = PyDict.get c (connection_info (manager three_channels))) /\
  (forall c, c ∈ failed -> PyDict.get c (connection_info (manager st')) = None) /\
  get_connection_count (manager st') + length failed
    = get_connection_count (manager three_channels) /\
  (failed = [] -> manager st' = manager three_channels).
Proof.
  apply (broadcast_keeps_the_channels_it_reached (H := scenario [2] false) (lovebug_update [])
           "json" three_channels).
  - unfold registry_wf, same_members. cbn. split_and!; [compute_done|compute_done|done].
  - reflexivity.
Defined.

(** X7: what [send_to_user] returns says whether some entry of the metadata
    carries the client id, and nothing else: it is [True] as well when the
    message could not be serialized or the send raised. *)
Theorem send_to_user_returns_whether_the_id_is_known `{Environment}
    (uid : string) (message : PyValue) (st : State) :
  (send_to_user uid message st).1 =
    Return (bool_decide (Exists (fun item : WebSocket * ConnInfo => user_id item.2 = Some uid)
                           (connection_info (manager st)))).
Proof.
  change (send_to_user uid message st)
    with (send_to_user_items uid message (connection_info (manager st)) st).
  rewrite send_to_user_items_run.
  destruct (list_find _ (connection_info (manager st))) as [[i [websocket info]]|] eqn:Hfind.
  - apply list_find_Some in Hfind as (Hi & Huid & _).
    cbn [fst]. f_equal. symmetry. apply bool_decide_eq_true.
    apply Exists_exists. exists (websocket, info). split; [|done].
    by eapply list_elem_of_lookup_2.
  - apply list_find_None in Hfind. cbn [fst]. f_equal. symmetry.
    apply bool_decide_eq_false. by apply Forall_Exists_neg.
Qed.

(** * More of the live channel *)

Section endpoint_more.
Context `{Environment}.

Lemma receive_loop_cons websocket frame rest closing st :
  receive_loop websocket (frame :: rest) closing st =
    receive_loop websocket rest closing
      (send_personal_message pong_message websocket
         (emit (EvReceiveText websocket (Return frame)) st)).2.
Proof.
  cbn [receive_loop]. unfold bind at 1. unfold ws_receive_text at 1. unfold bind at 1.
  pose proof (send_personal_message_returns pong_message websocket
                (emit (EvReceiveText websocket (Return frame)) st)) as Hret.
  destruct (send_personal_message pong_message websocket _) as [r st2].
  cbn in Hret. by subst r.
Qed.

Lemma receive_loop_raises websocket incoming closing st :
  (receive_loop websocket incoming closing st).1 = Raise closing.
Proof.
  destruct (receive_loop_run websocket incoming closing st) as (evs & m' & Hrun & _).
  by rewrite Hrun.
Qed.

(** During the loop the registry is the one the loop started with, or that
    one without the channel. *)
Lemma receive_loop_manager websocket incoming closing self st :
  NoDup (active_connections self) ->
  manager st = self \/ manager st = disconnect websocket self ->
  manager (receive_loop websocket incoming closing st).2 = self \/
  manager (receive_loop websocket incoming closing st).2 = disconnect websocket self.
Proof.
  intros Hnd. revert st. induction incoming as [|frame rest IH]; intros st Hst; [done|].
  rewrite receive_loop_cons. apply IH.
  rewrite send_personal_message_run.
  assert (disconnect websocket (disconnect websocket self) = disconnect websocket self) as Hidem.
  { apply disconnect_absent. rewrite disconnect_active, list_elem_of_filter by done. tauto. }
  destruct (dumps pong_message) as [text|e]; cbn [snd manager emit].
  - destruct (send_ok _ websocket text); destruct Hst as [->| ->]; rewrite ?Hidem; auto.
  - destruct Hst as [->| ->]; rewrite ?Hidem; auto.
Qed.

Lemma receive_loop_manager_alive websocket incoming closing text st :
  dumps pong_message = Return text ->
  (forall h, send_ok h websocket text = true) ->
  manager (receive_loop websocket incoming closing st).2 = manager st.
Proof.
  intros Hdumps Halive. revert st. induction incoming as [|frame rest IH]; intros st; [done|].
  rewrite receive_loop_cons, IH, send_personal_message_run, Hdumps. cbn zeta.
  by rewrite Halive.
Qed.

Lemma websocket_endpoint_run websocket incoming closing st :
  accept_ok (history st) websocket = true ->
  websocket_endpoint websocket incoming closing st =
    let st1 := receive_loop websocket incoming closing
                 {| manager := add_connection websocket None (manager st);
                    history := history st ++ [EvAccept websocket true] |} in
    match closing with
    | WebSocketDisconnect =>
        (Return tt, {| manager := disconnect websocket (manager st1.2);
                       history := history st1.2 |})
    | Exception what => (Raise (Exception what), st1.2)
    end.
Proof.
  intros Haccept. unfold websocket_endpoint. unfold bind at 1.
  rewrite connect_run, Haccept. unfold try_except_disconnect. cbn zeta.
  pose proof (receive_loop_raises websocket incoming closing
                {| manager := add_connection websocket None (manager st);
                   history := history st ++ [EvAccept websocket true] |}) as Hraise.
  destruct (receive_loop websocket incoming closing _) as [r st1].
  cbn in Hraise. subst r. by destruct closing.
Qed.
End endpoint_more.

(** X8: a client whose channel is not yet in the registry connects, sends any
    frames and goes away with [WebSocketDisconnect].  Then the endpoint returns
    normally and the registry is exactly what it was before the client came,
    whether or not some reply to it failed on the way.  When the handshake
    fails the endpoint raises and the registry is untouched as well. *)
Theorem endpoint_leaves_no_trace_of_a_client_that_left `{Environment}
    (websocket : WebSocket) (incoming : list string) (st : State) :
  NoDup (active_connections (manager st)) ->
  websocket ∉ active_connections (manager st) ->
  websocket ∉ PyDict.keys (connection_info (manager st)) ->
  let r := websocket_endpoint websocket incoming WebSocketDisconnect st in
  r.1 = (if accept_ok (history st) websocket then Return tt else Raise (Exception "accept")) /\
  manager r.2 = manager st.
Proof.
  intros Hnd Hl Hk. cbn zeta.
  destruct (accept_ok (history st) websocket) eqn:Haccept.
  - rewrite websocket_endpoint_run by done. cbn zeta. cbn [fst snd manager].
    split; [done|].
    set (self := add_connection websocket None (manager st)).
    assert (NoDup (active_connections self)) as Hnd'.
    { subst self. cbn. apply NoDup_app. split_and!; [done| |apply NoDup_singleton].
      intros c Hc Hc'. apply list_elem_of_singleton in Hc' as ->. done. }
    assert (disconnect websocket self = manager st) as Hback
      by (by apply add_then_disconnect).
    match goal with
    | |- context [receive_loop websocket incoming WebSocketDisconnect ?s] =>
        destruct (receive_loop_manager websocket incoming WebSocketDisconnect self s Hnd'
                    (or_introl eq_refl)) as [Hm|Hm]; rewrite Hm
    end.
    + done.
    + rewrite Hback. by apply disconnect_absent.
  - unfold websocket_endpoint, bind. rewrite connect_run, Haccept. done.
Qed.

Lemma endpoint_leaves_no_trace_of_a_client_that_left_witness :
  let r := websocket_endpoint (H := scenario [4] false) 4 ["ping"; "again"] WebSocketDisconnect
             three_channels in
  r.1 = (if accept_ok (Environment := scenario [4] false) (history three_channels) 4
         then Return tt else Raise (Exception "accept")) /\
  manager r.2 = manager three_channels.
Proof.
  apply (endpoint_leaves_no_trace_of_a_client_that_left (H := scenario [4] false) 4
           ["ping"; "again"] three_channels); compute_done.
Defined.

(** X9: when [receive_text] ends the loop with an exception that is not
    [WebSocketDisconnect], the endpoint raises it and does not disconnect:
    a channel all of whose replies went through is still in the registry
    after its endpoint has ended. *)
Theorem endpoint_keeps_the_channel_registered_on_another_exception `{Environment}
    (websocket : WebSocket) (incoming : list string) (what text : string) (st : State) :
  accept_ok (history st) websocket = true ->
  dumps pong_message = Return text ->
  (forall h, send_ok h websocket text = true) ->
  let r := websocket_endpoint websocket incoming (Exception what) st in
  r.1 = Raise (Exception what) /\
  manager r.2 = add_connection websocket None (manager st) /\
  websocket ∈ active_connections (manager r.2).
Proof.
  intros Haccept Hdumps Halive. cbn zeta.
  rewrite websocket_endpoint_run by done. cbn zeta. cbn [fst snd].
  rewrite (receive_loop_manager_alive websocket incoming (Exception what) text) by done.
  cbn [manager]. split_and!; [done|done|].
  cbn. apply elem_of_app. right. left.
Qed.

Lemma endpoint_keeps_the_channel_registered_on_another_exception_witness :
  let r := websocket_endpoint (H := scenario [] false) 4 ["ping"] (Exception "KeyError")
             three_channels in
  r.1 = Raise (Exception "KeyError") /\
  manager r.2 = add_connection 4 None (manager three_channels) /\
  4 ∈ active_connections (manager r.2).
Proof.
  apply (endpoint_keeps_the_channel_registered_on_another_exception (H := scenario [] false) 4
           ["ping"] "KeyError" "json" three_channels).
  - reflexivity.
  - reflexivity.
  - intros h. reflexivity.
Defined.

(** * More of the crawler and of the scheduled run *)

(** The upserts of a history with how each ended. *)
Definition upsert_results (evs : list Event) : list (PyValue * PyValue * bool) :=
  omap (fun e => match e with EvUpdateOne k d ok => Some (k, d, ok) | _ => None end) evs.

(** The event of the upsert of a report that ended as [ok] says. *)
Definition upsert_event (ok : bool) (report : LovebugReport.t) : Event :=
  EvUpdateOne (py_optional_str (LovebugReport.tweet_id report)) (LovebugReport_dict report) ok.

(** Does a value hold a [datetime] somewhere. *)
Fixpoint has_datetime (v : PyValue) : bool :=
  match v with
  | PyDatetime _ => true
  | PyList items => existsb has_datetime items
  | PyDict items => existsb (fun kv => has_datetime kv.2) items
  | _ => false
  end.

(** An environment whose [json.dumps] is the standard encoder as far as
    datetimes go: a value that holds one is refused. *)
Definition strict_json : Environment :=
  {| accept_ok := fun _ _ => true;
     send_ok := fun _ _ _ => true;
     dumps := fun v => if has_datetime v then Raise (Exception "TypeError") else Return "json";
     database_ready := true;
     update_ok := fun _ _ _ => true |}.

Section crawler_more.
Context `{Collaborators}.

Lemma process_tweets_omap tweets reports :
  process_tweets tweets reports = reports ++ omap _process_tweet tweets.
Proof.
  revert reports. induction tweets as [|tweet_data rest IH]; intros reports; cbn.
  - by rewrite app_nil_r.
  - destruct (_process_tweet tweet_data) as [report|]; rewrite IH; [|done].
    by rewrite <- app_assoc.
Qed.

Lemma crawl_lovebug_tweets_omap : crawl_lovebug_tweets = omap _process_tweet fetched_tweets.
Proof. unfold crawl_lovebug_tweets. by rewrite process_tweets_omap. Qed.

Lemma omap_length_le {A B : Type} (f : A -> option B) (l : list A) :
  length (omap f l) <= length l.
Proof. induction l as [|x l IH]; cbn; [done|]. destruct (f x); cbn; lia. Qed.

Lemma process_tweet_fields tweet_data report :
  _process_tweet tweet_data = Some report ->
  LovebugReport.id report = None /\
  LovebugReport.tweet_id report = Some (TweetData.id tweet_data) /\
  LovebugReport.platform report = TWITTER /\
  LovebugReport.content report = TweetData.text tweet_data /\
  LovebugReport.image_urls report = TweetData.images tweet_data /\
  LovebugReport.author report = Some (TweetData.author tweet_data) /\
  LovebugReport.created_at report = TweetData.created_at tweet_data /\
  LovebugReport.updated_at report = now.
Proof.
  unfold _process_tweet, build_report, and_then.
  destruct (analyze_text _) as [analysis|]; [|done].
  destruct (extract_location _) as [location|]; [|done].
  destruct (_determine_severity _ _) as [severity|]; [|done].
  destruct (_extract_keywords _) as [keywords|]; [|done].
  destruct (validate_float (py_get_default "confidence" _ _)) as [confidence|]; [|done].
  destruct (validate_float (py_get_default "sentiment" _ _)) as [sentiment|]; [|done].
  intros [= <-]. done.
Qed.
End crawler_more.

(** X10: the batch of a crawl is made of the reports of the fetched tweets
    whose processing gave one, in the order of the fetch and with nothing
    merged or left out: the tweet ids of the batch are the ids of those
    tweets, one for each time the tweet was fetched.  Processing two lists
    one after the other is processing their concatenation. *)
Theorem batch_is_the_processed_tweets_in_order `{Collaborators} :
  crawl_lovebug_tweets = omap _process_tweet fetched_tweets /\
  length crawl_lovebug_tweets <= length fetched_tweets /\
  (forall tweets1 tweets2 reports,
     process_tweets (tweets1 ++ tweets2) reports
       = process_tweets tweets2 (process_tweets tweets1 reports)) /\
  LovebugReport.tweet_id <$> crawl_lovebug_tweets =
    (fun tweet_data => Some (TweetData.id tweet_data)) <$>
      filter (fun tweet_data => is_Some (_process_tweet tweet_data)) fetched_tweets.
Proof.
  split_and!.
  - apply crawl_lovebug_tweets_omap.
  - rewrite crawl_lovebug_tweets_omap. apply omap_length_le.
  - intros tweets1 tweets2 reports. rewrite !process_tweets_omap, omap_app.
    by rewrite app_assoc.
  - rewrite crawl_lovebug_tweets_omap.
    induction fetched_tweets as [|tweet_data rest IH]; [done|].
    cbn [omap list_omap]. destruct (_process_tweet tweet_data) as [report|] eqn:Hreport.
    + rewrite filter_cons_True by (by rewrite Hreport). rewrite !fmap_cons. f_equal; [|done].
      by destruct (process_tweet_fields _ _ Hreport) as (_ & -> & _).
    + rewrite filter_cons_False; [done|]. rewrite Hreport. by intros [r Hr].
Qed.

(** X11: a report that [_process_tweet] returns keeps the identity of its
    tweet: the tweet's id is its [tweet_id], the text its content, author,
    images and creation time are the tweet's, the platform is twitter, the
    store id is unset and the update time is the time of processing. *)
Theorem processed_report_keeps_the_tweet `{Collaborators}
    (tweet_data : TweetData.t) (report : LovebugReport.t) :
  _process_tweet tweet_data = Some report ->
  LovebugReport.id report = None /\
  LovebugReport.tweet_id report = Some (TweetData.id tweet_data) /\
  LovebugReport.platform report = TWITTER /\
  LovebugReport.content report = TweetData.text tweet_data /\
  LovebugReport.image_urls report = TweetData.images tweet_data /\
  LovebugReport.author report = Some (TweetData.author tweet_data) /\
  LovebugReport.created_at report = TweetData.created_at tweet_data /\
  LovebugReport.updated_at report = now.
Proof. apply process_tweet_fields. Qed.

Lemma processed_report_keeps_the_tweet_witness :
  LovebugReport.id (report_of "1" "one") = None /\
  LovebugReport.tweet_id (report_of "1" "one") = Some (TweetData.id (tweet "1" "one")) /\
  LovebugReport.platform (report_of "1" "one") = TWITTER /\
  LovebugReport.content (report_of "1" "one") = TweetData.text (tweet "1" "one") /\
  LovebugReport.image_urls (report_of "1" "one") = TweetData.images (tweet "1" "one") /\
  LovebugReport.author (report_of "1" "one") = Some (TweetData.author (tweet "1" "one")) /\
  LovebugReport.created_at (report_of "1" "one") = TweetData.created_at (tweet "1" "one") /\
  LovebugReport.updated_at (report_of "1" "one") = now (Collaborators := three_tweets).
Proof.
  apply (processed_report_keeps_the_tweet (H := three_tweets) (tweet "1" "one")
           (report_of "1" "one")).
  reflexivity.
Defined.

Section run_more.
Context `{Environment}.

(** What [broadcast] does to a state, in one equation. *)
Lemma broadcast_effect message st :
  exists r wire,
    broadcast message st =
      (r, {| manager := disconnect_all (manager st) (failed_sends wire);
             history := history st ++ wire |}) /\
    Forall is_wire wire /\
    (forall e, dumps message = Raise e -> send_attempts wire = []) /\
    (active_connections (manager st) = [] -> wire = []).
Proof.
  destruct (decide (active_connections (manager st) = [])) as [Hempty|Hne].
  - rewrite broadcast_run_empty by done.
    exists (Return tt), []. rewrite app_nil_r. destruct st. split_and!; done.
  - destruct (dumps message) as [text|e] eqn:Hdumps.
    + rewrite (broadcast_run_nonempty message text) by done.
      exists (Return tt),
        (EvJsonDumps message ::
           send_events (history st ++ [EvJsonDumps message]) text
             (active_connections (manager st))).
      split_and!; [reflexivity| |intros e' [=]|done].
      constructor; [done|]. eapply Forall_impl; [apply send_events_sends|]. by intros [].
    + rewrite (broadcast_run_raise message e) by done.
      exists (Raise e), [EvJsonDumps message].
      split_and!; [reflexivity|by constructor|done|done].
Qed.

(** The loop of upserts goes through the batch in order and ends at the first
    upsert that raises. *)
Lemma upserts_run_prefix (reports : list LovebugReport.t) st :
  exists r done failed rest,
    reports = done ++ failed ++ rest /\
    for_each reports (fun report =>
        update_one (py_optional_str (LovebugReport.tweet_id report))
                   (LovebugReport_dict report)) st
      = (r, {| manager := manager st;
               history := history st ++ (upsert_event true <$> done)
                            ++ (upsert_event false <$> failed) |}) /\
    match r with
    | Return _ => failed = [] /\ rest = []
    | Raise _ => length failed = 1
    end.
Proof.
  revert st. induction reports as [|report reports IH]; intros st.
  - exists (Return tt), [], [], []. cbn. rewrite app_nil_r. by destruct st.
  - cbn [for_each]. unfold bind at 1. unfold update_one at 1.
    destruct (update_ok (history st) _ _) eqn:Hok.
    + unfold emit. cbn [manager history].
      match goal with
      | |- context [for_each reports ?f ?s] =>
          destruct (IH s) as (r & done & failed & rest & Hsplit & Hrun & Hr); rewrite Hrun
      end.
      cbn [manager history]. exists r, (report :: done), failed, rest.
      split_and!; [by rewrite Hsplit| |done].
      cbn [fmap list_fmap app]. by rewrite <- !app_assoc.
    + unfold emit. cbn [manager history].
      eexists (Raise _), [], [report], reports. split_and!; done.
Qed.
End run_more.

Section scheduled_more.
Context `{Environment} `{Collaborators}.

Lemma crawl_and_update_unfold st :
  crawl_and_update st =
    match crawl_lovebug_tweets with
    | [] => (Return tt, st)
    | _ :: _ =>
        if database_ready then
          match for_each crawl_lovebug_tweets (fun report =>
                    update_one (py_optional_str (LovebugReport.tweet_id report))
                               (LovebugReport_dict report)) st with
          | (Return _, st1) =>
              (Return tt,
               (broadcast (lovebug_update crawl_lovebug_tweets)
                  (emit (EvBroadcast (lovebug_update crawl_lovebug_tweets)) st1)).2)
          | (Raise _, st1) => (Return tt, st1)
          end
        else (Return tt, st)
    end.
Proof.
  unfold crawl_and_update, try_except.
  destruct crawl_lovebug_tweets as [|report reports]; [done|].
  unfold bind at 1. unfold get_collection.
  destruct database_ready; [|done].
  unfold ret at 1. unfold bind at 1.
  destruct (for_each _ _ st) as [[[]|e] st1]; [|done].
  unfold call_broadcast. unfold bind at 1.
  change ((fun st0 : State => (Return tt, emit (EvBroadcast (lovebug_update (report :: reports))) st0)) st1)
    with (Return tt, emit (EvBroadcast (lovebug_update (report :: reports))) st1).
  cbn beta iota.
  by destruct (broadcast _ _) as [[[]|e] st2].
Qed.

(** The two ways a run can go: it ends before the broadcaster, or it reaches
    it after one completed upsert per report. *)
Lemma crawl_and_update_cases st :
  (exists done failed rest,
     crawl_lovebug_tweets = done ++ failed ++ rest /\
     length failed <= 1 /\
     (failed = [] -> done = [] /\ (crawl_lovebug_tweets = [] \/ database_ready = false)) /\
     crawl_and_update st =
       (Return tt,
        {| manager := manager st;
           history := history st ++ (upsert_event true <$> done)
                        ++ (upsert_event false <$> failed) |})) \/
  (crawl_lovebug_tweets <> [] /\ database_ready = true /\
   exists wire,
     crawl_and_update st =
       (Return tt,
        {| manager := disconnect_all (manager st) (failed_sends wire);
           history := history st ++ (upsert_event true <$> crawl_lovebug_tweets)
                        ++ EvBroadcast (lovebug_update crawl_lovebug_tweets) :: wire |}) /\
     Forall is_wire wire /\
     (forall e, dumps (lovebug_update crawl_lovebug_tweets) = Raise e -> send_attempts wire = []) /\
     (active_connections (manager st) = [] -> wire = [])).
Proof.
  rewrite crawl_and_update_unfold.
  destruct (decide (crawl_lovebug_tweets = [])) as [Hnone|Hsome].
  { left. exists [], [], []. rewrite Hnone. cbn. rewrite app_nil_r. destruct st.
    split_and!; auto. }
  destruct database_ready eqn:Hdb.
  2:{ left. exists [], [], crawl_lovebug_tweets. cbn. rewrite app_nil_r.
      destruct crawl_lovebug_tweets; [done|]. destruct st. split_and!; auto. }
  destruct (upserts_run_prefix crawl_lovebug_tweets st)
    as (r & done & failed & rest & Hsplit & Hrun & Hr).
  rewrite Hrun. destruct r as [[]|e].
  - destruct Hr as [-> ->]. rewrite !app_nil_r in Hsplit. subst done.
    right. split; [done|]. split; [done|].
    unfold emit. cbn [manager history].
    match goal with
    | |- context [broadcast ?m ?s] =>
        destruct (broadcast_effect m s) as (r & wire & Hb & Hwire & Hraise & Hempty);
          rewrite Hb
    end.
    cbn [manager history] in *. exists wire.
    split_and!; [|done|done|done].
    cbn [fmap list_fmap app snd]. rewrite app_nil_r.
    destruct crawl_lovebug_tweets; [done|]. by rewrite <- !app_assoc.
  - left. exists done, failed, rest.
    destruct crawl_lovebug_tweets; [done|]. split_and!; [done|lia| |done].
    intros ->. done.
Qed.
End scheduled_more.

Section readers_more.

Lemma upsert_events_read ok (reports : list LovebugReport.t) :
  upsert_results (upsert_event ok <$> reports) = (fun r => (upsert_of r, ok)) <$> reports /\
  upserts (upsert_event ok <$> reports) = upsert_of <$> reports /\
  broadcast_calls (upsert_event ok <$> reports) = [] /\
  failed_sends (upsert_event ok <$> reports) = [] /\
  send_attempts (upsert_event ok <$> reports) = [] /\
  serialized (upsert_event ok <$> reports) = [].
Proof.
  induction reports as [|r reports (IH1 & IH2 & IH3 & IH4 & IH5 & IH6)]; [done|].
  cbn [fmap list_fmap]. unfold upsert_results, upserts in *. cbn [omap list_omap upsert_event].
  rewrite IH1, IH2. done.
Qed.


Lemma no_attempt_no_failure evs : send_attempts evs = [] -> failed_sends evs = [].
Proof.
  induction evs as [|e evs IH]; [done|].
  destruct e as [| |c text ok| | |]; cbn; try done.
Qed.

Lemma has_datetime_dict key v items :
  In (key, v) items -> has_datetime v = true -> has_datetime (PyDict items) = true.
Proof.
  intros Hin Hv.
  change (has_datetime (PyDict items)) with (existsb (fun kv => has_datetime kv.2) items).
  apply existsb_exists. by exists (key, v).
Qed.

Lemma has_datetime_list v items :
  In v items -> has_datetime v = true -> has_datetime (PyList items) = true.
Proof.
  intros Hin Hv.
  change (has_datetime (PyList items)) with (existsb has_datetime items).
  apply existsb_exists. by exists v.
Qed.

Lemma report_dict_has_datetime (r : LovebugReport.t) :
  has_datetime (LovebugReport_dict r) = true.
Proof.
  apply (has_datetime_dict "created_at" (PyDatetime (LovebugReport.created_at r))); [|done].
  unfold LovebugReport_dict. do 11 right. by left.
Qed.

Lemma lovebug_update_has_datetime (reports : list LovebugReport.t) :
  reports <> [] -> has_datetime (lovebug_update reports) = true.
Proof.
  destruct reports as [|r reports]; [done|]. intros _.
  apply (has_datetime_dict "data" (PyList (LovebugReport_dict <$> r :: reports))).
  - right. by left.
  - apply (has_datetime_list (LovebugReport_dict r)); [by left|].
    apply report_dict_has_datetime.
Qed.
End readers_more.


(** X13: a run changes the registry in one way only, by disconnecting the
    channels whose send raised during its broadcast.  So a well-formed
    registry stays well formed, with those channels gone from list and
    metadata, and with no client connected the run neither serializes nor
    sends anything and leaves the registry as it is. *)
Theorem run_changes_the_registry_only_by_pruning `{Environment} `{Collaborators} (st : State) :
  let st' := (crawl_and_update st).2 in
  manager st' = disconnect_all (manager st) (failed_sends (since st st')) /\
  (registry_wf (manager st) ->
   registry_wf (manager st') /\
   forall c, c ∈ failed_sends (since st st') ->
     (c ∉ active_connections (manager st')) /\
     PyDict.get c (connection_info (manager st')) = None) /\
  (active_connections (manager st) = [] ->
   manager st' = manager st /\
   serialized (since st st') = [] /\
   send_attempts (since st st') = []).
Proof.
  cbn zeta.
  assert (exists failed evs,
            (crawl_and_update st).2 =
              {| manager := disconnect_all (manager st) failed; history := history st ++ evs |} /\
            failed_sends evs = failed /\
            (active_connections (manager st) = [] ->
             failed = [] /\ serialized evs = [] /\ send_attempts evs = []))
    as (failed & evs & -> & Hfailed & Hempty).
  { destruct (crawl_and_update_cases st)
      as [(done & failed & rest & _ & _ & _ & ->)
         |(Hsome & Hdb & wire & -> & Hwire & _ & Hnone)]; cbn [snd].
    - exists [], ((upsert_event true <$> done) ++ (upsert_event false <$> failed)).
      destruct (upsert_events_read true done) as (_ & _ & _ & Hd4 & Hd5 & Hd6).
      destruct (upsert_events_read false failed) as (_ & _ & _ & Hf4 & Hf5 & Hf6).
      unfold failed_sends, serialized, send_attempts in *.
      rewrite !omap_app, Hd4, Hd5, Hd6, Hf4, Hf5, Hf6. done.
    - exists (failed_sends wire),
        ((upsert_event true <$> crawl_lovebug_tweets)
           ++ EvBroadcast (lovebug_update crawl_lovebug_tweets) :: wire).
      destruct (upsert_events_read true crawl_lovebug_tweets) as (_ & _ & _ & Hd4 & Hd5 & Hd6).
      split_and!; [done| |].
      + unfold failed_sends in *. by rewrite omap_app, Hd4.
      + intros Hno. rewrite (Hnone Hno).
        unfold failed_sends, serialized, send_attempts in *.
        rewrite !omap_app, Hd5, Hd6. done. }
  cbn [manager]. rewrite (since_app st (history st)) by done. rewrite Hfailed.
  split_and!; [done| |].
  - intros Hwf. split; [by apply disconnect_all_wf|].
    intros c Hc. split; [|by apply disconnect_all_info].
    apply disconnect_all_prunes; [apply Hwf|done].
  - intros Hno. destruct (Hempty Hno) as (-> & Hser & Hsent). done.
Qed.

(** X14: every report dict carries its two times as datetimes, so the message
    of a batch that is not empty holds datetimes.  With a [json.dumps] that
    refuses every value holding a datetime, as the standard encoder does, no
    run sends anything to any client, whatever was crawled and whoever is
    connected; the run still ends normally and no channel is removed. *)
Theorem run_delivers_nothing_when_datetimes_do_not_serialize `{Environment} `{Collaborators}
    (st : State) :
  (forall v, has_datetime v = true -> exists e, dumps v = Raise e) ->
  let st' := (crawl_and_update st).2 in
  (forall reports, reports <> [] -> has_datetime (lovebug_update reports) = true) /\
  (crawl_and_update st).1 = Return tt /\
  send_attempts (since st st') = [] /\
  manager st' = manager st.
Proof.
  intros Hstrict. cbn zeta. split; [apply lovebug_update_has_datetime|].
  destruct (crawl_and_update_cases st)
    as [(done & failed & rest & _ & _ & _ & ->)
       |(Hsome & Hdb & wire & -> & Hwire & Hraise & _)]; cbn [fst snd manager].
  - rewrite (since_app st (history st)) by done.
    destruct (upsert_events_read true done) as (_ & _ & _ & _ & Hd5 & _).
    destruct (upsert_events_read false failed) as (_ & _ & _ & _ & Hf5 & _).
    unfold send_attempts in *. by rewrite omap_app, Hd5, Hf5.
  - rewrite (since_app st (history st)) by done.
    destruct (Hstrict _ (lovebug_update_has_datetime _ Hsome)) as [e He].
    specialize (Hraise e He).
    destruct (upsert_events_read true crawl_lovebug_tweets) as (_ & _ & _ & _ & Hd5 & _).
    split_and!; [done| |].
    + unfold send_attempts in *. rewrite omap_app, Hd5. exact Hraise.
    + by rewrite (no_attempt_no_failure wire Hraise).
Qed.

Lemma run_delivers_nothing_when_datetimes_do_not_serialize_witness :
  let st' := (crawl_and_update (H := strict_json) (H0 := three_tweets) three_channels).2 in
  (forall reports, reports <> [] -> has_datetime (lovebug_update reports) = true) /\
  (crawl_and_update (H := strict_json) (H0 := three_tweets) three_channels).1 = Return tt /\
  send_attempts (since three_channels st') = [] /\
  manager st' = manager three_channels.
Proof.
  apply (run_delivers_nothing_when_datetimes_do_not_serialize (H := strict_json)
           (H0 := three_tweets) three_channels).
  intros v Hv. exists (Exception "TypeError"). cbn. by rewrite Hv.
Defined.

(** X15: every upsert of a run is that of a fetched tweet which
    [_process_tweet] turned into a report: the key is the id of the tweet and
    the document is the dict of its report. *)
Theorem every_upsert_is_keyed_by_a_fetched_tweet `{Environment} `{Collaborators}
    (st : State) (k d : PyValue) :
  (k, d) ∈ upserts (since st (crawl_and_update st).2) ->
  exists tweet_data report,
    tweet_data ∈ fetched_tweets /\
    _process_tweet tweet_data = Some report /\
    k = PyStr (TweetData.id tweet_data) /\
    d = LovebugReport_dict report.
Proof.
  assert (exists attempted rest,
            crawl_lovebug_tweets = attempted ++ rest /\
            upserts (since st (crawl_and_update st).2) = upsert_of <$> attempted)
    as (attempted & rest & Hsplit & ->).
  { destruct (crawl_and_update_cases st)
      as [(completed & failed & rest & Hsplit & _ & _ & ->)
         |(Hsome & Hdb & wire & -> & Hwire & _ & _)]; cbn [snd];
      rewrite (since_app st (history st)) by reflexivity.
    - exists (completed ++ failed), rest. split; [by rewrite <- app_assoc|].
      destruct (upsert_events_read true completed) as (_ & Hd2 & _).
      destruct (upsert_events_read false failed) as (_ & Hf2 & _).
      unfold upserts in *. by rewrite omap_app, Hd2, Hf2, fmap_app.
    - exists crawl_lovebug_tweets, []. split; [by rewrite app_nil_r|].
      destruct (upsert_events_read true crawl_lovebug_tweets) as (_ & Hd2 & _).
      destruct (wire_events wire Hwire) as (_ & Hw & _).
      unfold upserts in *. rewrite omap_app, Hd2.
      change (omap _ (EvBroadcast (lovebug_update crawl_lovebug_tweets) :: wire))
        with (omap (fun e => match e with EvUpdateOne k d _ => Some (k, d) | _ => None end) wire).
      by rewrite Hw, app_nil_r. }
  intros Hin. apply list_elem_of_fmap in Hin as (report & Heq & Hreport).
  assert (report ∈ crawl_lovebug_tweets) as Hbatch.
  { rewrite Hsplit. apply elem_of_app. by left. }
  rewrite crawl_lovebug_tweets_omap in Hbatch.
  apply list_elem_of_omap in Hbatch as (tweet_data & Hfetched & Hprocessed).
  exists tweet_data, report. split_and!; [done|done| |].
  - destruct (process_tweet_fields tweet_data report Hprocessed) as (_ & Hid & _).
    injection Heq as -> _. by rewrite Hid.
  - by injection Heq as _ ->.
Qed.

Lemma every_upsert_is_keyed_by_a_fetched_tweet_witness :
  exists tweet_data report,
    tweet_data ∈ fetched_tweets (H := three_tweets) /\
    _process_tweet (H := three_tweets) tweet_data = Some report /\
    PyStr "3" = PyStr (TweetData.id tweet_data) /\
    LovebugReport_dict (report_of "3" "three") = LovebugReport_dict report.
Proof.
  apply (every_upsert_is_keyed_by_a_fetched_tweet (H := scenario [] false) (H0 := three_tweets)
           fresh (PyStr "3") (LovebugReport_dict (report_of "3" "three"))).
  vm_compute since. right. left.
Defined.

(** * The run with an item whose extraction raises *)

Section run_of_three.
Context `{Environment} `{Collaborators}.

(** The upserts of a batch in a store that takes every one of them. *)
Lemma upserts_all_done (reports : list LovebugReport.t) st :
  (forall h k d, update_ok h k d = true) ->
  for_each reports (fun report =>
      update_one (py_optional_str (LovebugReport.tweet_id report))
                 (LovebugReport_dict report)) st
    = (Return tt,
       {| manager := manager st;
          history := history st ++ (upsert_event true <$> reports) |}).
Proof.
  intros Hstore. revert st. induction reports as [|report reports IH]; intros st.
  - cbn. rewrite app_nil_r. by destruct st.
  - cbn [for_each]. unfold bind at 1. unfold update_one at 1. rewrite Hstore.
    rewrite IH. unfold emit. cbn [manager history fmap list_fmap]. unfold upsert_event at 2.
    by rewrite <- app_assoc.
Qed.

Lemma send_events_wire h text connections : Forall is_wire (send_events h text connections).
Proof. eapply Forall_impl; [apply send_events_sends|]. by intros []. Qed.
End run_of_three.

(** C5, as the code has it.  The run fetches three items; building the
    report of the second raises, building those of the first and third gives
    [r1] and [r3]; the database is there, the store takes every upsert and
    some client is connected.  Then the item is dropped and the run goes on:
    the batch is [r1; r3], the run ends normally, upserts these two and
    calls the broadcaster once, with one message whose data are the two
    reports, and the broadcaster hands that message to [json.dumps] once.
    The message holds the datetimes of the reports: when [json.dumps]
    accepts it, its text is sent to every connected client, once each and in
    order; when [json.dumps] refuses it, nothing is sent to anybody and the
    registry is left as it was. *)
Theorem run_drops_the_item_whose_extraction_raises `{Environment} `{Collaborators}
    (t1 t2 t3 : TweetData.t) (r1 r3 : LovebugReport.t) (e : Exn) (st : State) :
  fetched_tweets = [t1; t2; t3] ->
  build_report t1 = Return r1 ->
  build_report t2 = Raise e ->
  build_report t3 = Return r3 ->
  database_ready = true ->
  (forall h k d, update_ok h k d = true) ->
  active_connections (manager st) <> [] ->
  let st' := (crawl_and_update st).2 in
  let message := lovebug_update [r1; r3] in
  _process_tweet t2 = None /\
  crawl_lovebug_tweets = [r1; r3] /\
  (crawl_and_update st).1 = Return tt /\
  upserts (since st st') = [upsert_of r1; upsert_of r3] /\
  broadcast_calls (since st st') = [message] /\
  py_get "data" message = Some (PyList [LovebugReport_dict r1; LovebugReport_dict r3]) /\
  serialized (since st st') = [message] /\
  has_datetime message = true /\
  match dumps message with
  | Return text =>
      send_attempts (since st st') = (fun c => (c, text)) <$> active_connections (manager st) /\
      manager st' = disconnect_all (manager st) (failed_sends (since st st'))
  | Raise _ =>
      send_attempts (since st st') = [] /\
      manager st' = manager st
  end.
Proof.
  intros Hfetched H1 H2 H3 Hdb Hstore Hclients. cbn zeta.
  assert (crawl_lovebug_tweets = [r1; r3]) as Hbatch.
  { unfold crawl_lovebug_tweets. rewrite Hfetched. cbn [process_tweets].
    unfold _process_tweet. by rewrite H1, H2, H3. }
  split; [unfold _process_tweet; by rewrite H2|]. split; [done|].
  rewrite crawl_and_update_unfold, Hbatch, Hdb, upserts_all_done by done.
  cbn [fst]. split; [done|].
  set (message := lovebug_update [r1; r3]).
  set (st1 := emit (EvBroadcast message) _).
  assert (active_connections (manager st1) = active_connections (manager st)) as Hsame by done.
  assert (history st1 =
            history st ++ [upsert_event true r1; upsert_event true r3; EvBroadcast message])
    as Hhistory.
  { subst st1. cbn. by rewrite <- app_assoc. }
  assert (has_datetime message = true) as Htimes
    by (by apply lovebug_update_has_datetime).
  destruct (dumps message) as [text|err] eqn:Hdumps.
  - rewrite (broadcast_run_nonempty message text) by (by rewrite ?Hsame).
    cbn [snd]. rewrite Hhistory, Hsame.
    set (sends := send_events _ text (active_connections (manager st))).
    rewrite <- app_assoc. rewrite (since_app st (history st)) by done.
    destruct (wire_events sends (send_events_wire _ _ _)) as (Hcalls & Hups & _).
    assert (serialized sends = []) as Hser
      by (apply (sends_not_serialized text), send_events_sends).
    change ([upsert_event true r1; upsert_event true r3; EvBroadcast message] ++
              EvJsonDumps message :: sends)
      with ([upsert_event true r1; upsert_event true r3; EvBroadcast message;
             EvJsonDumps message] ++ sends).
    unfold upserts, broadcast_calls, serialized, send_attempts, failed_sends.
    rewrite !omap_app.
    fold (upserts sends) (broadcast_calls sends) (serialized sends) (send_attempts sends)
      (failed_sends sends).
    rewrite Hcalls, Hups, Hser. subst sends. rewrite send_events_attempts.
    split_and!; done.
  - rewrite (broadcast_run_raise message err) by (by rewrite ?Hsame).
    change (emit (EvJsonDumps message) st1)
      with {| manager := manager st1; history := history st1 ++ [EvJsonDumps message] |}.
    cbn [snd]. rewrite Hhistory.
    rewrite <- app_assoc. rewrite (since_app st (history st)) by done.
    split_and!; done.
Qed.

(** The run at which the code and the specification part: three clients are
    connected, [json.dumps] is the standard encoder, the text analysis raises
    on the second of three tweets.  The two reports are upserted, the
    broadcaster is called with the batch of two, and no client is sent
    anything. *)
Lemma run_drops_the_item_whose_extraction_raises_witness :
  let st' := (crawl_and_update (H := strict_json) (H0 := three_tweets) three_channels).2 in
  let message := lovebug_update [report_of "1" "one"; report_of "3" "three"] in
  _process_tweet (H := three_tweets) (tweet "2" "two") = None /\
  crawl_lovebug_tweets (H := three_tweets) = [report_of "1" "one"; report_of "3" "three"] /\
  (crawl_and_update (H := strict_json) (H0 := three_tweets) three_channels).1 = Return tt /\
  upserts (since three_channels st')
    = [upsert_of (report_of "1" "one"); upsert_of (report_of "3" "three")] /\
  broadcast_calls (since three_channels st') = [message] /\
  py_get "data" message
    = Some (PyList [LovebugReport_dict (report_of "1" "one");
                    LovebugReport_dict (report_of "3" "three")]) /\
  serialized (since three_channels st') = [message] /\
  has_datetime message = true /\
  send_attempts (since three_channels st') = [] /\
  manager st' = manager three_channels.
Proof.
  exact (run_drops_the_item_whose_extraction_raises (H := strict_json) (H0 := three_tweets)
           (tweet "1" "one") (tweet "2" "two") (tweet "3" "three")
           (report_of "1" "one") (report_of "3" "three") (Exception "analysis") three_channels
           eq_refl eq_refl eq_refl eq_refl eq_refl (fun _ _ _ => eq_refl)
           ltac:(discriminate)).
Defined.

(** The same run with an encoder that takes the message: every client gets
    the one text. *)
Example run_of_three_with_a_lenient_encoder :
  send_attempts
    (since three_channels
       (crawl_and_update (H := scenario [] false) (H0 := three_tweets) three_channels).2)
  = [(1, "json"); (2, "json"); (3, "json")].
Proof. reflexivity. Qed.

(** * The keyword heuristics: [_determine_severity] and [_analyze_intensity] *)

(** [needle in hay] on strings.  A string is kept as the bytes of its UTF-8
    form, in which one text occurs in another exactly when its bytes do. *)
Fixpoint contains (needle hay : string) : bool :=
  if String.prefix needle hay then true
  else match hay with
       | EmptyString => false
       | String _ rest => contains needle rest
       end.

(** [any(word in text for word in words)] *)
Definition any_in (words : list string) (text : string) : bool :=
  existsb (fun word => contains word text) words.

(** [sum(1 for word in words if word in text)] *)
Definition count_in (words : list string) (text : string) : nat :=
  length (List.filter (fun word => contains word text) words).

(** The place of a level in the enumeration. *)
Definition SeverityLevel_rank (s : SeverityLevel) : nat :=
  match s with
  | LOW => 0
  | MEDIUM => 1
  | HIGH => 2
  | CRITICAL => 3
  end.

Module TwitterCrawler.
Section severity.
(** [str.lower()] *)
Variable lower : string -> string.

Definition critical_words : list string := ["지옥"; "떼거리"; "엄청"; "미친"; "완전"].
Definition high_words : list string := ["많아"; "진짜"; "심해"; "대박"].
Definition medium_words : list string := ["좀"; "꽤"; "조금"].

Definition _determine_severity (text : string) (analysis : list (string * PyValue))
    : SeverityLevel :=
  let text_lower := lower text in
  if any_in critical_words text_lower then CRITICAL
  else if any_in high_words text_lower then HIGH
  else if any_in medium_words text_lower then MEDIUM
  else LOW.
End severity.
End TwitterCrawler.

Module TextAnalyzer.
Section intensity.
(** [str.lower()] *)
Variable lower : string -> string.

(** [self.intensity_words] *)
Definition intensity_high : list string :=
  ["엄청"; "완전"; "진짜"; "대박"; "미친"; "떼거리"; "지옥"].
Definition intensity_medium : list string := ["많이"; "꽤"; "제법"; "좀"; "조금"].
Definition intensity_low : list string := ["약간"; "살짝"; "가끔"].

Definition _analyze_intensity (text : string) : string :=
  let text_lower := lower text in
  let high_score := count_in intensity_high text_lower in
  let medium_score := count_in intensity_medium text_lower in
  let low_score := count_in intensity_low text_lower in
  if 0 <? high_score then "high"
  else if 0 <? medium_score then "medium"
  else if 0 <? low_score then "low"
  else "medium".
End intensity.
End TextAnalyzer.

Section substrings.

Lemma string_app_cons x (a b : string) : String x a +:+ b = String x (a +:+ b).
Proof. reflexivity. Qed.

Lemma string_app_nil (b : string) : "" +:+ b = b.
Proof. reflexivity. Qed.

Lemma string_app_assoc (a b c : string) : (a +:+ b) +:+ c = a +:+ (b +:+ c).
Proof.
  induction a as [|x a IH]; [done|]. by rewrite !string_app_cons, IH.
Qed.

Lemma prefix_spec (needle hay : string) :
  String.prefix needle hay = true <-> exists b, hay = needle +:+ b.
Proof.
  revert hay. induction needle as [|x needle IH]; intros hay.
  - split; [intros _; by exists hay|]. intros _. by destruct hay.
  - destruct hay as [|y hay].
    + split; [done|]. by intros [b Hb].
    + cbn [String.prefix]. destruct (Ascii.ascii_dec x y) as [->|Hne].
      * rewrite IH. split; intros [b Hb]; exists b.
        -- by rewrite Hb.
        -- rewrite string_app_cons in Hb. by injection Hb.
      * split; [done|]. intros [b Hb]. rewrite string_app_cons in Hb. by injection Hb.
Qed.

Lemma contains_spec (needle hay : string) :
  contains needle hay = true <-> exists a b, hay = a +:+ needle +:+ b.
Proof.
  split.
  - induction hay as [|y hay IH]; cbn [contains].
    + destruct (String.prefix needle "") eqn:Hp; [|done].
      intros _. apply prefix_spec in Hp as [b Hb]. by exists "", b.
    + destruct (String.prefix needle (String y hay)) eqn:Hp.
      * intros _. apply prefix_spec in Hp as [b Hb]. by exists "", b.
      * intros Hrest. destruct (IH Hrest) as (a & b & ->). by exists (String y a), b.
  - intros (a & b & ->). induction a as [|y a IH].
    + rewrite string_app_nil.
      assert (String.prefix needle (needle +:+ b) = true) as Hp
        by (apply prefix_spec; by exists b).
      destruct (needle +:+ b); cbn [contains]; by rewrite Hp.
    + rewrite string_app_cons. cbn [contains]. by destruct (String.prefix needle _).
Qed.

Lemma contains_extend (word a text b : string) :
  contains word text = true -> contains word (a +:+ text +:+ b) = true.
Proof.
  rewrite !contains_spec. intros (x & y & ->). exists (a +:+ x), (y +:+ b).
  by rewrite !string_app_assoc.
Qed.

Lemma contains_trans (inner outer text : string) :
  contains inner outer = true -> contains outer text = true -> contains inner text = true.
Proof.
  rewrite !contains_spec. intros (x & y & ->) (a & b & ->). exists (a +:+ x), (y +:+ b).
  by rewrite !string_app_assoc.
Qed.

Lemma any_in_extend words a text b :
  any_in words text = true -> any_in words (a +:+ text +:+ b) = true.
Proof.
  unfold any_in. rewrite !existsb_exists. intros (w & Hw & Hin).
  exists w. split; [done|]. by apply contains_extend.
Qed.

Lemma any_in_subset (sub super : list string) text :
  (forall w, In w sub -> In w super) ->
  any_in sub text = true -> any_in super text = true.
Proof.
  intros Hsub. unfold any_in. rewrite !existsb_exists. intros (w & Hw & Hin).
  exists w. auto.
Qed.

Lemma any_in_cover (words part1 part2 : list string) text :
  (forall w, In w words -> In w part1 \/ In w part2) ->
  any_in words text = true -> any_in part1 text = true \/ any_in part2 text = true.
Proof.
  intros Hcover. unfold any_in. rewrite !existsb_exists. intros (w & Hw & Hin).
  destruct (Hcover w Hw); [left|right]; by exists w.
Qed.

Lemma count_in_positive words text : (0 <? count_in words text) = any_in words text.
Proof.
  unfold count_in, any_in. induction words as [|w words IH]; cbn; [done|].
  destruct (contains w text); cbn; [done|]. apply IH.
Qed.
End substrings.

(** Lower-casing of the ASCII letters, which is what [str.lower] does to a
    text whose cased letters are all ASCII (Hangul has no case). *)
Definition ascii_lower_char (c : Ascii.ascii) : Ascii.ascii :=
  let n := Ascii.nat_of_ascii c in
  if (65 <=? n) && (n <=? 90) then Ascii.ascii_of_nat (n + 32) else c.

Fixpoint ascii_lower (s : string) : string :=
  match s with
  | EmptyString => EmptyString
  | String c rest => String (ascii_lower_char c) (ascii_lower rest)
  end.

Lemma ascii_lower_app (a b : string) :
  ascii_lower (a +:+ b) = ascii_lower a +:+ ascii_lower b.
Proof.
  induction a as [|x a IH]; [done|].
  rewrite string_app_cons. cbn [ascii_lower]. by rewrite string_app_cons, IH.
Qed.

(** X16: adding text before or after a tweet never lowers the severity
    [_determine_severity] gives it, whatever the analysis passed along (which
    the function does not look at); for a [lower] that works piece by piece. *)
Theorem severity_never_drops_when_the_text_grows
    (lower : string -> string)
    (Hlower : forall a b, lower (a +:+ b) = lower a +:+ lower b)
    (before text after : string) (analysis analysis' : list (string * PyValue)) :
  SeverityLevel_rank (TwitterCrawler._determine_severity lower text analysis) <=
  SeverityLevel_rank
    (TwitterCrawler._determine_severity lower (before +:+ text +:+ after) analysis').
Proof.
  unfold TwitterCrawler._determine_severity. rewrite !Hlower.
  pose proof (any_in_extend TwitterCrawler.critical_words
                (lower before) (lower text) (lower after)) as Hc.
  pose proof (any_in_extend TwitterCrawler.high_words
                (lower before) (lower text) (lower after)) as Hh.
  pose proof (any_in_extend TwitterCrawler.medium_words
                (lower before) (lower text) (lower after)) as Hm.
  destruct (any_in TwitterCrawler.critical_words (lower text)).
  { rewrite Hc by done. done. }
  destruct (any_in TwitterCrawler.critical_words (_ +:+ _)).
  { by repeat case_match; cbn; lia. }
  destruct (any_in TwitterCrawler.high_words (lower text)).
  { rewrite Hh by done. done. }
  destruct (any_in TwitterCrawler.high_words (_ +:+ _)).
  { by repeat case_match; cbn; lia. }
  destruct (any_in TwitterCrawler.medium_words (lower text)).
  { rewrite Hm by done. done. }
  destruct (any_in TwitterCrawler.medium_words (_ +:+ _)); cbn; lia.
Qed.

Lemma severity_never_drops_when_the_text_grows_witness :
  SeverityLevel_rank (TwitterCrawler._determine_severity ascii_lower "러브버그 좀 있네" []) <=
  SeverityLevel_rank
    (TwitterCrawler._determine_severity ascii_lower
       ("OMG " +:+ "러브버그 좀 있네" +:+ " 진짜 많아") [("confidence", PyFloat "0.9")]).
Proof.
  apply (severity_never_drops_when_the_text_grows ascii_lower ascii_lower_app).
Defined.

(** X17: the crawler's severity and the analyzer's intensity are read from
    overlapping word lists, so on one text they are tied: a CRITICAL tweet has
    intensity "high", a MEDIUM one intensity "medium", and a LOW one never
    intensity "high". *)
Theorem severity_and_intensity_agree (lower : string -> string)
    (text : string) (analysis : list (string * PyValue)) :
  (TwitterCrawler._determine_severity lower text analysis = CRITICAL ->
     TextAnalyzer._analyze_intensity lower text = "high") /\
  (TwitterCrawler._determine_severity lower text analysis = MEDIUM ->
     TextAnalyzer._analyze_intensity lower text = "medium") /\
  (TwitterCrawler._determine_severity lower text analysis = LOW ->
     TextAnalyzer._analyze_intensity lower text = "medium" \/
     TextAnalyzer._analyze_intensity lower text = "low").
Proof.
  unfold TwitterCrawler._determine_severity, TextAnalyzer._analyze_intensity.
  rewrite !count_in_positive.
  pose proof (any_in_subset TwitterCrawler.critical_words TextAnalyzer.intensity_high
                (lower text)) as Hcrit.
  pose proof (any_in_subset TwitterCrawler.medium_words TextAnalyzer.intensity_medium
                (lower text)) as Hmed.
  pose proof (any_in_cover TextAnalyzer.intensity_high TwitterCrawler.critical_words
                TwitterCrawler.high_words (lower text)) as Hcover.
  assert (forall w, In w TwitterCrawler.critical_words -> In w TextAnalyzer.intensity_high)
    as Hin1 by (cbn; intuition).
  assert (forall w, In w TwitterCrawler.medium_words -> In w TextAnalyzer.intensity_medium)
    as Hin2 by (cbn; intuition).
  assert (forall w, In w TextAnalyzer.intensity_high ->
            In w TwitterCrawler.critical_words \/ In w TwitterCrawler.high_words)
    as Hin3 by (cbn; intuition).
  specialize (Hcrit Hin1). specialize (Hmed Hin2). specialize (Hcover Hin3).
  destruct (any_in TwitterCrawler.critical_words (lower text)).
  { rewrite Hcrit by done. by repeat split. }
  destruct (any_in TwitterCrawler.high_words (lower text)); [by repeat split|].
  destruct (any_in TextAnalyzer.intensity_high (lower text)).
  { destruct Hcover as [?|?]; done. }
  destruct (any_in TwitterCrawler.medium_words (lower text)).
  { rewrite Hmed by done. by repeat split. }
  repeat split; try done. intros _.
  destruct (any_in TextAnalyzer.intensity_medium (lower text)); [by left|].
  destruct (any_in TextAnalyzer.intensity_low (lower text)); [by right|by left].
Qed.

(** * The location table: [LocationExtractor] *)

Module LocationExtractor.
(** An entry [{'lat': .., 'lng': .., 'address': ..}] of the table. *)
Record Coords : Type := mkCoords {
  lat : float;
  lng : float;
  address : string
}.

(** [self.location_mapping], in the order the dictionary is written (the order
    its [items()] come in). *)
Definition location_mapping : list (string * Coords) :=
  [
    ("강남역", {| lat := "37.4979"; lng := "127.0276"; address := "서울특별시 강남구 강남대로 지하396" |});
    ("홍대", {| lat := "37.5516"; lng := "126.9226"; address := "서울특별시 마포구 홍익로" |});
    ("홍대입구역", {| lat := "37.5516"; lng := "126.9226"; address := "서울특별시 마포구 홍익로" |});
    ("신촌", {| lat := "37.5596"; lng := "126.9361"; address := "서울특별시 서대문구 신촌동" |});
    ("신촌역", {| lat := "37.5596"; lng := "126.9361"; address := "서울특별시 서대문구 신촌동" |});
    ("명동", {| lat := "37.5636"; lng := "126.9826"; address := "서울특별시 중구 명동" |});
    ("명동역", {| lat := "37.5636"; lng := "126.9826"; address := "서울특별시 중구 명동" |});
    ("종로", {| lat := "37.5704"; lng := "126.9826"; address := "서울특별시 종로구 종로" |});
    ("종로3가역", {| lat := "37.5704"; lng := "126.9826"; address := "서울특별시 종로구 종로" |});
    ("이태원", {| lat := "37.5346"; lng := "126.9942"; address := "서울특별시 용산구 이태원동" |});
    ("이태원역", {| lat := "37.5346"; lng := "126.9942"; address := "서울특별시 용산구 이태원동" |});
    ("잠실", {| lat := "37.5134"; lng := "127.1"; address := "서울특별시 송파구 잠실동" |});
    ("잠실역", {| lat := "37.5134"; lng := "127.1"; address := "서울특별시 송파구 잠실동" |});
    ("건대", {| lat := "37.5404"; lng := "127.0696"; address := "서울특별시 광진구 화양동" |});
    ("건대입구역", {| lat := "37.5404"; lng := "127.0696"; address := "서울특별시 광진구 화양동" |});
    ("노원", {| lat := "37.6547"; lng := "127.0613"; address := "서울특별시 노원구" |});
    ("노원역", {| lat := "37.6547"; lng := "127.0613"; address := "서울특별시 노원구" |});
    ("수원", {| lat := "37.2636"; lng := "127.0286"; address := "경기도 수원시" |});
    ("수원역", {| lat := "37.2636"; lng := "127.0286"; address := "경기도 수원시" |});
    ("인천", {| lat := "37.4563"; lng := "126.7052"; address := "인천광역시" |});
    ("인천역", {| lat := "37.4563"; lng := "126.7052"; address := "인천광역시" |});
    ("강남구", {| lat := "37.5172"; lng := "127.0473"; address := "서울특별시 강남구" |});
    ("서초구", {| lat := "37.4836"; lng := "127.0327"; address := "서울특별시 서초구" |});
    ("송파구", {| lat := "37.5145"; lng := "127.1065"; address := "서울특별시 송파구" |});
    ("강동구", {| lat := "37.5301"; lng := "127.1238"; address := "서울특별시 강동구" |});
    ("마포구", {| lat := "37.5663"; lng := "126.9019"; address := "서울특별시 마포구" |});
    ("영등포구", {| lat := "37.5264"; lng := "126.8962"; address := "서울특별시 영등포구" |});
    ("용산구", {| lat := "37.5384"; lng := "126.9646"; address := "서울특별시 용산구" |});
    ("성동구", {| lat := "37.5634"; lng := "127.0367"; address := "서울특별시 성동구" |});
    ("광진구", {| lat := "37.5481"; lng := "127.0857"; address := "서울특별시 광진구" |});
    ("동대문구", {| lat := "37.5838"; lng := "127.0507"; address := "서울특별시 동대문구" |});
    ("중랑구", {| lat := "37.6066"; lng := "127.0925"; address := "서울특별시 중랑구" |});
    ("성북구", {| lat := "37.6066"; lng := "127.0181"; address := "서울특별시 성북구" |});
    ("강북구", {| lat := "37.6398"; lng := "127.0256"; address := "서울특별시 강북구" |});
    ("도봉구", {| lat := "37.6687"; lng := "127.0471"; address := "서울특별시 도봉구" |});
    ("노원구", {| lat := "37.6542"; lng := "127.0568"; address := "서울특별시 노원구" |});
    ("은평구", {| lat := "37.6177"; lng := "126.9227"; address := "서울특별시 은평구" |});
    ("서대문구", {| lat := "37.5791"; lng := "126.9368"; address := "서울특별시 서대문구" |});
    ("종로구", {| lat := "37.5729"; lng := "126.9792"; address := "서울특별시 종로구" |});
    ("중구", {| lat := "37.5637"; lng := "126.9975"; address := "서울특별시 중구" |});
    ("관악구", {| lat := "37.4784"; lng := "126.9516"; address := "서울특별시 관악구" |});
    ("동작구", {| lat := "37.5125"; lng := "126.9399"; address := "서울특별시 동작구" |});
    ("금천구", {| lat := "37.4569"; lng := "126.8955"; address := "서울특별시 금천구" |});
    ("구로구", {| lat := "37.4955"; lng := "126.8875"; address := "서울특별시 구로구" |});
    ("양천구", {| lat := "37.517"; lng := "126.8664"; address := "서울특별시 양천구" |});
    ("강서구", {| lat := "37.551"; lng := "126.8495"; address := "서울특별시 강서구" |})
  ].

Definition district_pattern : string := "([가-힣]+구|[가-힣]+군)".
Definition city_pattern : string := "([가-힣]+시|[가-힣]+도|[가-힣]+특별시|[가-힣]+광역시)".

Section extractor.
(** [re.search(pattern, s)]: the first group of the match, if there is one. *)
Variable re_search : string -> string -> option string.
(** [_extract_location_names]: the groups [re.findall] gives for the nine
    patterns, in the order [list(set(..))] leaves them in. *)
Variable _extract_location_names : string -> list string.
(** [37.5665 + (hash(name) % 1000) / 10000] and
    [126.9780 + (hash(name) % 1000) / 10000] *)
Variable estimated_lat : string -> float.
Variable estimated_lng : string -> float.

Definition _extract_district (address : string) : option string :=
  if decide (address = "") then None else re_search district_pattern address.

Definition _extract_city (address : string) : option string :=
  if decide (address = "") then None else re_search city_pattern address.

(** What is returned when no key of the table is the name. *)
Definition estimated (location_name : string) : Coords :=
  {| lat := estimated_lat location_name;
     lng := estimated_lng location_name;
     address := "서울특별시 " +:+ location_name |}.

Definition _get_coordinates (location_name : string) : option Coords :=
  match PyDict.get location_name location_mapping with
  | Some coords => Some coords
  | None =>
      if any_in ["역"; "구"; "동"] location_name then Some (estimated location_name)
      else None
  end.

(** [Location(latitude=coords['lat'], longitude=coords['lng'],
    address=coords['address'], district=.., city=..)]; every [coords] has an
    ['address'], so [coords.get('address', ..)] gives the same. *)
Definition to_location (coords : Coords) : Location.t :=
  {| Location.latitude := lat coords;
     Location.longitude := lng coords;
     Location.address := Some (address coords);
     Location.district := _extract_district (address coords);
     Location.city := _extract_city (address coords) |}.

(** The first loop of [extract_location]: the first entry, in table order,
    whose key occurs in the text. *)
Definition direct_match (text : string) : option (string * Coords) :=
  List.find (fun item : string * Coords => contains item.1 text) location_mapping.

Definition extract_location (text : string) : option Location.t :=
  match direct_match text with
  | Some (_, coords) => Some (to_location coords)
  | None =>
      match _extract_location_names text with
      | location_name :: _ =>
          match _get_coordinates location_name with
          | Some coords => Some (to_location coords)
          | None => None
          end
      | [] => None
      end
  end.
End extractor.

(** The keys of the table in which an earlier key occurs. *)
Fixpoint shadowed_from (seen : list string) (table : list (string * Coords)) : list string :=
  match table with
  | [] => []
  | (name, _) :: rest =>
      if any_in seen name then name :: shadowed_from (seen ++ [name]) rest
      else shadowed_from (seen ++ [name]) rest
  end.

(** The others. *)
Fixpoint reachable_from (seen : list string) (table : list (string * Coords)) : list string :=
  match table with
  | [] => []
  | (name, _) :: rest =>
      if any_in seen name then reachable_from (seen ++ [name]) rest
      else name :: reachable_from (seen ++ [name]) rest
  end.

Definition shadowed_keys : list string := shadowed_from [] location_mapping.
Definition reachable_keys : list string := reachable_from [] location_mapping.
End LocationExtractor.

Section location_table.
Import LocationExtractor.

Lemma direct_match_Some text name coords :
  direct_match text = Some (name, coords) ->
  (name, coords) ∈ location_mapping /\ contains name text = true.
Proof.
  unfold direct_match. intros Hfind. apply find_some in Hfind as [Hin Hhit].
  by rewrite list_elem_of_In.
Qed.

Lemma direct_match_None text name :
  direct_match text = None -> name ∈ PyDict.keys location_mapping ->
  contains name text = false.
Proof.
  unfold direct_match, PyDict.keys. intros Hfind Hin.
  apply list_elem_of_fmap in Hin as ([name' coords] & -> & Hin).
  apply list_elem_of_In in Hin. apply (find_none _ _ Hfind _ Hin).
Qed.

Lemma reachable_from_snoc seen k v table name :
  name ∈ reachable_from (seen ++ [k]) table ->
  name ∈ reachable_from seen ((k, v) :: table).
Proof.
  cbn [reachable_from]. destruct (any_in seen k); [done|]. by right.
Qed.

Lemma find_reachable (table : list (string * Coords)) seen text name coords :
  (forall s, In s seen -> contains s text = false) ->
  List.find (fun item : string * Coords => contains item.1 text) table = Some (name, coords) ->
  name ∈ reachable_from seen table.
Proof.
  revert seen. induction table as [|[k v] table IH]; intros seen Hseen; [done|].
  cbn [List.find fst]. destruct (contains k text) eqn:Hk.
  - intros [= -> ->]. cbn [reachable_from].
    destruct (any_in seen name) eqn:Hany; [|by left].
    unfold any_in in Hany. apply existsb_exists in Hany as (s & Hs & Hsub).
    pose proof (contains_trans _ _ _ Hsub Hk) as Hhit.
    by rewrite (Hseen s Hs) in Hhit.
  - intros Hfind. apply reachable_from_snoc, IH; [|done].
    intros s Hs. apply in_app_or in Hs as [Hs|[<-|[]]]; [by apply Hseen|done].
Qed.

Lemma find_first {A : Type} (f : A -> bool) (l : list A) (x : A) :
  List.find f l = Some x ->
  exists before after,
    l = before ++ x :: after /\ Forall (fun y => f y = false) before /\ f x = true.
Proof.
  induction l as [|y l IH]; cbn; [done|].
  destruct (f y) eqn:Hy.
  - intros [= ->]. by exists [], l.
  - intros Hfind. destruct (IH Hfind) as (before & after & -> & Hbefore & Hx).
    exists (y :: before), after. split_and!; [done|by constructor|done].
Qed.

Lemma reachable_keys_are_not_shadowed :
  Forall (fun name => name ∉ shadowed_keys) reachable_keys.
Proof. compute_done. Qed.
End location_table.

(** X18: a text that mentions a key of the location table gets its location
    from the first key, in table order, that occurs in it (no key before it
    in the table occurs in the text), and the pattern phase is not entered.
    Twelve entries can therefore never be chosen, because an earlier key
    occurs in their own key: a text about 종로구 or 노원구 gets the entry of
    종로 or 노원 (or an earlier one), never the district centre. *)
Theorem extract_location_never_uses_a_shadowed_entry
    (re_search : string -> string -> option string)
    (_extract_location_names : string -> list string)
    (estimated_lat estimated_lng : string -> float) (text : string)
    (Hmention : exists key,
       key ∈ PyDict.keys LocationExtractor.location_mapping /\ contains key text = true) :
  exists before name coords after,
    LocationExtractor.location_mapping = before ++ (name, coords) :: after /\
    Forall (fun entry : string * LocationExtractor.Coords => contains entry.1 text = false)
      before /\
    contains name text = true /\
    (name ∉ ["홍대입구역"; "신촌역"; "명동역"; "종로3가역"; "이태원역"; "잠실역";
             "건대입구역"; "노원역"; "수원역"; "인천역"; "노원구"; "종로구"]) /\
    LocationExtractor.extract_location re_search _extract_location_names
      estimated_lat estimated_lng text =
      Some (LocationExtractor.to_location re_search coords).
Proof.
  destruct Hmention as (key & Hkey & Hhit).
  unfold LocationExtractor.extract_location.
  destruct (LocationExtractor.direct_match text) as [[name coords]|] eqn:Hdirect.
  - destruct (find_first _ _ _ Hdirect) as (before & after & Htable & Hbefore & Hname).
    exists before, name, coords, after.
    split_and!; [done|done|done| |done].
    assert (name ∈ LocationExtractor.reachable_keys) as Hreach.
    { apply (find_reachable _ [] text name coords); [by intros s []|done]. }
    pose proof reachable_keys_are_not_shadowed as Hall.
    rewrite Forall_forall in Hall. apply (Hall name Hreach).
  - by rewrite (direct_match_None _ _ Hdirect Hkey) in Hhit.
Qed.

Lemma extract_location_never_uses_a_shadowed_entry_witness :
  exists before name coords after,
    LocationExtractor.location_mapping = before ++ (name, coords) :: after /\
    Forall (fun entry : string * LocationExtractor.Coords =>
              contains entry.1 "종로구에 러브버그가 많아요" = false) before /\
    contains name "종로구에 러브버그가 많아요" = true /\
    (name ∉ ["홍대입구역"; "신촌역"; "명동역"; "종로3가역"; "이태원역"; "잠실역";
             "건대입구역"; "노원역"; "수원역"; "인천역"; "노원구"; "종로구"]) /\
    LocationExtractor.extract_location (fun _ _ => None) (fun _ => [])
      (fun _ => "37.5665") (fun _ => "126.978") "종로구에 러브버그가 많아요" =
      Some (LocationExtractor.to_location (fun _ _ => None) coords).
Proof.
  apply extract_location_never_uses_a_shadowed_entry.
  exists "종로구". split; [compute_done|by vm_compute].
Defined.

(** The location of the witness: the entry of 종로, not that of 종로구. *)
Example district_text_gets_the_station_entry :
  LocationExtractor.extract_location (fun _ _ => None) (fun _ => [])
    (fun _ => "37.5665") (fun _ => "126.978") "종로구에 러브버그가 많아요" =
    Some {| Location.latitude := "37.5704";
            Location.longitude := "126.9826";
            Location.address := Some "서울특별시 종로구 종로";
            Location.district := None;
            Location.city := None |}.
Proof. by vm_compute. Qed.

(** X19: when the pattern phase of [extract_location] is reached, the name it
    hands to [_get_coordinates] is never a key of the table, so the lookup
    there always misses and the coordinates are the estimate, with the name
    itself as the address, or nothing; given that the names found in a text
    occur in it, as the groups of [re.findall] do. *)
Theorem pattern_phase_never_finds_the_name_in_the_table
    (re_search : string -> string -> option string)
    (_extract_location_names : string -> list string)
    (estimated_lat estimated_lng : string -> float)
    (Hgroups : forall text name,
       name ∈ _extract_location_names text -> contains name text = true)
    (text : string)
    (Hdirect : LocationExtractor.direct_match text = None) :
  LocationExtractor.extract_location re_search _extract_location_names
    estimated_lat estimated_lng text =
    match _extract_location_names text with
    | [] => None
    | location_name :: _ =>
        if any_in ["역"; "구"; "동"] location_name
        then Some (LocationExtractor.to_location re_search
                     (LocationExtractor.estimated estimated_lat estimated_lng location_name))
        else None
    end.
Proof.
  unfold LocationExtractor.extract_location. rewrite Hdirect.
  destruct (_extract_location_names text) as [|location_name rest] eqn:Hnames; [done|].
  unfold LocationExtractor._get_coordinates.
  assert (PyDict.get location_name LocationExtractor.location_mapping = None) as ->.
  { apply dict_get_None. intros Hkey.
    pose proof (direct_match_None _ _ Hdirect Hkey) as Hmiss.
    rewrite Hgroups in Hmiss; [done|]. rewrite Hnames. by left. }
  by destruct (any_in _ location_name).
Qed.

Lemma pattern_phase_never_finds_the_name_in_the_table_witness :
  LocationExtractor.extract_location (fun _ _ => None)
    (fun text => if contains "역삼동" text then ["역삼동"] else [])
    (fun _ => "37.5665") (fun _ => "126.978") "역삼동 근처에 러브버그 떼" =
    Some {| Location.latitude := "37.5665";
            Location.longitude := "126.978";
            Location.address := Some "서울특별시 역삼동";
            Location.district := None;
            Location.city := None |}.
Proof.
  rewrite (pattern_phase_never_finds_the_name_in_the_table (fun _ _ => None)
             (fun text => if contains "역삼동" text then ["역삼동"] else [])
             (fun _ => "37.5665") (fun _ => "126.978")).
  - by vm_compute.
  - intros text name. destruct (contains "역삼동" text) eqn:Hhit.
    + intros Hin. apply list_elem_of_singleton in Hin. by subst.
    + intros Hin. by apply elem_of_nil in Hin.
  - by vm_compute.
Defined.

(** * The report route: [get_report] *)

Module Routes.
(** What a route handler may raise: [HTTPException], which is an [Exception]
    like any other, told apart here because the framework answers with its
    status code. *)
Inductive RouteExn : Type :=
| HTTPException (status_code : nat) (detail : string)
| OtherException (what : string).

Inductive Outcome (A : Type) : Type :=
| Returned (a : A)
| Raised (e : RouteExn).
Global Arguments Returned {A} a.
Global Arguments Raised {A} e.

(** The store and the libraries behind the route. *)
Class Store : Type := {
  (** is [db] a database ([get_database] hands out the global of [main],
      [None] before start-up) *)
  db_is_set : bool;
  (** [ObjectId(report_id)]; raises [InvalidId] on a text that is no id *)
  ObjectId : string -> Outcome PyValue;
  (** [await collection.find_one({"_id": oid})] *)
  find_one : PyValue -> Outcome (option (list (string * PyValue)));
  (** [str(v)] *)
  str : PyValue -> string;
  (** the [LovebugReport] built from the entries of [doc] as keyword
      arguments; raises [ValidationError] *)
  parse_report : list (string * PyValue) -> Outcome LovebugReport.t
}.

Section routes.
Context `{Store}.

Definition not_found : RouteExn := HTTPException 404 "보고서를 찾을 수 없습니다.".
Definition server_error : RouteExn := HTTPException 500 "보고서 조회 중 오류가 발생했습니다.".

(** The body of the [try] of [get_report]. *)
Definition get_report_body (report_id : string) : Outcome LovebugReport.t :=
  if db_is_set then
    match ObjectId report_id with
    | Raised e => Raised e
    | Returned oid =>
        match find_one oid with
        | Raised e => Raised e
        | Returned None => Raised not_found
        | Returned (Some []) => Raised not_found
        | Returned (Some doc) =>
            match PyDict.get "_id" doc with
            | None => Raised (OtherException "KeyError")
            | Some _id =>
                parse_report (PyDict.pop "_id" (PyDict.set "id" (PyStr (str _id)) doc))
            end
        end
    end
  else Raised (OtherException "AttributeError").

(** [try: .. except Exception as e: raise HTTPException(status_code=500, ..)] *)
Definition get_report (report_id : string) : Outcome LovebugReport.t :=
  match get_report_body report_id with
  | Returned report => Returned report
  | Raised _ => Raised server_error
  end.
End routes.

(** A store that holds no report at all. *)
Definition empty_store : Store :=
  {| db_is_set := true;
     ObjectId := fun report_id => Returned (PyStr report_id);
     find_one := fun _ => Returned None;
     str := fun v => match v with PyStr s => s | _ => EmptyString end;
     parse_report := fun _ => Raised (OtherException "ValidationError") |}.
End Routes.

(** X20: [get_report] never answers 404.  When the store has no document
    under the id, the [HTTPException(404)] is raised inside the [try], caught
    by its [except Exception] and replaced: the caller gets status 500 with
    the generic detail. *)
Theorem get_report_answers_500_for_a_missing_report `{Routes.Store}
    (report_id : string) (oid : PyValue)
    (Hdb : Routes.db_is_set = true)
    (Hid : Routes.ObjectId report_id = Routes.Returned oid)
    (Hmissing : Routes.find_one oid = Routes.Returned None) :
  Routes.get_report_body report_id =
    Routes.Raised (Routes.HTTPException 404 "보고서를 찾을 수 없습니다.") /\
  Routes.get_report report_id =
    Routes.Raised (Routes.HTTPException 500 "보고서 조회 중 오류가 발생했습니다.") /\
  (forall status detail,
     Routes.get_report report_id = Routes.Raised (Routes.HTTPException status detail) ->
     status = 500).
Proof.
  assert (Routes.get_report_body report_id = Routes.Raised Routes.not_found) as Hbody.
  { unfold Routes.get_report_body. by rewrite Hdb, Hid, Hmissing. }
  split; [done|]. unfold Routes.get_report. rewrite Hbody.
  split; [done|]. by intros status detail [= <- _].
Qed.

Lemma get_report_answers_500_for_a_missing_report_witness :
  Routes.get_report (H := Routes.empty_store) "64b7f0c2a1d3e4f5a6b7c8d9" =
    Routes.Raised (Routes.HTTPException 500 "보고서 조회 중 오류가 발생했습니다.").
Proof.
  apply (get_report_answers_500_for_a_missing_report (H := Routes.empty_store)
           "64b7f0c2a1d3e4f5a6b7c8d9" (PyStr "64b7f0c2a1d3e4f5a6b7c8d9")
           eq_refl eq_refl eq_refl).
Defined.
